(** * readline/readline.go: the line-reading loop, history recall and pager

    A shallow embedding of [readline.go], and the properties of it that
    the design document states.

    Go's [rune] and [int] are modelled as [Z]; a Go [string] and a
    [[]rune] are both modelled as the list of their code points ([text]),
    which is what [[]rune(s)] and [string(rs)] convert between for the
    valid code points that [bufio.Reader.ReadRune] delivers.

    The terminal's input is the finite list of code points still to be
    delivered; a read on the exhausted list is the read failure of the
    source.  [Readline] and the pager read it through two buffered
    readers on the same standard input; the model gives both the same
    list, as for a terminal that delivers one key at a time, and does not
    follow what a reader may hold back in its buffer.

    Integer overflow is not modelled: the [int]s of the file are history
    positions, line counts and terminal dimensions, and the sums and
    differences the pager forms of them stay within the range of [int]
    ([pager_arithmetic_fits]).

    [buffer.go], [history.go], [types.go] and the files of the raw-mode
    and suspend handling are not at hand.  [Readline] is modelled over
    any line buffer and any history with the methods it calls, over any
    table of key constants, and over what the collaborators answer. *)

From Stdlib Require Import ZArith List Bool Lia Ascii.
Import ListNotations.
Local Open Scope Z_scope.

Set Implicit Arguments.

(** ** Code points, text, errors *)

Definition rune : Type := Z.
Definition text : Type := list rune.

Definition text_eq_dec : forall a b : text, {a = b} + {a <> b} :=
  list_eq_dec Z.eq_dec.

(** [len(s) == 0], i.e. [s == ""]. *)
Definition isEmptyText (s : text) : bool :=
  match s with [] => true | _ :: _ => false end.

(** A Go rune literal such as ['q']. *)
Definition lit (c : ascii) : rune := Z.of_N (N_of_ascii c).

(** The error values [Readline] can return: [io.EOF], the package's
    [ErrInterrupt], and whatever a collaborator reports. *)
Inductive error : Type :=
| EOF
| ErrInterrupt
| ErrOther (code : Z).

(** ** The key constants

    [types.go] is not part of the sources at hand: the control codes, the
    key codes of the extended escape sequences and the two bracketed-paste
    markers are parameters of the development. *)
Class Keys : Type := {
  CharNull : rune;
  CharLineStart : rune;
  CharBackward : rune;
  CharInterrupt : rune;
  CharDelete : rune;
  CharLineEnd : rune;
  CharForward : rune;
  CharCtrlH : rune;
  CharTab : rune;
  CharCtrlJ : rune;
  CharKill : rune;
  CharCtrlL : rune;
  CharEnter : rune;
  CharNext : rune;
  CharCtrlO : rune;
  CharPrev : rune;
  CharCtrlU : rune;
  CharCtrlW : rune;
  CharCtrlZ : rune;
  CharEsc : rune;
  CharSpace : rune;
  CharEscapeEx : rune;
  CharBackspace : rune;
  KeyDel : rune;
  KeyUp : rune;
  KeyDown : rune;
  KeyRight : rune;
  KeyLeft : rune;
  MetaEnd : rune;
  MetaStart : rune;
  CharBracketedPaste : rune;
  CharBracketedPasteStart : text;
  CharBracketedPasteEnd : text
}.

(** Modelled from the spec: the constants of [types.go] are missing; the
    spec only says that they "follow conventional ANSI terminal
    semantics".  These are the conventional values (Ctrl+A = 1, ...,
    ESC = 27, DEL = 127, CSI final bytes A/B/C/D, the paste brackets
    [ESC [ 2 0 0 ~] and [ESC [ 2 0 1 ~]); they serve as the concrete key
    table of the examples. *)
Definition ansi : Keys := {|
  CharNull := 0;
  CharLineStart := 1;
  CharBackward := 2;
  CharInterrupt := 3;
  CharDelete := 4;
  CharLineEnd := 5;
  CharForward := 6;
  CharCtrlH := 8;
  CharTab := 9;
  CharCtrlJ := 10;
  CharKill := 11;
  CharCtrlL := 12;
  CharEnter := 13;
  CharNext := 14;
  CharCtrlO := 15;
  CharPrev := 16;
  CharCtrlU := 21;
  CharCtrlW := 23;
  CharCtrlZ := 26;
  CharEsc := 27;
  CharSpace := 32;
  CharEscapeEx := 91;
  CharBackspace := 127;
  KeyDel := 51;
  KeyUp := 65;
  KeyDown := 66;
  KeyRight := 67;
  KeyLeft := 68;
  MetaEnd := 70;
  MetaStart := 72;
  CharBracketedPaste := 50;
  CharBracketedPasteStart := [48; 48; 126];
  CharBracketedPasteEnd := [48; 49; 126]
|}.

(** ** What is written to the terminal

    The escape strings themselves ([ColorGrey], [ClearToEOL], ...) are
    constants of a missing file; each print of the source is one event. *)
Inductive Output : Type :=
| OutPrompt (p : text)              (* [fmt.Print(prompt)] *)
| OutPlaceholder (ph : text)        (* the greyed placeholder, cursor moved back *)
| OutClearToEOL
| OutBell                           (* ["\a"] *)
| OutNewline                        (* [fmt.Println()] *)
| OutEnterAltScreen
| OutExitAltScreen
| OutFrame (offset end_ total : Z). (* one rendering of the pager: the lines
                                       [offset, end_) and the status line *)

(** ** The pager: [showPager] *)

(** [strings.Split(content, "\n")]: never empty, one more line than there
    are newlines. *)
Fixpoint Split (content : text) : list text :=
  match content with
  | [] => [[]]
  | c :: rest =>
      if c =? 10 then [] :: Split rest
      else match Split rest with
           | l :: ls => (c :: l) :: ls
           | [] => [[c]]
           end
  end.

(** [r, _, _ := reader.ReadRune()] with the error dropped: at the end of
    the stream the rune is 0. *)
Definition ReadRune (stdin : list rune) : rune * list rune :=
  match stdin with
  | [] => (0, [])
  | r :: rest => (r, rest)
  end.

Section Pager.
Context {K : Keys}.

(** [term.GetSize(int(os.Stdout.Fd()))]: [Some (w, h)] when [err == nil]. *)
Variable GetSize : option (Z * Z).

(** [termWidth, termHeight]: 80x24 unless the size is known, in which
    case one row is left to the status line. *)
Definition termSize : Z * Z :=
  match GetSize with
  | Some (w, h) => (w, h - 1)
  | None => (80, 24)
  end.

Definition lineDown (n termHeight offset : Z) : Z :=
  if offset <? n - termHeight then offset + 1 else offset.

Definition lineUp (offset : Z) : Z :=
  if 0 <? offset then offset - 1 else offset.

Definition pageDown (n termHeight offset : Z) : Z :=
  let offset := offset + termHeight in
  if n - termHeight <? offset then
    let offset := n - termHeight in
    if offset <? 0 then 0 else offset
  else offset.

Definition pageUp (termHeight offset : Z) : Z :=
  let offset := offset - termHeight in
  if offset <? 0 then 0 else offset.

Definition goBottom (n termHeight : Z) : Z :=
  let offset := n - termHeight in
  if offset <? 0 then 0 else offset.

(** The [switch r] of the pager loop, for a rune [r] just read.  [None]
    is [return]; otherwise the new offset and what is left of the input
    (the arrow and page keys read further runes). *)
Definition pagerKey (n termHeight offset : Z) (r : rune) (stdin : list rune)
  : option (Z * list rune) :=
  if (r =? lit "q") || (r =? lit "Q") || (r =? CharCtrlO) || (r =? CharInterrupt)
  then None
  else if (r =? lit "j") || (r =? CharCtrlJ) || (r =? CharEnter)
  then Some (lineDown n termHeight offset, stdin)
  else if r =? lit "k" then Some (lineUp offset, stdin)
  else if (r =? lit " ") || (r =? CharForward)
  then Some (pageDown n termHeight offset, stdin)
  else if r =? CharBackward then Some (pageUp termHeight offset, stdin)
  else if r =? lit "g" then Some (0, stdin)
  else if r =? lit "G" then Some (goBottom n termHeight, stdin)
  else if r =? CharEsc then
    let (r2, stdin) := ReadRune stdin in
    if r2 =? lit "[" then
      let (r3, stdin) := ReadRune stdin in
      if r3 =? lit "A" then Some (lineUp offset, stdin)
      else if r3 =? lit "B" then Some (lineDown n termHeight offset, stdin)
      else if r3 =? lit "5" then
        let (_, stdin) := ReadRune stdin in
        Some (pageUp termHeight offset, stdin)
      else if r3 =? lit "6" then
        let (_, stdin) := ReadRune stdin in
        Some (pageDown n termHeight offset, stdin)
      else Some (offset, stdin)
    else Some (offset, stdin)
  else Some (offset, stdin).

(** The [for] loop of [showPager]: render, read one rune, dispatch.
    Every iteration that does not return consumes at least one rune, so
    the fuel [S (length stdin)] is never used up ([pagerLoop_returns]). *)
Fixpoint pagerLoop (fuel : nat) (n termHeight offset : Z) (stdin : list rune)
  : option (list Output * list rune) :=
  match fuel with
  | O => None
  | S fuel =>
      let end_ := offset + termHeight in
      let end_ := if n <? end_ then n else end_ in
      let frame := OutFrame offset end_ n in
      match stdin with
      | [] => Some ([frame], [])
      | r :: rest =>
          match pagerKey n termHeight offset r rest with
          | None => Some ([frame], rest)
          | Some (offset, rest) =>
              match pagerLoop fuel n termHeight offset rest with
              | Some (out, rest) => Some (frame :: out, rest)
              | None => None
              end
          end
      end
  end.

(** [showPager(content)], reading from the stream [stdin]: the output
    produced and what is left of the stream. *)
Definition showPager (content : text) (stdin : list rune)
  : list Output * list rune :=
  let lines := Split content in
  let termHeight := snd termSize in
  match pagerLoop (S (length stdin)) (Z.of_nat (length lines)) termHeight 0 stdin with
  | Some (out, rest) => (OutEnterAltScreen :: out ++ [OutExitAltScreen], rest)
  | None => ([OutEnterAltScreen; OutExitAltScreen], stdin)
  end.

(** The offsets of the frames rendered, in order. *)
Fixpoint frameOffsets (out : list Output) : list Z :=
  match out with
  | [] => []
  | OutFrame offset _ _ :: out => offset :: frameOffsets out
  | _ :: out => frameOffsets out
  end.

End Pager.

(** ** The line buffer and the history, as [Readline] sees them

    [buffer.go] and [history.go] are not part of the sources at hand.
    [Readline] uses the two types only through the methods and fields
    below, so the loop is modelled over any implementation of them.  The
    methods of [Buffer] also redraw the line; what they write is kept
    inside the buffer value. *)

Record Prompt : Type := {
  PromptStr : text;       (* the field [Prompt] *)
  AltPrompt : text;
  Placeholder : text;
  AltPlaceholder : text;
  UseAlt : bool
}.

Definition prompt (p : Prompt) : text :=
  if UseAlt p then AltPrompt p else PromptStr p.

Definition placeholder (p : Prompt) : text :=
  if UseAlt p then AltPlaceholder p else Placeholder p.

Module Buffer.
Class Ops (B : Type) : Type := {
  NewBuffer : Prompt -> B;
  IsEmpty : B -> bool;
  DisplaySize : B -> Z;
  String : B -> text;
  Add : rune -> B -> B;
  Remove : B -> B;
  Delete : B -> B;
  DeleteBefore : B -> B;
  DeleteRemaining : B -> B;
  DeleteWord : B -> B;
  MoveLeft : B -> B;
  MoveRight : B -> B;
  MoveLeftWord : B -> B;
  MoveRightWord : B -> B;
  MoveToStart : B -> B;
  MoveToEnd : B -> B;
  Replace : text -> B -> B;
  ClearScreen : B -> B
}.
End Buffer.

Module History.
Class Ops (H : Type) : Type := {
  Pos : H -> Z;                 (* the field [Pos] *)
  Size : H -> Z;
  Add : text -> H -> H;
  Prev : H -> text * H;
  Next : H -> text * H
}.
End History.

(** ** [Readline] *)

Section Readline.
Context {K : Keys}.
Context (B : Type) {BufferOps : Buffer.Ops B}.
Context (H : Type) {HistoryOps : History.Ops H}.

(** The saved terminal settings, an [any] in the source. *)
Variable Termios : Type.

(** The collaborators of [readline.go] that live in other files:
    what [SetRawMode(fd)] answers, what [handleCharCtrlZ] returns for
    the saved settings, and the terminal size the pager is given. *)
Variable SetRawMode : Termios + error.
Variable handleCharCtrlZ : option Termios -> text * option error.
Variable GetSize : option (Z * Z).

Record Terminal : Type := {
  reader : list rune;
  rawmode : bool;
  termios : option Termios
}.

Record Instance : Type := {
  iPrompt : Prompt;           (* the field [Prompt] *)
  iTerminal : Terminal;       (* the field [Terminal] *)
  iHistory : H;               (* the field [History] *)
  Pasting : bool;
  ToolOutput : text
}.

Definition setTerminal (t : Terminal) (i : Instance) : Instance :=
  {| iPrompt := iPrompt i; iTerminal := t; iHistory := iHistory i;
     Pasting := Pasting i; ToolOutput := ToolOutput i |}.

Definition setHistory (h : H) (i : Instance) : Instance :=
  {| iPrompt := iPrompt i; iTerminal := iTerminal i; iHistory := h;
     Pasting := Pasting i; ToolOutput := ToolOutput i |}.

Definition setPasting (p : bool) (i : Instance) : Instance :=
  {| iPrompt := iPrompt i; iTerminal := iTerminal i; iHistory := iHistory i;
     Pasting := p; ToolOutput := ToolOutput i |}.

Definition setReader (rd : list rune) (t : Terminal) : Terminal :=
  {| reader := rd; rawmode := rawmode t; termios := termios t |}.

(** [(t *Terminal) Read()]: [None] is the read error. *)
Definition Read (t : Terminal) : option rune * Terminal :=
  match reader t with
  | [] => (None, t)
  | r :: rest => (Some r, setReader rest t)
  end.

(** [historyPrev] and [historyNext], on the instance, the buffer and
    the saved draft [*currentLineBuf]. *)
Definition historyPrev (i : Instance) (buf : B) (currentLineBuf : text)
  : Instance * B * text :=
  let h := iHistory i in
  if 0 <? History.Pos h then
    let currentLineBuf :=
      if History.Pos h =? History.Size h then Buffer.String buf
      else currentLineBuf in
    let (line, h) := History.Prev h in
    (setHistory h i, Buffer.Replace line buf, currentLineBuf)
  else (i, buf, currentLineBuf).

Definition historyNext (i : Instance) (buf : B) (currentLineBuf : text)
  : Instance * B * text :=
  let h := iHistory i in
  if History.Pos h <? History.Size h then
    let (line, h) := History.Next h in
    let buf := Buffer.Replace line buf in
    let buf :=
      if History.Pos h =? History.Size h then Buffer.Replace currentLineBuf buf
      else buf in
    (setHistory h i, buf, currentLineBuf)
  else (i, buf, currentLineBuf).

(** The local variables of [Readline] while its loop runs, with the
    instance they act on and the output written so far. *)
Record Loop : Type := mkLoop {
  inst : Instance;
  buf : B;
  esc : bool;
  escex : bool;
  metaDel : bool;
  currentLineBuf : text;
  out : list Output
}.

(** One pass through the body of the loop either goes round again
    ([continue], or the end of the body) or returns. *)
Inductive outcome : Type :=
| Continue (s : Loop)
| Return (output : text) (err : option error) (s : Loop).

Definition onBuf (f : B -> B) (s : Loop) : Loop :=
  mkLoop (inst s) (f (buf s)) (esc s) (escex s) (metaDel s)
         (currentLineBuf s) (out s).

Definition onInst (f : Instance -> Instance) (s : Loop) : Loop :=
  mkLoop (f (inst s)) (buf s) (esc s) (escex s) (metaDel s)
         (currentLineBuf s) (out s).

Definition onHistory (f : Instance -> B -> text -> Instance * B * text)
           (s : Loop) : Loop :=
  let '(i, b, cur) := f (inst s) (buf s) (currentLineBuf s) in
  mkLoop i b (esc s) (escex s) (metaDel s) cur (out s).

Definition setEsc (v : bool) (s : Loop) : Loop :=
  mkLoop (inst s) (buf s) v (escex s) (metaDel s) (currentLineBuf s) (out s).

Definition setEscex (v : bool) (s : Loop) : Loop :=
  mkLoop (inst s) (buf s) (esc s) v (metaDel s) (currentLineBuf s) (out s).

Definition setMetaDel (v : bool) (s : Loop) : Loop :=
  mkLoop (inst s) (buf s) (esc s) (escex s) v (currentLineBuf s) (out s).

Definition emit (o : list Output) (s : Loop) : Loop :=
  mkLoop (inst s) (buf s) (esc s) (escex s) (metaDel s) (currentLineBuf s)
         (out s ++ o).

(** [for range 3 { r, err = i.Terminal.Read(); ...; code += string(r) }]:
    [None] when one of the reads fails. *)
Fixpoint readCode (n : nat) (code : text) (t : Terminal)
  : option text * Terminal :=
  match n with
  | O => (Some code, t)
  | S n =>
      match Read t with
      | (None, t) => (None, t)
      | (Some r, t) => readCode n (code ++ [r]) t
      end
  end.

(** The body of [if escex { ... }], after [escex = false], for the rune
    [r] just read. *)
Definition extended (r : rune) (s : Loop) : outcome :=
  if r =? KeyUp then Continue (onHistory historyPrev s)
  else if r =? KeyDown then Continue (onHistory historyNext s)
  else if r =? KeyLeft then Continue (onBuf Buffer.MoveLeft s)
  else if r =? KeyRight then Continue (onBuf Buffer.MoveRight s)
  else if r =? CharBracketedPaste then
    match readCode 3 [] (iTerminal (inst s)) with
    | (None, t) => Return [] (Some EOF) (onInst (setTerminal t) s)
    | (Some code, t) =>
        let s := onInst (setTerminal t) s in
        if text_eq_dec code CharBracketedPasteStart
        then Continue (onInst (setPasting true) s)
        else if text_eq_dec code CharBracketedPasteEnd
        then Continue (onInst (setPasting false) s)
        else Continue s
    end
  else if r =? KeyDel then
    let s := if 0 <? Buffer.DisplaySize (buf s)
             then onBuf Buffer.Delete s else s in
    Continue (setMetaDel true s)
  else if r =? MetaStart then Continue (onBuf Buffer.MoveToStart s)
  else if r =? MetaEnd then Continue (onBuf Buffer.MoveToEnd s)
  else Continue s.

(** The body of [else if esc { ... }], after [esc = false]. *)
Definition escape (r : rune) (s : Loop) : outcome :=
  if r =? lit "b" then Continue (onBuf Buffer.MoveLeftWord s)
  else if r =? lit "f" then Continue (onBuf Buffer.MoveRightWord s)
  else if r =? CharBackspace then Continue (onBuf Buffer.DeleteWord s)
  else if r =? CharEscapeEx then Continue (setEscex true s)
  else Continue s.

(** [for range 8 { buf.Add(' ') }] *)
Definition addTab (b : B) : B :=
  Nat.iter 8 (Buffer.Add (lit " ")) b.

(** The main [switch r]. *)
Definition normal (r : rune) (s : Loop) : outcome :=
  if r =? CharNull then Continue s
  else if r =? CharEsc then Continue (setEsc true s)
  else if r =? CharInterrupt then Return [] (Some ErrInterrupt) s
  else if r =? CharPrev then Continue (onHistory historyPrev s)
  else if r =? CharNext then Continue (onHistory historyNext s)
  else if r =? CharLineStart then Continue (onBuf Buffer.MoveToStart s)
  else if r =? CharLineEnd then Continue (onBuf Buffer.MoveToEnd s)
  else if r =? CharBackward then Continue (onBuf Buffer.MoveLeft s)
  else if r =? CharForward then Continue (onBuf Buffer.MoveRight s)
  else if (r =? CharBackspace) || (r =? CharCtrlH)
  then Continue (onBuf Buffer.Remove s)
  else if r =? CharTab then Continue (onBuf addTab s)
  else if r =? CharDelete then
    if 0 <? Buffer.DisplaySize (buf s)
    then Continue (onBuf Buffer.Delete s)
    else Return [] (Some EOF) s
  else if r =? CharKill then Continue (onBuf Buffer.DeleteRemaining s)
  else if r =? CharCtrlU then Continue (onBuf Buffer.DeleteBefore s)
  else if r =? CharCtrlL then Continue (onBuf Buffer.ClearScreen s)
  else if r =? CharCtrlO then
    if isEmptyText (ToolOutput (inst s)) then Continue (emit [OutBell] s)
    else
      let t := iTerminal (inst s) in
      let (shown, rest) := showPager GetSize (ToolOutput (inst s)) (reader t) in
      Continue (emit shown (onInst (setTerminal (setReader rest t)) s))
  else if r =? CharCtrlW then Continue (onBuf Buffer.DeleteWord s)
  else if r =? CharCtrlZ then
    let (output, err) := handleCharCtrlZ (termios (iTerminal (inst s))) in
    Return output err s
  else if (r =? CharEnter) || (r =? CharCtrlJ) then
    let output := Buffer.String (buf s) in
    let s := if isEmptyText output then s
             else onInst (fun i => setHistory (History.Add output (iHistory i)) i) s in
    Return output None (emit [OutNewline] (onBuf Buffer.MoveToEnd s))
  else if metaDel s then Continue (setMetaDel false s)
  else if (CharSpace <=? r) || (r =? CharEnter) || (r =? CharCtrlJ)
  then Continue (onBuf (Buffer.Add r) s)
  else Continue s.

(** [if escex { ... } else if esc { ... }] and the main [switch]. *)
Definition dispatch (r : rune) (s : Loop) : outcome :=
  if escex s then extended r (setEscex false s)
  else if esc s then escape r (setEsc false s)
  else normal r s.

(** The body of the [for] loop. *)
Definition iteration (s : Loop) : outcome :=
  let showPlaceholder :=
    negb (Pasting (inst s)) || UseAlt (iPrompt (inst s)) in
  let s := if Buffer.IsEmpty (buf s) && showPlaceholder
           then emit [OutPlaceholder (placeholder (iPrompt (inst s)))] s
           else s in
  let (r, t) := Read (iTerminal (inst s)) in
  let s := onInst (setTerminal t) s in
  let s := if Buffer.IsEmpty (buf s) then emit [OutClearToEOL] s else s in
  match r with
  | None => Return [] (Some EOF) s
  | Some r => dispatch r s
  end.

(** The loop itself.  An iteration that does not return has read at
    least one rune, so [S (length (reader ...))] iterations are always
    enough ([loop_returns]). *)
Fixpoint loop (fuel : nat) (s : Loop) : option (text * option error * Loop) :=
  match fuel with
  | O => None
  | S fuel =>
      match iteration s with
      | Continue s => loop fuel s
      | Return output err s => Some (output, err, s)
      end
  end.

(** The deferred function: [UnsetRawMode(fd, i.Terminal.termios)], its
    error dropped, and [i.Terminal.rawmode = false]. *)
Definition deferred (i : Instance) : Instance :=
  setTerminal {| reader := reader (iTerminal i); rawmode := false;
                 termios := termios (iTerminal i) |} i.

(** The first statement of [Readline]: raw mode is entered unless the
    terminal is in it already; an error of [SetRawMode] is returned. *)
Definition enterRawMode (i : Instance) : Instance + error :=
  if rawmode (iTerminal i) then inl i
  else match SetRawMode with
       | inr err => inr err
       | inl tio =>
           inl (setTerminal {| reader := reader (iTerminal i);
                               rawmode := true;
                               termios := Some tio |} i)
       end.

(** The state of [Readline] on entry to its loop: the prompt is
    written (the alternative one when pasting), the buffer is new, the
    decoder's flags are clear and no draft is saved. *)
Definition entry (i : Instance) : Loop :=
  mkLoop i (Buffer.NewBuffer (iPrompt i)) false false false []
         [OutPrompt (if Pasting i then AltPrompt (iPrompt i)
                     else prompt (iPrompt i))].

(** [(i *Instance) Readline()]: the line, the error, the instance as the
    call leaves it and what was written to the terminal. *)
Definition Readline (i : Instance)
  : option (text * option error * Instance * list Output) :=
  match enterRawMode i with
  | inr err => Some ([], Some err, i, [])
  | inl i =>
      match loop (S (length (reader (iTerminal i)))) (entry i) with
      | None => None
      | Some (output, err, s) => Some (output, err, deferred (inst s), out s)
      end
  end.

(** [iterations n s]: up to [n] passes through the body, stopping at
    the first return. *)
Fixpoint iterations (n : nat) (s : Loop) : outcome :=
  match n with
  | O => Continue s
  | S n =>
      match iteration s with
      | Continue s => iterations n s
      | Return output err s => Return output err s
      end
  end.

(** [reaches s s']: the loop, started in [s], comes to the top of its
    body in [s']. *)
Inductive reaches : Loop -> Loop -> Prop :=
| reaches_here (s : Loop) : reaches s s
| reaches_next (s s1 s' : Loop) :
    iteration s = Continue s1 -> reaches s1 s' -> reaches s s'.

(** The input still to be read. *)
Definition pending (s : Loop) : list rune := reader (iTerminal (inst s)).

(** The editing session: the line buffer, the history, the saved draft,
    paste mode and the decoder's three flags. *)
Definition session (s : Loop) : B * H * text * bool * (bool * bool * bool) :=
  (buf s, iHistory (inst s), currentLineBuf s, Pasting (inst s),
   (esc s, escex s, metaDel s)).

(** What is written apart from prompts and placeholders. *)
Definition isPromptOutput (o : Output) : bool :=
  match o with
  | OutPrompt _ | OutPlaceholder _ => true
  | _ => false
  end.

Definition quiet (o : list Output) : list Output :=
  filter (fun e => negb (isPromptOutput e)) o.

(** Two instances, and two loop states, that differ at most in paste
    mode and in the prompts and placeholders written. *)
Definition agreeInst (i1 i2 : Instance) : Prop :=
  iPrompt i1 = iPrompt i2 /\ iTerminal i1 = iTerminal i2 /\
  iHistory i1 = iHistory i2 /\ ToolOutput i1 = ToolOutput i2.

Definition agree (s1 s2 : Loop) : Prop :=
  agreeInst (inst s1) (inst s2) /\ buf s1 = buf s2 /\
  esc s1 = esc s2 /\ escex s1 = escex s2 /\ metaDel s1 = metaDel s2 /\
  currentLineBuf s1 = currentLineBuf s2 /\ quiet (out s1) = quiet (out s2).

Definition agreeOutcome (o1 o2 : outcome) : Prop :=
  match o1, o2 with
  | Continue s1, Continue s2 => agree s1 s2
  | Return t1 e1 s1, Return t2 e2 s2 => t1 = t2 /\ e1 = e2 /\ agree s1 s2
  | _, _ => False
  end.

(** The constant cases of the three [switch] statements, in the order
    of the source. *)
Definition mainCases : list rune :=
  [CharNull; CharEsc; CharInterrupt; CharPrev; CharNext; CharLineStart;
   CharLineEnd; CharBackward; CharForward; CharBackspace; CharCtrlH;
   CharTab; CharDelete; CharKill; CharCtrlU; CharCtrlL; CharCtrlO;
   CharCtrlW; CharCtrlZ; CharEnter; CharCtrlJ].

Definition extendedCases : list rune :=
  [KeyUp; KeyDown; KeyLeft; KeyRight; CharBracketedPaste; KeyDel;
   MetaStart; MetaEnd].

Definition escapeCases : list rune :=
  [lit "b"; lit "f"; CharBackspace; CharEscapeEx].

(** [isCase r l]: [r] is one of the constants [l]. *)
Definition isCase (r : rune) (l : list rune) : bool := existsb (Z.eqb r) l.

Fixpoint distinct (l : list rune) : bool :=
  match l with
  | [] => true
  | x :: l => negb (isCase x l) && distinct l
  end.

(** What the Go compiler checks of the key table when it accepts the
    file: no [switch] has the same constant in two cases. *)
Definition keysOK : bool :=
  distinct mainCases && distinct extendedCases && distinct escapeCases.

End Readline.

(** ** The line buffer and the history of the design

    [buffer.go] and [history.go] are missing; the two modules below give
    the buffer and the history that sections 3, 4.2 and 4.3 of the design
    describe, as implementations of [Buffer.Ops] and [History.Ops].
    Redrawing the line is not part of the model. *)

Module Line.

(** Modelled from the spec: the [Buffer] type of the missing [buffer.go].
    Section 3 gives the line as "an ordered sequence of Unicode code
    points ... plus an integer cursor index (0..=length)". *)
Record t : Type := mk {
  Text : text;
  Cursor : nat
}.

(** Modelled from the spec: the "whitespace/non-whitespace classification
    of code points" of the word moves, which the spec does not spell out;
    the ASCII blanks are taken as whitespace. *)
Definition isSpace (r : rune) : bool :=
  (r =? 32) || (r =? 9) || (r =? 10) || (r =? 13).

(** The length of the longest prefix of [l] whose elements satisfy [p]. *)
Fixpoint run (p : rune -> bool) (l : text) : nat :=
  match l with
  | [] => O
  | r :: l => if p r then S (run p l) else O
  end.

(** Modelled from the spec: the word boundary to the left of the cursor
    [c]; "skip to the nearest word boundary using a whitespace /
    non-whitespace classification of code points, symmetric in both
    directions": blanks are skipped, then the word. *)
Definition wordLeft (s : text) (c : nat) : nat :=
  let before := rev (firstn c s) in
  let blanks := run isSpace before in
  let word := run (fun r => negb (isSpace r)) (skipn blanks before) in
  (c - blanks - word)%nat.

(** Modelled from the spec: the word boundary to the right of the cursor
    [c], the mirror image of [wordLeft]. *)
Definition wordRight (s : text) (c : nat) : nat :=
  let after := skipn c s in
  let blanks := run isSpace after in
  let word := run (fun r => negb (isSpace r)) (skipn blanks after) in
  (c + blanks + word)%nat.

Section Ops.
(** The number of terminal columns a code point occupies: a table of a
    library outside the repository, a parameter here. *)
Variable RuneWidth : rune -> Z.

(** Modelled from the spec: [NewBuffer] of the missing [buffer.go]; a
    line is empty when its reading starts. *)
Definition NewBuffer (_ : Prompt) : t := mk [] 0.

(** Modelled from the spec: [is_empty()]. *)
Definition IsEmpty (b : t) : bool := isEmptyText (Text b).

(** Modelled from the spec: [display_width()], "the number of terminal
    columns a rendered string occupies". *)
Definition DisplaySize (b : t) : Z :=
  fold_right (fun r w => RuneWidth r + w) 0 (Text b).

(** Modelled from the spec: the text of the line, which [Readline]
    returns. *)
Definition String (b : t) : text := Text b.

(** Modelled from the spec: [insert(code_point)] "at cursor". *)
Definition Add (r : rune) (b : t) : t :=
  mk (firstn (Cursor b) (Text b) ++ r :: skipn (Cursor b) (Text b))
     (S (Cursor b)).

(** Modelled from the spec: [delete_before()] "(backspace)", a no-op at
    the start of the line. *)
Definition Remove (b : t) : t :=
  match Cursor b with
  | O => b
  | S c => mk (firstn c (Text b) ++ skipn (S c) (Text b)) c
  end.

(** Modelled from the spec: [delete_at()] "(forward delete)", a no-op at
    the end of the line. *)
Definition Delete (b : t) : t :=
  mk (firstn (Cursor b) (Text b) ++ skipn (S (Cursor b)) (Text b))
     (Cursor b).

(** Modelled from the spec: [delete_to_start()] "(kill to start of
    line)". *)
Definition DeleteBefore (b : t) : t :=
  mk (skipn (Cursor b) (Text b)) 0.

(** Modelled from the spec: [delete_to_end()] "(kill to end of line)". *)
Definition DeleteRemaining (b : t) : t :=
  mk (firstn (Cursor b) (Text b)) (Cursor b).

(** Modelled from the spec: the "delete-word" event of section 4.1; the
    text between the word boundary on the left and the cursor goes. *)
Definition DeleteWord (b : t) : t :=
  let c := wordLeft (Text b) (Cursor b) in
  mk (firstn c (Text b) ++ skipn (Cursor b) (Text b)) c.

(** Modelled from the spec: [move_left()] "by one code point, clamped to
    [0, length]". *)
Definition MoveLeft (b : t) : t :=
  mk (Text b) (Nat.pred (Cursor b)).

(** Modelled from the spec: [move_right()], clamped likewise. *)
Definition MoveRight (b : t) : t :=
  mk (Text b)
     (if (Cursor b <? length (Text b))%nat then S (Cursor b) else Cursor b).

(** Modelled from the spec: [move_left_word()]. *)
Definition MoveLeftWord (b : t) : t :=
  mk (Text b) (wordLeft (Text b) (Cursor b)).

(** Modelled from the spec: [move_right_word()]. *)
Definition MoveRightWord (b : t) : t :=
  mk (Text b) (wordRight (Text b) (Cursor b)).

(** Modelled from the spec: [move_to_start()]. *)
Definition MoveToStart (b : t) : t := mk (Text b) 0.

(** Modelled from the spec: [move_to_end()]. *)
Definition MoveToEnd (b : t) : t := mk (Text b) (length (Text b)).

(** Modelled from the spec: [replace(new_text)], "wholesale substitution
    used by history recall, cursor snaps to end". *)
Definition Replace (s : text) (_ : t) : t := mk s (length s).

(** Modelled from the spec: clearing the screen is output only; the line
    and the cursor stay. *)
Definition ClearScreen (b : t) : t := b.

(** Modelled from the spec: the operations above, as the buffer of
    [Readline]. *)
Definition ops : Buffer.Ops t := {|
  Buffer.NewBuffer := NewBuffer;
  Buffer.IsEmpty := IsEmpty;
  Buffer.DisplaySize := DisplaySize;
  Buffer.String := String;
  Buffer.Add := Add;
  Buffer.Remove := Remove;
  Buffer.Delete := Delete;
  Buffer.DeleteBefore := DeleteBefore;
  Buffer.DeleteRemaining := DeleteRemaining;
  Buffer.DeleteWord := DeleteWord;
  Buffer.MoveLeft := MoveLeft;
  Buffer.MoveRight := MoveRight;
  Buffer.MoveLeftWord := MoveLeftWord;
  Buffer.MoveRightWord := MoveRightWord;
  Buffer.MoveToStart := MoveToStart;
  Buffer.MoveToEnd := MoveToEnd;
  Buffer.Replace := Replace;
  Buffer.ClearScreen := ClearScreen
|}.
End Ops.

(** The buffer a user gets by typing [s] on a fresh line. *)
Definition typed (s : text) : t := fold_left (fun b r => Add r b) s (mk [] 0).

End Line.

Module HistoryLog.

(** Modelled from the spec: the [History] type of the missing
    [history.go].  Section 3: "an ordered, append-only sequence of
    previously submitted non-empty lines ..., plus a cursor [pos] in
    [0, len] where [pos == len] means not currently browsing". *)
Record t : Type := mk {
  Buf : list text;
  Pos : Z
}.

(** Modelled from the spec: [len], the number of lines recorded. *)
Definition Size (h : t) : Z := Z.of_nat (length (Buf h)).

(** Modelled from the spec: [HistoryLog[i]]; the empty string where there
    is no entry. *)
Definition Get (h : t) (i : Z) : text :=
  if (0 <=? i) && (i <? Size h) then nth (Z.to_nat i) (Buf h) [] else [].

(** Modelled from the spec: [record(line)] "appends a non-empty submitted
    line to HistoryLog and resets [pos = len]". *)
Definition Add (s : text) (h : t) : t :=
  mk (Buf h ++ [s]) (Size h + 1).

(** Modelled from the spec: the history's part of [prev()], "valid only
    if [pos > 0]": it "decrements [pos]" and yields [HistoryLog[pos]];
    at [pos = 0] the position stays. *)
Definition Prev (h : t) : text * t :=
  let h := if 0 <? Pos h then mk (Buf h) (Pos h - 1) else h in
  (Get h (Pos h), h).

(** Modelled from the spec: the history's part of [next()], "valid only
    if [pos < len]": it "increments [pos]" and yields [HistoryLog[pos]],
    which is the empty string once [pos == len]; at [pos = len] the
    position stays. *)
Definition Next (h : t) : text * t :=
  let h := if Pos h <? Size h then mk (Buf h) (Pos h + 1) else h in
  (Get h (Pos h), h).

(** Modelled from the spec: the operations above, as the history of
    [Readline]. *)
Definition ops : History.Ops t := {|
  History.Pos := Pos;
  History.Size := Size;
  History.Add := Add;
  History.Prev := Prev;
  History.Next := Next
|}.

(** The log after the lines of [l] were recorded in order, from the
    empty log. *)
Definition recorded (l : list text) : t :=
  fold_left (fun h s => Add s h) l (mk [] 0).

End HistoryLog.

(** The offset range of the design, for [n] lines and a viewport of
    [termHeight] rows. *)
Definition clamped (n termHeight offset : Z) : Prop :=
  0 <= offset <= Z.max 0 (n - termHeight).

Section ReadlineAux.
Context {K : Keys}.
Context (B : Type) {BufferOps : Buffer.Ops B}.
Context (H : Type) {HistoryOps : History.Ops H}.
Variable Termios : Type.

(** The loop state once the rune at the head of the input has been
    read: lines 101 to 112 of the source, for a read that succeeds and
    leaves [rest]. *)
Definition fetched (rest : list rune) (s : Loop B H Termios) : Loop B H Termios :=
  let showPlaceholder :=
    negb (Pasting (inst s)) || UseAlt (iPrompt (inst s)) in
  let s := if Buffer.IsEmpty (buf s) && showPlaceholder
           then emit [OutPlaceholder (placeholder (iPrompt (inst s)))] s
           else s in
  let s := onInst (setTerminal (setReader rest (iTerminal (inst s)))) s in
  if Buffer.IsEmpty (buf s) then emit [OutClearToEOL] s else s.

End ReadlineAux.

(** Code points without a case of their own in the main switch: typed or
    pasted text, and the control codes the loop drops. *)
Definition plain {K : Keys} (r : rune) : Prop := isCase r mainCases = false.

(** [historyPrev] and [historyNext] as moves of (instance, buffer,
    draft). *)
Definition prev {B H : Type} {BufferOps : Buffer.Ops B}
           {HistoryOps : History.Ops H} {Termios : Type}
           (st : Instance H Termios * B * text) : Instance H Termios * B * text :=
  let '(i, b, cur) := st in historyPrev i b cur.

Definition next {B H : Type} {BufferOps : Buffer.Ops B}
           {HistoryOps : History.Ops H} {Termios : Type}
           (st : Instance H Termios * B * text) : Instance H Termios * B * text :=
  let '(i, b, cur) := st in historyNext i b cur.

(** The line buffer of a state of that kind. *)
Definition lineOf {I B : Type} (st : I * B * text) : B := snd (fst st).

Section EndOfInput.
Context {K : Keys}.
Context (B : Type) {BufferOps : Buffer.Ops B}.
Context (H : Type) {HistoryOps : History.Ops H}.
Variable Termios : Type.

(** The states in which the pass about to run returns [io.EOF]: the
    input is exhausted; or the paste introducer is read in the
    extended-escape state and fewer than three code points follow; or
    [CharDelete] is read in the normal state while the display size of
    the line is not positive. *)
Definition eofCause (s : Loop B H Termios) : Prop :=
  pending s = [] \/
  (escex s = true /\
   exists w, pending s = CharBracketedPaste :: w /\ (length w < 3)%nat) \/
  (escex s = false /\ esc s = false /\
   exists rest, pending s = CharDelete :: rest /\
                Buffer.DisplaySize (buf s) <= 0).
End EndOfInput.

(** Modelled from the spec: the display width is "the number of terminal
    columns a rendered string occupies"; the table itself belongs to a
    library outside the repository.  This is the part of it the examples
    need: combining marks and zero-width spaces and joiners take no
    column, CJK ideographs take two, the rest one. *)
Definition unicodeWidth (r : rune) : Z :=
  if (768 <=? r) && (r <=? 879) then 0
  else if (8203 <=? r) && (r <=? 8205) then 0
  else if (19968 <=? r) && (r <=? 40959) then 2
  else 1.

(** ** A concrete setting for the examples

    The key table [ansi], the line buffer of the design with the widths
    of [unicodeWidth], the history log of the design, a terminal of 80
    columns and 25 rows whose saved settings carry no information, and a
    suspend handler that returns the empty line and no error. *)
Module Example.

Definition lineOps : Buffer.Ops Line.t := Line.ops unicodeWidth.

Definition SetRawMode : unit + error := inl tt.

Definition handleCharCtrlZ (_ : option unit) : text * option error :=
  ([], None).

Definition GetSize : option (Z * Z) := Some (80, 25).

(** The prompts [">>> "] and ["... "], no placeholders. *)
Definition thePrompt : Prompt := {|
  PromptStr := [62; 62; 62; 32];
  AltPrompt := [46; 46; 46; 32];
  Placeholder := [];
  AltPlaceholder := [];
  UseAlt := false
|}.

(** An instance in raw mode with the input [input] to come. *)
Definition instance (input : list rune) (h : HistoryLog.t) (toolOutput : text)
  : Instance HistoryLog.t unit := {|
  iPrompt := thePrompt;
  iTerminal := {| reader := input; rawmode := true; termios := Some tt |};
  iHistory := h;
  Pasting := false;
  ToolOutput := toolOutput
|}.

(** A state of the loop on such an instance: the buffer [b], the
    decoder's flags [esc] and [escex], [metaDel] clear, no draft. *)
Definition state (b : Line.t) (esc escex : bool) (input : list rune)
           (h : HistoryLog.t) (toolOutput : text)
  : Loop Line.t HistoryLog.t unit :=
  mkLoop (instance input h toolOutput) b esc escex false [] [].

(** ["foo"], ["hello"], and the three lines of the history examples. *)
Definition foo : text := [lit "f"; lit "o"; lit "o"].
Definition hello : text := [lit "h"; lit "e"; lit "l"; lit "l"; lit "o"].
Definition abc : list text := [[lit "a"]; [lit "b"]; [lit "c"]].

End Example.

(** ** The rest of [readline.go], and notions for its properties *)

(** The calls on the terminal that the method [SetRawMode] makes:
    [SetRawMode(fd)], and [UnsetRawMode(fd, termios)] with the saved
    settings it is given. *)
Inductive RawCall (Termios : Type) : Type :=
| CallSetRawMode
| CallUnsetRawMode (saved : option Termios).

Arguments CallSetRawMode {Termios}.
Arguments CallUnsetRawMode {Termios} saved.

Section RawMode.
Variable H : Type.
Variable Termios : Type.

(** [(i *Instance) SetRawMode(on bool)]: the instance as the call
    leaves it, and the calls on the terminal it makes.  Raw mode is
    switched on unless it is on already, an error of [SetRawMode(fd)]
    being dropped and leaving the instance as it was; and it is
    switched off if it is on, whatever [UnsetRawMode] returns.
    [answer] is what [SetRawMode(fd)] answers to this call, if the call
    makes it: one call of the method and the next may get different
    answers. *)
Definition InstanceSetRawMode (answer : Termios + error) (on : bool)
           (i : Instance H Termios)
  : Instance H Termios * list (RawCall Termios) :=
  if on && negb (rawmode (iTerminal i)) then
    match answer with
    | inl tio =>
        (setTerminal {| reader := reader (iTerminal i);
                        rawmode := true;
                        termios := Some tio |} i,
         [CallSetRawMode])
    | inr _ => (i, [CallSetRawMode])
    end
  else if negb on && rawmode (iTerminal i) then
    (setTerminal {| reader := reader (iTerminal i);
                    rawmode := false;
                    termios := termios (iTerminal i) |} i,
     [CallUnsetRawMode (termios (iTerminal i))])
  else (i, []).

End RawMode.

(** The state a pass of the loop leaves, whether it goes round again or
    returns. *)
Definition stateOf {B H Termios : Type} (o : outcome B H Termios)
  : Loop B H Termios :=
  match o with
  | Continue s => s
  | Return _ _ s => s
  end.

(** The loop state [s] with [input] as the input still to come. *)
Definition withInput {B H Termios : Type} (input : list rune)
           (s : Loop B H Termios) : Loop B H Termios :=
  onInst (fun i => setTerminal (setReader input (iTerminal i)) i) s.

(** A rendering of the pager, and a frame whose display loop
    [for i := offset; i < end; i++ { line := lines[i] ... }] stays
    within the [total] lines there are. *)
Definition isFrame (o : Output) : bool :=
  match o with
  | OutFrame _ _ _ => true
  | _ => false
  end.

Definition frameInRange (o : Output) : Prop :=
  match o with
  | OutFrame offset end_ total =>
      forall i, offset <= i < end_ -> 0 <= i < total
  | _ => True
  end.

Definition isPlaceholder (o : Output) : bool :=
  match o with
  | OutPlaceholder _ => true
  | _ => false
  end.

(** The constant cases of the [switch] of the pager, in the order of
    the source, and its keys that close the pager. *)
Definition pagerCases {K : Keys} : list rune :=
  [lit "q"; lit "Q"; CharCtrlO; CharInterrupt; lit "j"; CharCtrlJ; CharEnter;
   lit "k"; lit " "; CharForward; CharBackward; lit "g"; lit "G"; CharEsc].

Definition pagerExit {K : Keys} : list rune :=
  [lit "q"; lit "Q"; CharCtrlO; CharInterrupt].

(** The escape sequences of [Readline] that have a control code doing
    the same: the key code after [ESC []], and the control code. *)
Definition arrowKeys {K : Keys} : list (rune * rune) :=
  [(KeyUp, CharPrev); (KeyDown, CharNext); (KeyLeft, CharBackward);
   (KeyRight, CharForward); (MetaStart, CharLineStart);
   (MetaEnd, CharLineEnd)].

(** [buf.Add(r)] for the code points of [w], in order. *)
Definition addAll {B : Type} {BufferOps : Buffer.Ops B} (w : list rune) (b : B)
  : B :=
  fold_left (fun b r => Buffer.Add r b) w b.

(** The code points of [w] that the default branch of the main switch
    adds to the line: those from [CharSpace] on. *)
Definition printable {K : Keys} (w : list rune) : list rune :=
  filter (fun r => CharSpace <=? r) w.

(** [extends s s']: what a pass of the loop leaves alone or only adds
    to.  The prompt record, the tool output, the raw-mode flag and the
    saved settings are the same in [s'] as in [s], the input of [s'] is
    a suffix of that of [s], and the output of [s'] begins with that of
    [s]. *)
Definition extends {B H Termios : Type} (s s' : Loop B H Termios) : Prop :=
  iPrompt (inst s') = iPrompt (inst s) /\
  ToolOutput (inst s') = ToolOutput (inst s) /\
  rawmode (iTerminal (inst s')) = rawmode (iTerminal (inst s)) /\
  termios (iTerminal (inst s')) = termios (iTerminal (inst s)) /\
  (exists k, pending s' = skipn k (pending s)) /\
  (exists d, out s' = out s ++ d).


(** * Facts *)

(** ** The pager *)

Create HintDb pager.

Section PagerFacts.
Context {K : Keys}.
Variable GetSize : option (Z * Z).

Lemma ReadRune_rest (stdin : list rune) :
  snd (ReadRune stdin) = skipn 1 stdin.
Proof. destruct stdin; reflexivity. Qed.

Lemma lineDown_clamped n h o :
  clamped n h o -> clamped n h (lineDown n h o).
Proof. unfold clamped, lineDown. destruct (Z.ltb_spec o (n - h)); lia. Qed.

Lemma lineUp_clamped n h o : clamped n h o -> clamped n h (lineUp o).
Proof. unfold clamped, lineUp. destruct (Z.ltb_spec 0 o); lia. Qed.

Lemma pageDown_clamped n h o :
  0 <= h -> clamped n h o -> clamped n h (pageDown n h o).
Proof.
  unfold clamped, pageDown. intros Hh Ho.
  destruct (Z.ltb_spec (n - h) (o + h)); [|lia].
  destruct (Z.ltb_spec (n - h) 0); lia.
Qed.

Lemma pageUp_clamped n h o :
  0 <= h -> clamped n h o -> clamped n h (pageUp h o).
Proof.
  unfold clamped, pageUp. intros Hh Ho.
  destruct (Z.ltb_spec (o - h) 0); lia.
Qed.

Lemma goBottom_clamped n h : clamped n h (goBottom n h).
Proof. unfold clamped, goBottom. destruct (Z.ltb_spec (n - h) 0); lia. Qed.

Lemma top_clamped n h : clamped n h 0.
Proof. unfold clamped. lia. Qed.

#[local] Hint Resolve lineDown_clamped lineUp_clamped pageDown_clamped
  pageUp_clamped goBottom_clamped top_clamped : pager.

(** The arithmetic of the pager stays within [int]: for a line count and
    a viewport height between 0 and [M] and an offset in range, no sum
    or difference that a command forms leaves [-M, M]. *)
Lemma pager_arithmetic_fits (M n h o : Z) :
  0 <= n <= M -> 0 <= h <= M -> clamped n h o ->
  -M <= n - h <= M /\ -M <= o - h <= M /\ 0 <= o + h <= M /\
  (o < n - h -> o + 1 <= M) /\ (0 < o -> 0 <= o - 1).
Proof. unfold clamped. lia. Qed.

(** Case analysis on the [switch] of the pager. *)
Ltac pager_cases :=
  unfold pagerKey;
  repeat match goal with
         | |- context [if ?c then _ else _] => destruct c
         | |- context [ReadRune ?l] =>
             let Hl := fresh "Hl" in
             pose proof (ReadRune_rest l) as Hl;
             destruct (ReadRune l); cbn [snd] in Hl
         end.

(** Every command keeps the offset in range. *)
Lemma pagerKey_clamped n h o r stdin o' rest :
  0 <= h -> clamped n h o ->
  pagerKey n h o r stdin = Some (o', rest) ->
  clamped n h o'.
Proof.
  intros Hh Ho. pager_cases; intros E; inversion E; subst; auto with pager.
Qed.

(** Every command leaves a suffix of the input it found. *)
Lemma pagerKey_rest n h o r stdin o' rest :
  pagerKey n h o r stdin = Some (o', rest) ->
  exists k, rest = skipn k stdin.
Proof.
  pager_cases; intros E; inversion E; subst;
    rewrite ?skipn_skipn; solve [eexists; reflexivity | exists O; reflexivity].
Qed.

Lemma pagerLoop_frames fuel n h : 0 <= h ->
  forall o stdin out rest,
    clamped n h o ->
    pagerLoop fuel n h o stdin = Some (out, rest) ->
    Forall (clamped n h) (frameOffsets out).
Proof.
  intros Hh. induction fuel as [|fuel IH]; intros o stdin out rest Ho; simpl.
  - discriminate.
  - destruct stdin as [|r stdin].
    + intros E. inversion E; subst. simpl. auto.
    + destruct (pagerKey n h o r stdin) as [[o' rest']|] eqn:Ek.
      * destruct (pagerLoop fuel n h o' rest') as [[out' rest'']|] eqn:El;
          [|discriminate].
        intros E. inversion E; subst. simpl. constructor; [exact Ho|].
        apply pagerKey_clamped in Ek; auto.
        eapply IH; [|exact El]. exact Ek.
      * intros E. inversion E; subst. simpl. auto.
Qed.

Lemma pagerLoop_rest fuel n h :
  forall o stdin out rest,
    pagerLoop fuel n h o stdin = Some (out, rest) ->
    exists k, rest = skipn k stdin.
Proof.
  induction fuel as [|fuel IH]; intros o stdin out rest; simpl.
  - discriminate.
  - destruct stdin as [|r stdin].
    + intros E. inversion E; subst. exists O. reflexivity.
    + destruct (pagerKey n h o r stdin) as [[o' rest']|] eqn:Ek.
      * destruct (pagerLoop fuel n h o' rest') as [[out' rest'']|] eqn:El;
          [|discriminate].
        intros E. inversion E; subst.
        apply pagerKey_rest in Ek. destruct Ek as [k ->].
        apply IH in El. destruct El as [k' ->].
        exists (S (k' + k)). simpl. rewrite skipn_skipn. reflexivity.
      * intros E. inversion E; subst. exists 1%nat. reflexivity.
Qed.

(** The loop returns: its fuel is an upper bound that is never reached. *)
Lemma pagerLoop_returns n h :
  forall fuel o stdin,
    (length stdin < fuel)%nat ->
    exists res, pagerLoop fuel n h o stdin = Some res.
Proof.
  induction fuel as [|fuel IH]; intros o stdin Hlen; [lia|].
  simpl. destruct stdin as [|r stdin]; [eauto|].
  destruct (pagerKey n h o r stdin) as [[o' rest']|] eqn:Ek; [|eauto].
  apply pagerKey_rest in Ek. destruct Ek as [k ->].
  destruct (IH o' (skipn k stdin)) as [[out rest] E].
  { rewrite length_skipn. simpl in Hlen. lia. }
  rewrite E. eauto.
Qed.

(** [showPager], unfolded: it is the loop, between the two switches of
    screen. *)
Lemma showPager_loop content stdin :
  exists out rest,
    pagerLoop (S (length stdin)) (Z.of_nat (length (Split content)))
              (snd (termSize GetSize)) 0 stdin = Some (out, rest) /\
    showPager GetSize content stdin
    = (OutEnterAltScreen :: out ++ [OutExitAltScreen], rest).
Proof.
  destruct (@pagerLoop_returns (Z.of_nat (length (Split content)))
              (snd (termSize GetSize)) (S (length stdin)) 0 stdin)
    as [[out rest] E]; [lia|].
  exists out, rest. split; [exact E|].
  unfold showPager. rewrite E. reflexivity.
Qed.

Lemma showPager_rest content stdin :
  exists k, snd (showPager GetSize content stdin) = skipn k stdin.
Proof.
  destruct (showPager_loop content stdin) as (out & rest & E & ->).
  simpl. eapply pagerLoop_rest; eauto.
Qed.

Lemma frameOffsets_app o1 o2 :
  frameOffsets (o1 ++ o2) = frameOffsets o1 ++ frameOffsets o2.
Proof.
  induction o1 as [|e o1 IH]; [reflexivity|].
  destruct e; simpl; rewrite IH; reflexivity.
Qed.

(** X24.  For content of [n] lines and a viewport of [termHeight] rows
    ([termHeight] not negative: the terminal's size is unknown, or it
    has at least one row), every frame the pager renders, that is, the
    offset after each command of any input, from offset 0 on, lies in
    [0, max(0, n - termHeight)]. *)
Theorem pager_offset_clamped (content : text) (stdin : list rune) :
  0 <= snd (termSize GetSize) ->
  Forall (clamped (Z.of_nat (length (Split content))) (snd (termSize GetSize)))
         (frameOffsets (fst (showPager GetSize content stdin))).
Proof.
  intros Hh.
  destruct (showPager_loop content stdin) as (out & rest & E & ->).
  simpl. rewrite frameOffsets_app. simpl. rewrite app_nil_r.
  eapply pagerLoop_frames; eauto. apply top_clamped.
Qed.

End PagerFacts.

(** ** The key table *)

Section KeyFacts.
Context {K : Keys}.

Lemma isCase_false_cons (r x : rune) (l : list rune) :
  isCase r (x :: l) = false <-> (r =? x) = false /\ isCase r l = false.
Proof. unfold isCase. simpl. apply orb_false_iff. Qed.

Lemma distinct_cons (x : rune) (l : list rune) :
  distinct (x :: l) = true <-> isCase x l = false /\ distinct l = true.
Proof. simpl. rewrite andb_true_iff, negb_true_iff. tauto. Qed.

Lemma keysOK_cases :
  keysOK = true ->
  distinct mainCases = true /\ distinct extendedCases = true /\
  distinct escapeCases = true.
Proof. unfold keysOK. rewrite !andb_true_iff. tauto. Qed.

End KeyFacts.

(** [key_facts H]: from [H : keysOK = true], all the pairwise
    disequalities of the case constants, as [(a =? b) = false]. *)
Ltac split_cases H :=
  repeat match type of H with
         | distinct (_ :: _) = true =>
             let H1 := fresh "Hc" in
             apply distinct_cons in H; destruct H as [H1 H];
             repeat (let H2 := fresh "Hne" in
                     let H3 := fresh "Hne" in
                     apply isCase_false_cons in H1; destruct H1 as [H2 H1];
                     pose proof H2 as H3; rewrite Z.eqb_sym in H3);
             clear H1
         end; clear H.

Ltac key_facts H :=
  let Hm := fresh "Hm" in
  let Hx := fresh "Hx" in
  let He := fresh "He" in
  destruct (keysOK_cases H) as (Hm & Hx & He);
  unfold mainCases in Hm; unfold extendedCases in Hx; unfold escapeCases in He;
  split_cases Hm; split_cases Hx; split_cases He.

Ltac use_facts :=
  repeat match goal with
         | H : (?a =? ?b) = false |- context [?a =? ?b] => rewrite H
         end.


(** ** One pass through the loop *)

Section IterationFacts.
Context {K : Keys}.
Context (B : Type) {BufferOps : Buffer.Ops B}.
Context (H : Type) {HistoryOps : History.Ops H}.
Variable Termios : Type.
Variable handleCharCtrlZ : option Termios -> text * option error.
Variable GetSize : option (Z * Z).

Local Abbreviation Loop := (Loop B H Termios).
Local Abbreviation iteration := (iteration handleCharCtrlZ GetSize).
Local Abbreviation dispatch := (dispatch handleCharCtrlZ GetSize).
Local Abbreviation normal := (normal handleCharCtrlZ GetSize).

Implicit Types (s : Loop) (r : rune) (rest : list rune).

Lemma iteration_read s r rest :
  pending s = r :: rest ->
  iteration s = dispatch r (fetched rest s).
Proof.
  unfold pending, iteration, fetched, Read. intros E.
  destruct (Buffer.IsEmpty (buf s) && _); simpl; rewrite E; reflexivity.
Qed.

Lemma iteration_eof s :
  pending s = [] ->
  exists s', iteration s = Return [] (Some EOF) s'.
Proof.
  unfold pending, iteration, Read. intros E.
  destruct (Buffer.IsEmpty (buf s) && _); simpl; rewrite E; eauto.
Qed.

Lemma fetched_pending rest s : pending (fetched rest s) = rest.
Proof.
  unfold fetched, pending.
  destruct (Buffer.IsEmpty (buf s) && _); simpl;
    destruct (Buffer.IsEmpty (buf s)); reflexivity.
Qed.

Lemma fetched_inst rest s :
  inst (fetched rest s)
  = setTerminal (setReader rest (iTerminal (inst s))) (inst s).
Proof.
  unfold fetched.
  destruct (Buffer.IsEmpty (buf s) && _); simpl;
    destruct (Buffer.IsEmpty (buf s)); reflexivity.
Qed.

Lemma session_fields s s' :
  session s' = session s <->
  buf s' = buf s /\ iHistory (inst s') = iHistory (inst s) /\
  currentLineBuf s' = currentLineBuf s /\
  Pasting (inst s') = Pasting (inst s) /\
  esc s' = esc s /\ escex s' = escex s /\ metaDel s' = metaDel s.
Proof.
  unfold session. split.
  - intros E. inversion E. tauto.
  - intros (-> & -> & -> & -> & -> & -> & ->). reflexivity.
Qed.

(** *** The main switch, case by case *)

Section Normal.
Hypothesis HK : keysOK = true.

Lemma normal_CharEsc s : normal CharEsc s = Continue (setEsc true s).
Proof.
  pose proof HK as HK'. key_facts HK'. unfold normal. use_facts.
  rewrite Z.eqb_refl. reflexivity.
Qed.

Lemma normal_CharInterrupt s :
  normal CharInterrupt s = Return [] (Some ErrInterrupt) s.
Proof.
  pose proof HK as HK'. key_facts HK'. unfold normal. use_facts.
  rewrite Z.eqb_refl. reflexivity.
Qed.

Lemma normal_CharDelete s :
  normal CharDelete s
  = if 0 <? Buffer.DisplaySize (buf s)
    then Continue (onBuf Buffer.Delete s)
    else Return [] (Some EOF) s.
Proof.
  pose proof HK as HK'. key_facts HK'. unfold normal. use_facts.
  rewrite Z.eqb_refl. reflexivity.
Qed.

Lemma normal_CharCtrlO s :
  normal CharCtrlO s
  = if isEmptyText (ToolOutput (inst s)) then Continue (emit [OutBell] s)
    else
      let t := iTerminal (inst s) in
      let (shown, rest) := showPager GetSize (ToolOutput (inst s)) (reader t) in
      Continue (emit shown (onInst (setTerminal (setReader rest t)) s)).
Proof.
  pose proof HK as HK'. key_facts HK'. unfold normal. use_facts.
  rewrite Z.eqb_refl. reflexivity.
Qed.

Lemma normal_Enter s r :
  r = CharEnter \/ r = CharCtrlJ ->
  normal r s
  = let output := Buffer.String (buf s) in
    let s := if isEmptyText output then s
             else onInst (fun i => setHistory (History.Add output (iHistory i)) i) s in
    Return output None (emit [OutNewline] (onBuf Buffer.MoveToEnd s)).
Proof.
  pose proof HK as HK'. key_facts HK'.
  intros [-> | ->]; unfold normal; use_facts;
    rewrite Z.eqb_refl, ?orb_true_r; reflexivity.
Qed.

Lemma normal_default s r :
  isCase r mainCases = false ->
  normal r s
  = if metaDel s then Continue (setMetaDel false s)
    else if CharSpace <=? r then Continue (onBuf (Buffer.Add r) s)
    else Continue s.
Proof.
  intros Hr. unfold mainCases in Hr.
  repeat (let H2 := fresh "Hne" in
          apply isCase_false_cons in Hr; destruct Hr as [H2 Hr]).
  unfold normal. use_facts. simpl. rewrite !orb_false_r. reflexivity.
Qed.

Lemma escape_CharEscapeEx s :
  escape CharEscapeEx s = Continue (setEscex true s).
Proof.
  pose proof HK as HK'. key_facts HK'. unfold escape. use_facts.
  rewrite Z.eqb_refl. reflexivity.
Qed.

Lemma extended_KeyDel s :
  extended KeyDel s
  = Continue (setMetaDel true
                (if 0 <? Buffer.DisplaySize (buf s)
                 then onBuf Buffer.Delete s else s)).
Proof.
  pose proof HK as HK'. key_facts HK'. unfold extended. use_facts.
  rewrite Z.eqb_refl. reflexivity.
Qed.

Lemma extended_CharBracketedPaste s :
  extended CharBracketedPaste s
  = match readCode 3 [] (iTerminal (inst s)) with
    | (None, t) => Return [] (Some EOF) (onInst (setTerminal t) s)
    | (Some code, t) =>
        let s := onInst (setTerminal t) s in
        if text_eq_dec code CharBracketedPasteStart
        then Continue (onInst (setPasting true) s)
        else if text_eq_dec code CharBracketedPasteEnd
             then Continue (onInst (setPasting false) s)
             else Continue s
    end.
Proof.
  pose proof HK as HK'. key_facts HK'. unfold extended. use_facts.
  rewrite Z.eqb_refl. reflexivity.
Qed.
End Normal.

Lemma escape_default s r :
  isCase r escapeCases = false -> escape r s = Continue s.
Proof.
  intros Hr. unfold escapeCases in Hr.
  repeat (let H2 := fresh "Hne" in
          apply isCase_false_cons in Hr; destruct Hr as [H2 Hr]).
  unfold escape. use_facts. reflexivity.
Qed.

Lemma extended_default s r :
  isCase r extendedCases = false -> extended r s = Continue s.
Proof.
  intros Hr. unfold extendedCases in Hr.
  repeat (let H2 := fresh "Hne" in
          apply isCase_false_cons in Hr; destruct Hr as [H2 Hr]).
  unfold extended. use_facts. reflexivity.
Qed.

End IterationFacts.

(** ** The loop returns *)

Section LoopFacts.
Context {K : Keys}.
Context (B : Type) {BufferOps : Buffer.Ops B}.
Context (H : Type) {HistoryOps : History.Ops H}.
Variable Termios : Type.
Variable SetRawMode : Termios + error.
Variable handleCharCtrlZ : option Termios -> text * option error.
Variable GetSize : option (Z * Z).

Local Abbreviation Loop := (Loop B H Termios).
Local Abbreviation Instance := (Instance H Termios).
Local Abbreviation iteration := (iteration handleCharCtrlZ GetSize).
Local Abbreviation dispatch := (dispatch handleCharCtrlZ GetSize).
Local Abbreviation normal := (normal handleCharCtrlZ GetSize).
Local Abbreviation loop := (loop handleCharCtrlZ GetSize).
Local Abbreviation reaches := (reaches handleCharCtrlZ GetSize).
Local Abbreviation Readline := (Readline SetRawMode handleCharCtrlZ GetSize).

Implicit Types (s : Loop) (i : Instance) (r : rune) (rest : list rune).

Lemma historyPrev_terminal i (b : B) cur :
  iTerminal (fst (fst (historyPrev i b cur))) = iTerminal i.
Proof.
  unfold historyPrev. destruct (0 <? _); [|reflexivity].
  destruct (History.Prev _). reflexivity.
Qed.

Lemma historyNext_terminal i (b : B) cur :
  iTerminal (fst (fst (historyNext i b cur))) = iTerminal i.
Proof.
  unfold historyNext. destruct (_ <? _); [|reflexivity].
  destruct (History.Next _). reflexivity.
Qed.

Lemma pending_onHistory_prev s :
  pending (onHistory (@historyPrev _ _ _ _ _) s) = pending s.
Proof.
  unfold pending, onHistory.
  pose proof (historyPrev_terminal (inst s) (buf s) (currentLineBuf s)) as E.
  destruct (historyPrev _ _ _) as [[i b] c]. simpl in *. congruence.
Qed.

Lemma pending_onHistory_next s :
  pending (onHistory (@historyNext _ _ _ _ _) s) = pending s.
Proof.
  unfold pending, onHistory.
  pose proof (historyNext_terminal (inst s) (buf s) (currentLineBuf s)) as E.
  destruct (historyNext _ _ _) as [[i b] c]. simpl in *. congruence.
Qed.

Lemma readCode_rest n :
  forall code (t : Terminal Termios) res t',
    readCode n code t = (res, t') ->
    exists k, reader t' = skipn k (reader t).
Proof.
  induction n as [|n IH]; intros code t res t'; simpl.
  - intros E. inversion E; subst. exists O. reflexivity.
  - unfold Read. destruct (reader t) as [|r rest] eqn:Er.
    + intros E. inversion E; subst. exists O. rewrite Er. reflexivity.
    + intros E. apply IH in E. destruct E as [k ->].
      exists (S k). reflexivity.
Qed.

(** A pass that goes round again leaves a suffix of its input. *)
Lemma dispatch_rest r s s' :
  dispatch r s = Continue s' ->
  exists k, pending s' = skipn k (pending s).
Proof.
  unfold dispatch, extended, escape, normal.
  repeat match goal with
         | |- context [if ?c then _ else _] => destruct c
         end;
    try (intros E; inversion E; subst; exists O;
         rewrite ?pending_onHistory_prev, ?pending_onHistory_next;
         reflexivity).
  - destruct (readCode 3 [] _) as [[code|] t] eqn:Ec; [|discriminate].
    apply readCode_rest in Ec.
    repeat match goal with
           | |- context [if ?c then _ else _] => destruct c
           end; intros E; inversion E; subst; exact Ec.
  - destruct (showPager_rest GetSize (ToolOutput (inst s))
                (reader (iTerminal (inst s)))) as [k Ek].
    destruct (showPager _ _ _) as [shown rest]. simpl in Ek.
    intros E. inversion E; subst. exists k. reflexivity.
  - destruct (handleCharCtrlZ _). discriminate.
Qed.

Lemma iteration_consumes s s' :
  iteration s = Continue s' ->
  (length (pending s') < length (pending s))%nat.
Proof.
  destruct (pending s) as [|r rest] eqn:E.
  - destruct (iteration_eof handleCharCtrlZ GetSize s E) as [s0 ->].
    discriminate.
  - rewrite (iteration_read handleCharCtrlZ GetSize s E). intros Hd.
    apply dispatch_rest in Hd. destruct Hd as [k ->].
    rewrite fetched_pending, length_skipn. simpl. lia.
Qed.

(** The loop of [Readline] returns on every input: its fuel is an upper
    bound that is never reached. *)
Lemma loop_returns fuel :
  forall s, (length (pending s) < fuel)%nat ->
            exists res, loop fuel s = Some res.
Proof.
  induction fuel as [|fuel IH]; intros s Hlen; [lia|].
  simpl. destruct (iteration s) as [s1|output err s1] eqn:E; [|eauto].
  apply IH. apply iteration_consumes in E. lia.
Qed.

Lemma loop_reaches fuel :
  forall s res,
    loop fuel s = Some res ->
    exists s1, reaches s s1 /\
               iteration s1 = Return (fst (fst res)) (snd (fst res)) (snd res).
Proof.
  induction fuel as [|fuel IH]; intros s res; simpl; [discriminate|].
  destruct (iteration s) as [s1|output err s1] eqn:E.
  - intros El. destruct (IH _ _ El) as (s2 & Hr & Hi).
    exists s2. split; [|exact Hi]. eapply reaches_next; eauto.
  - intros El. inversion El; subst. exists s. split; [constructor|exact E].
Qed.

Lemma reaches_loop s s1 :
  reaches s s1 ->
  forall output err s' fuel,
    iteration s1 = Return output err s' ->
    (length (pending s) < fuel)%nat ->
    loop fuel s = Some (output, err, s').
Proof.
  induction 1 as [s|s s2 s1 E Hr IH]; intros output err s' fuel Hi Hlen.
  - destruct fuel as [|fuel]; [lia|]. simpl. rewrite Hi. reflexivity.
  - destruct fuel as [|fuel]; [lia|]. simpl. rewrite E.
    apply IH; [exact Hi|]. apply iteration_consumes in E. lia.
Qed.

Lemma Readline_returns i : exists res, Readline i = Some res.
Proof.
  unfold Readline. destruct (enterRawMode SetRawMode i) as [i0|err]; [|eauto].
  destruct (@loop_returns (S (length (reader (iTerminal i0)))) (entry i0))
    as [[[o e] s'] ->]; [unfold pending; simpl; lia|].
  eauto.
Qed.

(** C9.  [Readline] returns on every instance and every input, and on
    every path by which it does (Enter, end of input, interrupt, an
    error of a collaborator) the terminal's [rawmode] flag is false
    when the caller gets control back. *)
Theorem Readline_releases_raw_mode i :
  exists output err i' out,
    Readline i = Some (output, err, i', out) /\
    rawmode (iTerminal i') = false.
Proof.
  destruct (Readline_returns i) as [[[[output err] i'] out] E].
  exists output, err, i', out. split; [exact E|].
  revert E. unfold Readline, enterRawMode.
  destruct (rawmode (iTerminal i)) eqn:Er.
  - destruct (loop _ _) as [[[o e] s']|]; [|discriminate].
    intros E. inversion E; subst. reflexivity.
  - destruct SetRawMode as [tio|e0].
    + destruct (loop _ _) as [[[o e] s']|]; [|discriminate].
      intros E. inversion E; subst. reflexivity.
    + intros E. inversion E; subst. exact Er.
Qed.

End LoopFacts.

(** ** The editing session across passes of the loop *)

Create Rewrite HintDb loopdb.

Section SessionFacts.
Context {K : Keys}.
Context (B : Type) {BufferOps : Buffer.Ops B}.
Context (H : Type) {HistoryOps : History.Ops H}.
Variable Termios : Type.
Variable handleCharCtrlZ : option Termios -> text * option error.
Variable GetSize : option (Z * Z).

Local Abbreviation Loop := (Loop B H Termios).
Local Abbreviation iteration := (iteration handleCharCtrlZ GetSize).
Local Abbreviation iterations := (iterations handleCharCtrlZ GetSize).
Local Abbreviation dispatch := (dispatch handleCharCtrlZ GetSize).
Local Abbreviation normal := (normal handleCharCtrlZ GetSize).
Local Abbreviation loop := (loop handleCharCtrlZ GetSize).
Local Abbreviation reaches := (reaches handleCharCtrlZ GetSize).

Implicit Types (s : Loop) (r : rune) (rest : list rune).

Ltac fetched_field :=
  intros; unfold fetched;
  destruct (Buffer.IsEmpty (buf _) && _); simpl;
  destruct (Buffer.IsEmpty (buf _)); reflexivity.

Lemma fetched_buf rest s : buf (fetched rest s) = buf s.
Proof. fetched_field. Qed.
Lemma fetched_esc rest s : esc (fetched rest s) = esc s.
Proof. fetched_field. Qed.
Lemma fetched_escex rest s : escex (fetched rest s) = escex s.
Proof. fetched_field. Qed.
Lemma fetched_metaDel rest s : metaDel (fetched rest s) = metaDel s.
Proof. fetched_field. Qed.
Lemma fetched_currentLineBuf rest s :
  currentLineBuf (fetched rest s) = currentLineBuf s.
Proof. fetched_field. Qed.

Ltac onHistory_field :=
  intros; unfold onHistory;
  match goal with |- context [?f (inst ?s) (buf ?s) (currentLineBuf ?s)] =>
    destruct (f (inst s) (buf s) (currentLineBuf s)) as [[? ?] ?]
  end; reflexivity.

Lemma onHistory_esc f s : esc (onHistory f s) = esc s.
Proof. onHistory_field. Qed.
Lemma onHistory_escex f s : escex (onHistory f s) = escex s.
Proof. onHistory_field. Qed.
Lemma onHistory_metaDel f s : metaDel (onHistory f s) = metaDel s.
Proof. onHistory_field. Qed.

Lemma dispatch_normal r s :
  esc s = false -> escex s = false -> dispatch r s = normal r s.
Proof. unfold dispatch. intros -> ->. reflexivity. Qed.

Lemma dispatch_escape r s :
  esc s = true -> escex s = false ->
  dispatch r s = escape r (setEsc false s).
Proof. unfold dispatch. intros -> ->. reflexivity. Qed.

Lemma dispatch_extended r s :
  escex s = true -> dispatch r s = extended r (setEscex false s).
Proof. unfold dispatch. intros ->. reflexivity. Qed.

(** What one pass does to a rune read in each of the decoder's states. *)
Lemma iteration_normal s r rest :
  esc s = false -> escex s = false -> pending s = r :: rest ->
  iteration s = normal r (fetched rest s).
Proof.
  intros He Hx Hp. rewrite (iteration_read _ _ _ Hp).
  apply dispatch_normal; [rewrite fetched_esc|rewrite fetched_escex]; assumption.
Qed.

Lemma iteration_escape s r rest :
  esc s = true -> escex s = false -> pending s = r :: rest ->
  iteration s = escape r (setEsc false (fetched rest s)).
Proof.
  intros He Hx Hp. rewrite (iteration_read _ _ _ Hp).
  apply dispatch_escape; [rewrite fetched_esc|rewrite fetched_escex]; assumption.
Qed.

Lemma iteration_extended s r rest :
  escex s = true -> pending s = r :: rest ->
  iteration s = extended r (setEscex false (fetched rest s)).
Proof.
  intros Hx Hp. rewrite (iteration_read _ _ _ Hp).
  apply dispatch_extended. rewrite fetched_escex. assumption.
Qed.

End SessionFacts.

#[export] Hint Rewrite @fetched_buf @fetched_esc @fetched_escex @fetched_metaDel
  @fetched_currentLineBuf @fetched_inst @fetched_pending
  @onHistory_esc @onHistory_escex @onHistory_metaDel : loopdb.

Ltac fields :=
  unfold pending in *; repeat (simpl; autorewrite with loopdb); simpl.

Section Claims.
Context {K : Keys}.
Context (B : Type) {BufferOps : Buffer.Ops B}.
Context (H : Type) {HistoryOps : History.Ops H}.
Variable Termios : Type.
Variable handleCharCtrlZ : option Termios -> text * option error.
Variable GetSize : option (Z * Z).

Local Abbreviation Loop := (Loop B H Termios).
Local Abbreviation iteration := (iteration handleCharCtrlZ GetSize).
Local Abbreviation iterations := (iterations handleCharCtrlZ GetSize).
Local Abbreviation normal := (normal handleCharCtrlZ GetSize).
Local Abbreviation loop := (loop handleCharCtrlZ GetSize).
Local Abbreviation reaches := (reaches handleCharCtrlZ GetSize).

Implicit Types (s : Loop) (r : rune) (rest : list rune).


(** C3.  In the decoder's normal state, the escape introducer followed
    by a code point that the Escape state does not know, and the
    introducer and [CharEscapeEx] followed by a code point that the
    EscapeExtended state does not know, are consumed without a return
    and leave the whole editing session as it was: buffer (text and
    cursor), history, draft, paste mode and the decoder's flags, which
    are those of the normal state again. *)
Theorem garbled_escape_is_dropped s (x : rune) rest :
  keysOK = true ->
  esc s = false -> escex s = false ->
  (isCase x escapeCases = false ->
   pending s = CharEsc :: x :: rest ->
   exists s', iterations 2 s = Continue s' /\
              session s' = session s /\ pending s' = rest /\
              esc s' = false /\ escex s' = false) /\
  (isCase x extendedCases = false ->
   pending s = CharEsc :: CharEscapeEx :: x :: rest ->
   exists s', iterations 3 s = Continue s' /\
              session s' = session s /\ pending s' = rest /\
              esc s' = false /\ escex s' = false).
Proof.
  intros HK He Hx. split; intros Hu Hp; simpl.
  - rewrite (iteration_normal _ _ _ He Hx Hp), normal_CharEsc by exact HK.
    rewrite iteration_escape with (r := x) (rest := rest); fields; auto.
    rewrite escape_default by exact Hu.
    eexists. split; [reflexivity|].
    rewrite session_fields. fields. rewrite ?He, ?Hx. repeat split; reflexivity.
  - rewrite (iteration_normal _ _ _ He Hx Hp), normal_CharEsc by exact HK.
    rewrite iteration_escape with (r := CharEscapeEx) (rest := x :: rest);
      fields; auto.
    rewrite escape_CharEscapeEx; [|exact HK].
    rewrite iteration_extended with (r := x) (rest := rest); fields; auto.
    rewrite extended_default by exact Hu.
    eexists. split; [reflexivity|].
    rewrite session_fields. fields. rewrite ?He, ?Hx. repeat split; reflexivity.
Qed.

(** C7.  In the normal state, the trigger [CharCtrlO] with some tool
    output to show runs the pager and goes round the loop again; the
    pager may consume any part of the input that follows, but the
    editing session is as it was: buffer (text and cursor), history log
    and position, saved draft, paste mode and the decoder's flags. *)
Theorem pager_leaves_session s rest :
  keysOK = true ->
  esc s = false -> escex s = false ->
  pending s = CharCtrlO :: rest ->
  ToolOutput (inst s) <> [] ->
  exists s' k,
    iteration s = Continue s' /\
    session s' = session s /\
    pending s' = skipn k rest.
Proof.
  intros HK He Hx Hp Ho.
  rewrite (iteration_normal _ _ _ He Hx Hp), normal_CharCtrlO by exact HK.
  fields. unfold setTerminal; simpl.
  destruct (ToolOutput (inst s)) as [|c l] eqn:Et; [congruence|]. simpl.
  destruct (showPager_rest GetSize (c :: l) rest) as [k Ek].
  destruct (showPager GetSize (c :: l) rest) as [shown rest'].
  simpl in Ek. subst rest'.
  eexists. exists k. split; [reflexivity|].
  rewrite session_fields. fields. repeat split; reflexivity.
Qed.

End Claims.

(** ** Paste mode only shows in prompts and placeholders *)

Section PasteFacts.
Context {K : Keys}.
Context (B : Type) {BufferOps : Buffer.Ops B}.
Context (H : Type) {HistoryOps : History.Ops H}.
Variable Termios : Type.
Variable SetRawMode : Termios + error.
Variable handleCharCtrlZ : option Termios -> text * option error.
Variable GetSize : option (Z * Z).

Local Abbreviation Loop := (Loop B H Termios).
Local Abbreviation Instance := (Instance H Termios).
Local Abbreviation iteration := (iteration handleCharCtrlZ GetSize).
Local Abbreviation dispatch := (dispatch handleCharCtrlZ GetSize).
Local Abbreviation loop := (loop handleCharCtrlZ GetSize).
Local Abbreviation Readline := (Readline SetRawMode handleCharCtrlZ GetSize).

Implicit Types (s : Loop) (i : Instance) (r : rune) (rest : list rune).

#[local] Arguments readCode : simpl never.

Lemma quiet_app (o1 o2 : list Output) : quiet (o1 ++ o2) = quiet o1 ++ quiet o2.
Proof. apply filter_app. Qed.

Ltac open_states s1 s2 :=
  destruct s1 as [[p1 t1 h1 pa1 to1] b1 e1 x1 m1 c1 o1];
  destruct s2 as [[p2 t2 h2 pa2 to2] b2 e2 x2 m2 c2 o2].

Ltac agree_leaf :=
  simpl; unfold agree, agreeInst; simpl;
  rewrite ?quiet_app; simpl; rewrite ?app_nil_r;
  repeat split; try reflexivity; try congruence.

Ltac agree_cases :=
  repeat match goal with
         | |- context [History.Prev ?h] => destruct (History.Prev h)
         | |- context [History.Next ?h] => destruct (History.Next h)
         | |- context [showPager ?g ?c ?l] => destruct (showPager g c l)
         | |- context [handleCharCtrlZ ?t] => destruct (handleCharCtrlZ t)
         | |- context [readCode ?n ?c ?t] =>
             destruct (readCode n c t) as [[?|] ?]
         | |- context [if ?c then _ else _] => destruct c
         end.

Lemma dispatch_agree r s1 s2 :
  agree s1 s2 -> agreeOutcome (dispatch r s1) (dispatch r s2).
Proof.
  open_states s1 s2. unfold agree, agreeInst. simpl.
  intros ((-> & -> & -> & ->) & -> & -> & -> & -> & -> & Hq).
  unfold dispatch, extended, escape, normal, onBuf, onInst, onHistory,
    historyPrev, historyNext, setEsc, setEscex, setMetaDel, emit,
    setHistory, setTerminal, setPasting. simpl.
  agree_cases; simpl; agree_leaf.
Qed.

(** One pass of the loop does the same in paste mode and out of it, up
    to paste mode itself and the prompts and placeholders written. *)
Lemma iteration_agree s1 s2 :
  agree s1 s2 -> agreeOutcome (iteration s1) (iteration s2).
Proof.
  intros Ha.
  assert (Hp : pending s1 = pending s2).
  { unfold pending. destruct Ha as ((_ & -> & _) & _). reflexivity. }
  destruct (pending s2) as [|r rest] eqn:E2.
  - revert Ha. clear -Hp E2. open_states s1 s2.
    unfold agree, agreeInst, pending in *. simpl in *.
    intros ((-> & -> & -> & ->) & -> & -> & -> & -> & -> & Hq).
    unfold iteration, Read, emit, onInst, setTerminal. simpl.
    destruct (Buffer.IsEmpty b2) eqn:Hie, pa1, pa2, (UseAlt p2); simpl;
      rewrite E2, ?Hie; agree_leaf.
  - rewrite (iteration_read _ _ _ Hp), (iteration_read _ _ _ E2).
    apply dispatch_agree.
    revert Ha. clear. open_states s1 s2.
    unfold agree, agreeInst. simpl.
    intros ((-> & -> & -> & ->) & -> & -> & -> & -> & -> & Hq).
    unfold fetched, emit, onInst, setTerminal. simpl.
    destruct (Buffer.IsEmpty b2) eqn:Hie, pa1, pa2, (UseAlt p2); simpl;
      rewrite ?Hie; agree_leaf.
Qed.

Lemma loop_agree fuel :
  forall s1 s2,
    agree s1 s2 ->
    match loop fuel s1, loop fuel s2 with
    | Some (t1, e1, s1'), Some (t2, e2, s2') =>
        t1 = t2 /\ e1 = e2 /\ agree s1' s2'
    | None, None => True
    | _, _ => False
    end.
Proof.
  induction fuel as [|fuel IH]; intros s1 s2 Ha; simpl; [exact I|].
  pose proof (iteration_agree Ha) as Hi.
  destruct (iteration s1), (iteration s2); simpl in Hi; try contradiction.
  - apply IH. exact Hi.
  - exact Hi.
Qed.

(** [Readline] as a whole: two instances that differ in paste mode only
    give the same line and the same error, and leave instances and
    outputs that differ at most in paste mode, prompts and
    placeholders. *)
Lemma Readline_agree i1 i2 :
  agreeInst i1 i2 ->
  match Readline i1, Readline i2 with
  | Some (t1, e1, i1', o1), Some (t2, e2, i2', o2) =>
      t1 = t2 /\ e1 = e2 /\ agreeInst i1' i2' /\ quiet o1 = quiet o2
  | None, None => True
  | _, _ => False
  end.
Proof.
  intros Ha. unfold Readline, enterRawMode.
  destruct Ha as (Hp & Ht & Hh & Ho). rewrite Ht.
  assert (Hin : forall j1 j2 : Instance,
             agreeInst j1 j2 ->
             match
               match loop (S (length (reader (iTerminal j1)))) (entry j1) with
               | Some (output, err, s) =>
                   Some (output, err, deferred (inst s), out s)
               | None => None
               end,
               match loop (S (length (reader (iTerminal j2)))) (entry j2) with
               | Some (output, err, s) =>
                   Some (output, err, deferred (inst s), out s)
               | None => None
               end
             with
             | Some (t1, e1, i1', o1), Some (t2, e2, i2', o2) =>
                 t1 = t2 /\ e1 = e2 /\ agreeInst i1' i2' /\ quiet o1 = quiet o2
             | None, None => True
             | _, _ => False
             end).
  { intros j1 j2 (Hp' & Ht' & Hh' & Ho'). rewrite Ht'.
    assert (Hs : agree (entry j1) (entry j2)).
    { unfold agree, agreeInst, entry. simpl. rewrite Hp'. tauto. }
    pose proof (loop_agree (S (length (reader (iTerminal j2)))) Hs) as Hl.
    destruct (loop _ (entry j1)) as [[[t1 e1] s1]|],
             (loop _ (entry j2)) as [[[t2 e2] s2]|]; try contradiction; auto.
    destruct Hl as (-> & -> & (Hp'' & Ht'' & Hh'' & Ho'') & _ & _ & _ & _ & _ & Hq).
    repeat split; auto. unfold agreeInst, deferred. simpl.
    rewrite Ht''. tauto. }
  destruct (rawmode (iTerminal i2)).
  - apply Hin. repeat split; assumption.
  - destruct SetRawMode as [tio|err].
    + apply Hin. unfold agreeInst. simpl. repeat split; auto.
    + unfold agreeInst. simpl. repeat split; auto.
Qed.

End PasteFacts.

Section PasteClaims.
Context {K : Keys}.
Context (B : Type) {BufferOps : Buffer.Ops B}.
Context (H : Type) {HistoryOps : History.Ops H}.
Variable Termios : Type.
Variable SetRawMode : Termios + error.
Variable handleCharCtrlZ : option Termios -> text * option error.
Variable GetSize : option (Z * Z).

Local Abbreviation Loop := (Loop B H Termios).
Local Abbreviation Instance := (Instance H Termios).
Local Abbreviation iteration := (iteration handleCharCtrlZ GetSize).
Local Abbreviation loop := (loop handleCharCtrlZ GetSize).
Local Abbreviation reaches := (reaches handleCharCtrlZ GetSize).
Local Abbreviation Readline := (Readline SetRawMode handleCharCtrlZ GetSize).

Implicit Types (s : Loop) (i : Instance) (r : rune) (rest : list rune).

Lemma readCode_three (t : Terminal Termios) (x y z : rune) rest :
  reader t = x :: y :: z :: rest ->
  readCode 3 [] t = (Some [x; y; z], setReader rest t).
Proof.
  intros E. simpl. unfold Read. rewrite E. simpl. reflexivity.
Qed.

(** The pass that reads the paste introducer in the extended-escape
    state, with three more code points to read. *)
Lemma iteration_paste s (x y z : rune) rest :
  keysOK = true ->
  escex s = true ->
  pending s = CharBracketedPaste :: x :: y :: z :: rest ->
  exists s',
    iteration s = Continue s' /\ pending s' = rest /\
    buf s' = buf s /\ iHistory (inst s') = iHistory (inst s) /\
    currentLineBuf s' = currentLineBuf s /\
    esc s' = esc s /\ escex s' = false /\ metaDel s' = metaDel s /\
    Pasting (inst s')
    = if text_eq_dec [x; y; z] CharBracketedPasteStart then true
      else if text_eq_dec [x; y; z] CharBracketedPasteEnd then false
           else Pasting (inst s).
Proof.
  intros HK Hx Hp.
  rewrite (iteration_extended _ _ _ Hx Hp).
  rewrite extended_CharBracketedPaste by exact HK.
  rewrite readCode_three with (x := x) (y := y) (z := z) (rest := rest)
    by (fields; reflexivity).
  cbv zeta.
  destruct (text_eq_dec [x; y; z] CharBracketedPasteStart);
    [|destruct (text_eq_dec [x; y; z] CharBracketedPasteEnd)];
    eexists; (split; [reflexivity|]); fields; repeat split; reflexivity.
Qed.

(** C4.  In the extended-escape state the paste introducer makes the
    pass read exactly three more code points, which it compares with
    the two markers: the start marker turns paste mode on, the end
    marker turns it off, anything else leaves it as it is; the buffer,
    the history and the draft are not touched.  And paste mode shows
    nowhere but in the prompt and the placeholder: a pass of the loop,
    and [Readline] as a whole, give the same line, the same error and
    the same state whether paste mode is on or off, up to paste mode
    itself and the prompts and placeholders written. *)
Theorem paste_markers_toggle_paste_mode s (x y z : rune) rest :
  keysOK = true ->
  escex s = true ->
  pending s = CharBracketedPaste :: x :: y :: z :: rest ->
  (exists s',
      iteration s = Continue s' /\ pending s' = rest /\
      buf s' = buf s /\ iHistory (inst s') = iHistory (inst s) /\
      currentLineBuf s' = currentLineBuf s /\
      ([x; y; z] = CharBracketedPasteStart -> Pasting (inst s') = true) /\
      ([x; y; z] <> CharBracketedPasteStart ->
       [x; y; z] = CharBracketedPasteEnd -> Pasting (inst s') = false) /\
      ([x; y; z] <> CharBracketedPasteStart ->
       [x; y; z] <> CharBracketedPasteEnd ->
       Pasting (inst s') = Pasting (inst s))) /\
  (forall s1 s2,
      agree s1 s2 -> agreeOutcome (iteration s1) (iteration s2)) /\
  (forall i1 i2,
      agreeInst i1 i2 ->
      match Readline i1, Readline i2 with
      | Some (t1, e1, i1', o1), Some (t2, e2, i2', o2) =>
          t1 = t2 /\ e1 = e2 /\ agreeInst i1' i2' /\ quiet o1 = quiet o2
      | None, None => True
      | _, _ => False
      end).
Proof.
  intros HK Hx Hp. split; [|split].
  - edestruct iteration_paste
      as (s' & Hi & Hr & Hb & Hh & Hc & _ & _ & _ & Hpa);
      [exact HK|exact Hx|exact Hp|].
    exists s'. repeat (split; [assumption|]).
    rewrite Hpa.
    destruct (text_eq_dec [x; y; z] CharBracketedPasteStart);
      [|destruct (text_eq_dec [x; y; z] CharBracketedPasteEnd)];
      repeat split; intros; try reflexivity; contradiction.
  - intros s1 s2. apply iteration_agree.
  - intros i1 i2. apply Readline_agree.
Qed.

End PasteClaims.

(** ** History recall on the line buffer of the design *)

Section HistoryClaims.
Variable Termios : Type.
Variable RuneWidth : rune -> Z.

Local Abbreviation Instance := (Instance HistoryLog.t Termios).
Local Abbreviation prev :=
  (@prev Line.t HistoryLog.t (Line.ops RuneWidth) HistoryLog.ops Termios).
Local Abbreviation next :=
  (@next Line.t HistoryLog.t (Line.ops RuneWidth) HistoryLog.ops Termios).

Lemma typed_from (s pre : text) :
  fold_left (fun b r => Line.Add r b) s (Line.mk pre (length pre))
  = Line.mk (pre ++ s) (length (pre ++ s)).
Proof.
  revert pre. induction s as [|r s IH]; intros pre; simpl.
  - rewrite app_nil_r. reflexivity.
  - assert (E : Line.Add r (Line.mk pre (length pre))
                = Line.mk (pre ++ [r]) (length (pre ++ [r]))).
    { unfold Line.Add. simpl.
      rewrite firstn_all, skipn_all, length_app. simpl.
      f_equal. lia. }
    rewrite E, IH, <- app_assoc. reflexivity.
Qed.

(** Typing leaves the text typed, with the cursor at its end. *)
Lemma typed_spec (s : text) : Line.typed s = Line.mk s (length s).
Proof. apply (typed_from s []). Qed.

(** One step back and one step forward from the live draft. *)
Lemma prev_next_restores (i : Instance) (b : Line.t) (cur : text) :
  HistoryLog.Pos (iHistory i) = HistoryLog.Size (iHistory i) ->
  0 < HistoryLog.Size (iHistory i) ->
  exists cur',
    next (prev (i, b, cur))
    = (i, Line.mk (Line.Text b) (length (Line.Text b)), cur').
Proof.
  destruct i as [p t [hb hp] pa to]. simpl. intros -> Hs.
  unfold HistoryLog.Size in Hs. simpl in Hs.
  assert (E1 : (0 <? Z.of_nat (length hb)) = true) by (apply Z.ltb_lt; lia).
  assert (E2 : (Z.of_nat (length hb) - 1 <? Z.of_nat (length hb)) = true)
    by (apply Z.ltb_lt; lia).
  assert (E3 : Z.of_nat (length hb) - 1 + 1 = Z.of_nat (length hb)) by lia.
  unfold historyPrev. simpl.
  unfold HistoryLog.Prev, HistoryLog.Size. simpl.
  rewrite E1. simpl. rewrite Z.eqb_refl.
  unfold historyNext. simpl.
  unfold HistoryLog.Next, HistoryLog.Size. simpl.
  rewrite E2. simpl. rewrite E3, Z.eqb_refl.
  unfold setHistory. simpl. eauto.
Qed.

(** C2.  With ["a"], ["b"], ["c"] recorded in that order and any draft
    in the buffer, three moves back put ["c"], ["b"], ["a"] into the
    buffer, and three moves forward ["b"], ["c"] and then the draft as
    it was, each with the cursor at the end; the history is then as
    before.  And for any history that is not being browsed, one move
    back and one move forward leave a typed draft as it was typed,
    cursor at the end. *)
Theorem history_round_trip (i : Instance) (b : Line.t) (cur : text) :
  iHistory i = HistoryLog.recorded [[lit "a"]; [lit "b"]; [lit "c"]] ->
  let st1 := prev (i, b, cur) in
  let st2 := prev st1 in
  let st3 := prev st2 in
  let st4 := next st3 in
  let st5 := next st4 in
  let st6 := next st5 in
  (lineOf st1 = Line.mk [lit "c"] 1 /\
   lineOf st2 = Line.mk [lit "b"] 1 /\
   lineOf st3 = Line.mk [lit "a"] 1 /\
   lineOf st4 = Line.mk [lit "b"] 1 /\
   lineOf st5 = Line.mk [lit "c"] 1 /\
   lineOf st6 = Line.mk (Line.Text b) (length (Line.Text b)) /\
   fst (fst st6) = i) /\
  (forall (i' : Instance) (draft cur' : text),
      HistoryLog.Pos (iHistory i') = HistoryLog.Size (iHistory i') ->
      let st := next (prev (i', Line.typed draft, cur')) in
      lineOf st = Line.typed draft /\
      Line.Text (lineOf st) = draft /\
      Line.Cursor (lineOf st) = length draft /\
      fst (fst st) = i').
Proof.
  intros Hh. split.
  - destruct i as [p t h pa to]. simpl in Hh. subst h.
    repeat split; reflexivity.
  - intros i' draft cur' Hpos st.
    destruct (Z.ltb_spec 0 (HistoryLog.Size (iHistory i'))) as [Hs|Hs].
    + destruct (prev_next_restores i' (Line.typed draft) cur' Hpos Hs)
        as [c E].
      subst st. rewrite E. unfold lineOf. simpl.
      rewrite typed_spec. simpl. repeat split; reflexivity.
    + assert (E : st = (i', Line.typed draft, cur')).
      { subst st. simpl. unfold historyPrev. simpl.
        destruct (Z.ltb_spec 0 (HistoryLog.Pos (iHistory i'))); [lia|].
        simpl. unfold historyNext. simpl.
        destruct (Z.ltb_spec (HistoryLog.Pos (iHistory i'))
                    (HistoryLog.Size (iHistory i'))); [lia|].
        reflexivity. }
      rewrite E. unfold lineOf. simpl. rewrite typed_spec. simpl.
      repeat split; reflexivity.
Qed.

End HistoryClaims.

(** ** The end of input, and the delete key *)

Section EndOfInputFacts.
Context {K : Keys}.
Context (B : Type) {BufferOps : Buffer.Ops B}.
Context (H : Type) {HistoryOps : History.Ops H}.
Variable Termios : Type.
Variable SetRawMode : Termios + error.
Variable handleCharCtrlZ : option Termios -> text * option error.
Variable GetSize : option (Z * Z).

Local Abbreviation Loop := (Loop B H Termios).
Local Abbreviation Instance := (Instance H Termios).
Local Abbreviation iteration := (iteration handleCharCtrlZ GetSize).
Local Abbreviation loop := (loop handleCharCtrlZ GetSize).
Local Abbreviation reaches := (reaches handleCharCtrlZ GetSize).
Local Abbreviation Readline := (Readline SetRawMode handleCharCtrlZ GetSize).

Implicit Types (s : Loop) (i : Instance) (r : rune) (rest : list rune).

Lemma readCode_none n :
  forall code (t t' : Terminal Termios),
    readCode n code t = (None, t') -> (length (reader t) < n)%nat.
Proof.
  induction n as [|n IH]; intros code t t'; simpl; [discriminate|].
  unfold Read. destruct (reader t) as [|r rest] eqn:E; simpl; [lia|].
  intros Hc. apply IH in Hc. simpl in Hc. lia.
Qed.

Lemma readCode_short n :
  forall code (t : Terminal Termios),
    (length (reader t) < n)%nat ->
    exists t', readCode n code t = (None, t').
Proof.
  induction n as [|n IH]; intros code t Hl; simpl; [lia|].
  unfold Read. destruct (reader t) as [|r rest] eqn:E; simpl; [eauto|].
  apply IH. simpl in *. lia.
Qed.

(** [metaDel], once set, is cleared by nothing but the default branch
    of the main switch: an escape sequence or a key with a case of its
    own leaves it set. *)
Lemma metaDel_stays s r rest s' :
  metaDel s = true ->
  pending s = r :: rest ->
  esc s = true \/ escex s = true \/ isCase r mainCases = true ->
  iteration s = Continue s' ->
  metaDel s' = true.
Proof.
  intros Hm Hp Hwhy. rewrite (iteration_read _ _ _ Hp). unfold dispatch.
  rewrite fetched_escex, fetched_esc.
  destruct (escex s) eqn:Hx; [|destruct (esc s) eqn:He].
  - unfold extended.
    repeat match goal with
           | |- context [readCode ?n ?c ?t] =>
               destruct (readCode n c t) as [[?|] ?]
           | |- context [if ?c then _ else _] => destruct c
           end; intros E; inversion E; subst; fields; auto.
  - unfold escape.
    repeat match goal with
           | |- context [if ?c then _ else _] => destruct c
           end; intros E; inversion E; subst; fields; auto.
  - destruct Hwhy as [Hw | [Hw | Hw]]; try discriminate.
    unfold isCase, mainCases in Hw. simpl in Hw.
    unfold normal.
    repeat match goal with
           | |- context [if ?a =? ?b then _ else _] =>
               let Hn := fresh "Hn" in destruct (a =? b) eqn:Hn
           | |- context [showPager ?g ?c ?l] => destruct (showPager g c l)
           | |- context [handleCharCtrlZ ?t] => destruct (handleCharCtrlZ t)
           | |- context [if (?a =? ?b) || (?c =? ?d) then _ else _] =>
               let Hn := fresh "Hn" in
               let Hn' := fresh "Hn" in
               destruct (a =? b) eqn:Hn; destruct (c =? d) eqn:Hn'; simpl
           | |- context [if ?c then _ else _] => destruct c
           end;
      try (intros E; inversion E; subst; fields; auto; fail);
      exfalso;
      repeat match goal with
             | Hn : (_ =? _) = false |- _ => rewrite Hn in Hw; clear Hn
             end;
      discriminate.
Qed.

Hypothesis HK : keysOK = true.
Hypothesis handler_no_EOF : forall t, snd (handleCharCtrlZ t) <> Some EOF.

#[local] Arguments readCode : simpl never.

Lemma iteration_EOF_cause s output s' :
  iteration s = Return output (Some EOF) s' -> eofCause s.
Proof.
  unfold eofCause.
  destruct (pending s) as [|r rest] eqn:Hp; [auto|].
  rewrite (iteration_read _ _ _ Hp). unfold dispatch.
  rewrite fetched_escex, fetched_esc.
  destruct (escex s) eqn:Hx; [|destruct (esc s) eqn:He].
  - unfold extended.
    repeat match goal with
           | |- context [if ?a =? ?b then _ else _] =>
               destruct (Z.eqb_spec a b)
           | |- context [if ?c then _ else _] => destruct c
           end; try discriminate.
    destruct (readCode 3 [] _) as [[code|] t] eqn:Hc.
    + repeat match goal with
             | |- context [if ?c then _ else _] => destruct c
             end; discriminate.
    + intros _. right; left. split; [reflexivity|].
      exists rest. subst r. split; [reflexivity|].
      apply readCode_none in Hc. revert Hc. fields. auto.
  - unfold escape.
    repeat match goal with
           | |- context [if ?c then _ else _] => destruct c
           end; discriminate.
  - unfold normal.
    repeat match goal with
           | |- context [if ?a =? ?b then _ else _] =>
               destruct (Z.eqb_spec a b)
           | |- context [if 0 <? ?a then _ else _] =>
               destruct (Z.ltb_spec 0 a)
           | |- context [showPager ?g ?c ?l] => destruct (showPager g c l)
           | |- context [if ?c then _ else _] => destruct c
           end; try discriminate.
    + intros _. right; right. repeat (split; [reflexivity|]).
      exists rest. subst r. split; [reflexivity|].
      match goal with
      | Hd : _ <= 0 |- _ => rewrite fetched_buf in Hd; exact Hd
      end.
    + pose proof (handler_no_EOF (termios (iTerminal (inst (fetched rest s)))))
        as Hz.
      destruct (handleCharCtrlZ _) as [o' e']. simpl in Hz.
      intros E. inversion E; subst. contradiction.
Qed.

Lemma eofCause_iteration s :
  eofCause s -> exists s', iteration s = Return [] (Some EOF) s'.
Proof.
  intros [Hp | [(Hx & w & Hp & Hw) | (Hx & He & rest & Hp & Hd)]].
  - apply iteration_eof. exact Hp.
  - rewrite (iteration_extended _ _ _ Hx Hp).
    rewrite extended_CharBracketedPaste by exact HK.
    edestruct readCode_short as [t' ->]; [|eauto].
    fields. exact Hw.
  - rewrite (iteration_normal _ _ _ He Hx Hp).
    rewrite normal_CharDelete by exact HK. rewrite fetched_buf.
    destruct (Z.ltb_spec 0 (Buffer.DisplaySize (buf s))); [lia|eauto].
Qed.

(** [Readline] returns [io.EOF] exactly when its loop comes to a state
    of [eofCause]; an error of [SetRawMode] is returned as it is. *)
Lemma Readline_EOF_iff i :
  SetRawMode <> inr EOF ->
  (exists output i' out, Readline i = Some (output, Some EOF, i', out)) <->
  (exists i0 s, enterRawMode SetRawMode i = inl i0 /\
                reaches (entry i0) s /\ eofCause s).
Proof.
  intros Hraw. unfold Readline. split.
  - intros (output & i' & out & E).
    destruct (enterRawMode SetRawMode i) as [i0|err] eqn:Here.
    + destruct (loop _ _) as [[[o e] s']|] eqn:El; [|discriminate].
      inversion E; subst.
      apply loop_reaches in El. destruct El as (s1 & Hr & Hi). simpl in Hi.
      exists i0, s1. repeat split; auto.
      eapply iteration_EOF_cause; eauto.
    + inversion E; subst. exfalso. revert Here. unfold enterRawMode.
      destruct (rawmode _); [discriminate|].
      destruct SetRawMode; [discriminate|]. congruence.
  - intros (i0 & s & -> & Hr & Hc).
    destruct (eofCause_iteration Hc) as [s' Hi].
    erewrite reaches_loop; [eauto|exact Hr|exact Hi|].
    unfold pending. simpl. lia.
Qed.

End EndOfInputFacts.

Section DeleteFacts.
Context {K : Keys}.
Context (B : Type) {BufferOps : Buffer.Ops B}.
Context (H : Type) {HistoryOps : History.Ops H}.
Variable Termios : Type.
Variable handleCharCtrlZ : option Termios -> text * option error.
Variable GetSize : option (Z * Z).

Local Abbreviation Loop := (Loop B H Termios).
Local Abbreviation iteration := (iteration handleCharCtrlZ GetSize).

Implicit Types (s : Loop) (r : rune) (rest : list rune).

Hypothesis HK : keysOK = true.

(** The forward-delete code in the normal state. *)
Lemma forward_delete s rest :
  esc s = false -> escex s = false ->
  pending s = CharDelete :: rest ->
  iteration s
  = if 0 <? Buffer.DisplaySize (buf s)
    then Continue (onBuf Buffer.Delete (fetched rest s))
    else Return [] (Some EOF) (fetched rest s).
Proof.
  intros He Hx Hp. rewrite (iteration_normal _ _ _ He Hx Hp).
  rewrite normal_CharDelete by exact HK. rewrite fetched_buf. reflexivity.
Qed.

(** The delete key in the extended-escape state, followed by a plain
    key. *)
Lemma delete_key_then_plain_key s (k1 : rune) rest :
  esc s = false -> escex s = true ->
  pending s = KeyDel :: k1 :: rest ->
  plain k1 ->
  exists s1 s2,
    iteration s = Continue s1 /\
    buf s1 = (if 0 <? Buffer.DisplaySize (buf s)
              then Buffer.Delete (buf s) else buf s) /\
    metaDel s1 = true /\
    iteration s1 = Continue s2 /\
    buf s2 = buf s1 /\
    iHistory (inst s2) = iHistory (inst s) /\
    currentLineBuf s2 = currentLineBuf s /\
    Pasting (inst s2) = Pasting (inst s) /\
    esc s2 = false /\ escex s2 = false /\ metaDel s2 = false /\
    pending s2 = rest /\
    (forall (k2 : rune) rest',
        rest = k2 :: rest' -> plain k2 -> CharSpace <= k2 ->
        exists s3, iteration s2 = Continue s3 /\
                   buf s3 = Buffer.Add k2 (buf s2) /\
                   pending s3 = rest').
Proof.
  intros He Hx Hp Hk1.
  pose proof (iteration_extended handleCharCtrlZ GetSize _ Hx Hp) as H1.
  rewrite extended_KeyDel in H1 by exact HK.
  simpl in H1. rewrite fetched_buf in H1.
  match type of H1 with _ = Continue ?s1 =>
    assert (Hb1 : buf s1 = (if 0 <? Buffer.DisplaySize (buf s)
                            then Buffer.Delete (buf s) else buf s))
      by (destruct (0 <? Buffer.DisplaySize (buf s)); fields; reflexivity);
    assert (He1 : esc s1 = false)
      by (destruct (0 <? Buffer.DisplaySize (buf s)); fields; exact He);
    assert (Hx1 : escex s1 = false)
      by (destruct (0 <? Buffer.DisplaySize (buf s)); fields; reflexivity);
    assert (Hp1 : pending s1 = k1 :: rest)
      by (destruct (0 <? Buffer.DisplaySize (buf s)); fields; reflexivity);
    assert (Hm1 : metaDel s1 = true) by reflexivity;
    assert (Hs1 : iHistory (inst s1) = iHistory (inst s) /\
                  currentLineBuf s1 = currentLineBuf s /\
                  Pasting (inst s1) = Pasting (inst s))
      by (destruct (0 <? Buffer.DisplaySize (buf s)); fields;
          repeat split; reflexivity);
    remember s1 as t1 eqn:Et1
  end.
  clear Et1.
  pose proof (iteration_normal handleCharCtrlZ GetSize _ He1 Hx1 Hp1) as H2.
  rewrite normal_default in H2 by exact Hk1.
  rewrite fetched_metaDel, Hm1 in H2.
  destruct Hs1 as (Hh1 & Hc1 & Hpa1).
  eexists t1, _. split; [exact H1|]. split; [exact Hb1|].
  split; [exact Hm1|]. split; [exact H2|].
  fields. rewrite He1, Hx1. repeat (split; [auto; congruence|]).
  intros k2 rest' -> Hk2 Hsp.
  rewrite iteration_normal with (r := k2) (rest := rest');
    [|fields; auto..].
  rewrite normal_default by exact Hk2. fields.
  destruct (Z.leb_spec CharSpace k2); [|lia].
  eexists. split; [reflexivity|]. fields. split; reflexivity.
Qed.

End DeleteFacts.

(** ** On the line buffer of the design *)

Section LineClaims.
Context {K : Keys}.
Context (H : Type) {HistoryOps : History.Ops H}.
Variable Termios : Type.
Variable RuneWidth : rune -> Z.
Variable SetRawMode : Termios + error.
Variable handleCharCtrlZ : option Termios -> text * option error.
Variable GetSize : option (Z * Z).

Local Abbreviation Loop := (Loop Line.t H Termios).
Local Abbreviation Instance := (Instance H Termios).
Local Abbreviation iteration :=
  (iteration (BufferOps := Line.ops RuneWidth) handleCharCtrlZ GetSize).
Local Abbreviation reaches :=
  (reaches (BufferOps := Line.ops RuneWidth) handleCharCtrlZ GetSize).
Local Abbreviation Readline :=
  (Readline (BufferOps := Line.ops RuneWidth)
            SetRawMode handleCharCtrlZ GetSize).
Local Abbreviation entry := (entry (BufferOps := Line.ops RuneWidth)).
Local Abbreviation eofCause := (eofCause (BufferOps := Line.ops RuneWidth)).

Implicit Types (s : Loop) (i : Instance) (r : rune) (rest : list rune).

(** An empty line takes no column. *)
Lemma empty_DisplaySize (b : Line.t) :
  Line.Text b = [] -> Line.DisplaySize RuneWidth b = 0.
Proof. unfold Line.DisplaySize. intros ->. reflexivity. Qed.

(** C5, as the code has it.  [Readline] returns [io.EOF] exactly when
    its loop comes to a state in which a read fails (at the top of the
    loop, or among the three code points after the paste introducer) or
    in which the forward-delete code [CharDelete] arrives in the normal
    state while the display size of the line is zero -- as it is for
    every empty line; this, for collaborators ([SetRawMode],
    [handleCharCtrlZ]) that do not return [io.EOF] themselves.  On a
    line of positive display size the forward-delete removes the code
    point at the cursor, keeps the cursor, and the loop goes on. *)
Theorem end_of_input_exactly :
  keysOK = true ->
  (forall t, snd (handleCharCtrlZ t) <> Some EOF) ->
  SetRawMode <> inr EOF ->
  (forall i,
      (exists output i' out, Readline i = Some (output, Some EOF, i', out))
      <->
      (exists i0 s, enterRawMode SetRawMode i = inl i0 /\
                    reaches (entry i0) s /\ eofCause s)) /\
  (forall s rest,
      esc s = false -> escex s = false ->
      pending s = CharDelete :: rest ->
      (Line.Text (buf s) = [] ->
       exists s', iteration s = Return [] (Some EOF) s') /\
      (0 < Line.DisplaySize RuneWidth (buf s) ->
       exists s',
         iteration s = Continue s' /\ pending s' = rest /\
         Line.Text (buf s')
         = firstn (Line.Cursor (buf s)) (Line.Text (buf s))
             ++ skipn (S (Line.Cursor (buf s))) (Line.Text (buf s)) /\
         Line.Cursor (buf s') = Line.Cursor (buf s))).
Proof.
  intros HK Hz Hraw. split.
  - intros i. apply Readline_EOF_iff; assumption.
  - intros s rest He Hx Hp.
    pose proof (@forward_delete K Line.t (Line.ops RuneWidth) H _ Termios
                  handleCharCtrlZ GetSize HK s rest He Hx Hp) as Hd.
    simpl in Hd. split.
    + intros Hempty. rewrite (empty_DisplaySize _ Hempty) in Hd.
      simpl in Hd. eauto.
    + intros Hw. revert Hd.
      destruct (Z.ltb_spec 0 (Line.DisplaySize RuneWidth (buf s))); [|lia].
      intros Hd.
      eexists. split; [exact Hd|]. fields. repeat split; reflexivity.
Qed.

(** C8, as the code has it.  In the extended-escape state the delete
    key [KeyDel] performs a forward delete when the display size of the
    line is positive -- so never on an empty line -- and sets
    [metaDel].  The flag is cleared by the first code point after that
    which reaches the default branch of the main switch (one read in
    the normal state, without a case of its own); that code point is
    swallowed, it changes nothing else.  When it is the key right
    after the delete, the key after it is handled as usual: a printable
    one is inserted.  An escape sequence or a key with a case of its
    own is carried out and leaves the flag set. *)
Theorem delete_key_suppresses_plain_key s (k1 : rune) rest :
  keysOK = true ->
  esc s = false -> escex s = true ->
  pending s = KeyDel :: k1 :: rest ->
  plain k1 ->
  (exists s1 s2,
      iteration s = Continue s1 /\
      buf s1 = (if 0 <? Line.DisplaySize RuneWidth (buf s)
                then Line.Delete (buf s) else buf s) /\
      (Line.Text (buf s) = [] -> buf s1 = buf s) /\
      metaDel s1 = true /\
      iteration s1 = Continue s2 /\
      buf s2 = buf s1 /\
      iHistory (inst s2) = iHistory (inst s) /\
      currentLineBuf s2 = currentLineBuf s /\
      Pasting (inst s2) = Pasting (inst s) /\
      esc s2 = false /\ escex s2 = false /\ metaDel s2 = false /\
      pending s2 = rest /\
      (forall (k2 : rune) rest',
          rest = k2 :: rest' -> plain k2 -> CharSpace <= k2 ->
          exists s3, iteration s2 = Continue s3 /\
                     buf s3 = Line.Add k2 (buf s2) /\
                     pending s3 = rest')) /\
  (forall s0 (r : rune) rest0 s0',
      metaDel s0 = true ->
      pending s0 = r :: rest0 ->
      esc s0 = true \/ escex s0 = true \/ isCase r mainCases = true ->
      iteration s0 = Continue s0' ->
      metaDel s0' = true).
Proof.
  intros HK He Hx Hp Hk1. split.
  - destruct (@delete_key_then_plain_key K Line.t (Line.ops RuneWidth) H _
                Termios handleCharCtrlZ GetSize HK s k1 rest He Hx Hp Hk1)
      as (s1 & s2 & H1 & Hb1 & Hrest).
    exists s1, s2. split; [exact H1|]. split; [exact Hb1|].
    split; [|exact Hrest].
    intros Hempty. rewrite Hb1. simpl.
    rewrite (empty_DisplaySize _ Hempty). reflexivity.
  - intros s0 r rest0 s0' Hm Hp0 Hwhy Hi.
    exact (@metaDel_stays K Line.t (Line.ops RuneWidth) H _ Termios
             handleCharCtrlZ GetSize s0 r rest0 s0' Hm Hp0 Hwhy Hi).
Qed.

End LineClaims.

(** * Examples *)

Section Examples.
#[local] Existing Instance ansi.
#[local] Existing Instance Example.lineOps.
#[local] Existing Instance HistoryLog.ops.

Local Abbreviation Loop := (Loop Line.t HistoryLog.t unit).
Local Abbreviation iteration :=
  (iteration Example.handleCharCtrlZ Example.GetSize).
Local Abbreviation iterations :=
  (iterations Example.handleCharCtrlZ Example.GetSize).
Local Abbreviation loop := (loop Example.handleCharCtrlZ Example.GetSize).
Local Abbreviation Readline :=
  (Readline Example.SetRawMode Example.handleCharCtrlZ Example.GetSize).
Local Abbreviation nothing := (HistoryLog.recorded []).


(** ["hello"] typed over the history a, b, c: three moves back and
    three forward, and one back and one forward, give the draft back. *)
Lemma history_round_trip_witness :
  let i := Example.instance [] (HistoryLog.recorded Example.abc) [] in
  let b := Line.typed Example.hello in
  iHistory i = HistoryLog.recorded Example.abc /\
  lineOf (next (next (next (prev (prev (prev (i, b, []))))))) = b /\
  lineOf (next (prev (i, b, []))) = b.
Proof.
  intros i b.
  destruct (@history_round_trip unit unicodeWidth i b [] eq_refl)
    as [(_ & _ & _ & _ & _ & H6 & _) H2].
  split; [reflexivity|]. split; [exact H6|].
  destruct (H2 i Example.hello [] eq_refl) as (Hb & _). exact Hb.
Defined.

(** [ESC x] and [ESC [ Z] on the line ["foo"]. *)
Lemma garbled_escape_is_dropped_witness :
  let s1 := Example.state (Line.typed Example.foo) false false
                          [CharEsc; lit "x"; lit "y"] nothing [] in
  let s2 := Example.state (Line.typed Example.foo) false false
                          [CharEsc; CharEscapeEx; lit "Z"; lit "y"] nothing [] in
  keysOK = true /\
  (exists s', iterations 2 s1 = Continue s' /\
              session s' = session s1 /\ pending s' = [lit "y"]) /\
  (exists s', iterations 3 s2 = Continue s' /\
              session s' = session s2 /\ pending s' = [lit "y"]).
Proof.
  intros s1 s2. split; [reflexivity|]. split.
  - destruct (@garbled_escape_is_dropped ansi _ Example.lineOps _
                HistoryLog.ops unit Example.handleCharCtrlZ Example.GetSize
                s1 (lit "x") [lit "y"] eq_refl eq_refl eq_refl)
      as [Ha _].
    destruct (Ha eq_refl eq_refl) as (s' & E & Hs & Hp & _).
    exists s'. repeat split; assumption.
  - destruct (@garbled_escape_is_dropped ansi _ Example.lineOps _
                HistoryLog.ops unit Example.handleCharCtrlZ Example.GetSize
                s2 (lit "Z") [lit "y"] eq_refl eq_refl eq_refl)
      as [_ Hb].
    destruct (Hb eq_refl eq_refl) as (s' & E & Hs & Hp & _).
    exists s'. repeat split; assumption.
Defined.

(** [2 0 0 ~] after [ESC []: paste mode goes on, the line stays. *)
Lemma paste_markers_toggle_paste_mode_witness :
  let s := Example.state (Line.typed Example.foo) false true
                         [CharBracketedPaste; lit "0"; lit "0"; lit "~"; lit "x"]
                         nothing [] in
  keysOK = true /\
  exists s', iteration s = Continue s' /\ pending s' = [lit "x"] /\
             buf s' = buf s /\ Pasting (inst s') = true.
Proof.
  intros s. split; [reflexivity|].
  destruct (@paste_markers_toggle_paste_mode ansi _ Example.lineOps _
              HistoryLog.ops unit Example.SetRawMode Example.handleCharCtrlZ
              Example.GetSize s (lit "0") (lit "0") (lit "~") [lit "x"]
              eq_refl eq_refl eq_refl)
    as [(s' & E & Hp & Hb & _ & _ & Hon & _) _].
  exists s'. repeat split; try assumption. apply Hon. reflexivity.
Defined.

(** Ctrl+D on a fresh line ends the input. *)
Lemma end_of_input_exactly_witness :
  keysOK = true /\
  (forall t, snd (Example.handleCharCtrlZ t) <> Some EOF) /\
  Example.SetRawMode <> inr EOF /\
  exists output i' out,
    Readline (Example.instance [CharDelete] nothing [])
    = Some (output, Some EOF, i', out).
Proof.
  assert (Hz : forall t, snd (Example.handleCharCtrlZ t) <> Some EOF)
    by (intros t; discriminate).
  assert (Hraw : Example.SetRawMode <> inr EOF) by discriminate.
  split; [reflexivity|]. split; [exact Hz|]. split; [exact Hraw|].
  destruct (@end_of_input_exactly ansi _ HistoryLog.ops unit unicodeWidth
              Example.SetRawMode Example.handleCharCtrlZ Example.GetSize
              eq_refl Hz Hraw) as [Hiff _].
  apply Hiff.
  exists (Example.instance [CharDelete] nothing []).
  eexists. split; [reflexivity|]. split; [constructor|].
  right; right. repeat (split; [reflexivity|]).
  exists []. split; [reflexivity|]. vm_compute. discriminate.
Defined.

(** Counterexample to C5 as it is stated: a line that holds the
    combining acute accent U+0301 is not empty, but takes no column;
    Ctrl+D on it ends the input, with the stream still open (["x"] is
    unread). *)
Lemma zero_width_line_ends_input :
  let i := Example.instance [769; CharDelete; lit "x"] nothing [] in
  exists s i' out,
    iterations 1 (entry i) = Continue s /\
    Line.Text (buf s) = [769] /\ Buffer.IsEmpty (buf s) = false /\
    pending s = [CharDelete; lit "x"] /\
    Readline i = Some ([], Some EOF, i', out) /\
    reader (iTerminal i') = [lit "x"].
Proof.
  intros i. eexists. eexists. eexists.
  split; [reflexivity|]. split; [reflexivity|]. split; [reflexivity|].
  split; [reflexivity|]. split; [reflexivity|]. reflexivity.
Qed.

(** Five lines in a viewport of two rows (a terminal of three): down,
    page down, bottom, up, quit. *)
Lemma pager_offset_clamped_witness :
  let content := [lit "a"; 10; lit "b"; 10; lit "c"; 10; lit "d"; 10; lit "e"] in
  let stdin := [lit "j"; lit " "; lit "G"; lit "k"; lit "q"] in
  0 <= snd (termSize (Some (80, 3))) /\
  frameOffsets (fst (showPager (Some (80, 3)) content stdin)) = [0; 1; 3; 3; 2] /\
  Forall (clamped 5 2) (frameOffsets (fst (showPager (Some (80, 3)) content stdin))).
Proof.
  intros content stdin.
  assert (Hh : 0 <= snd (termSize (Some (80, 3)))) by (vm_compute; discriminate).
  split; [exact Hh|]. split; [reflexivity|].
  exact (@pager_offset_clamped ansi (Some (80, 3)) content stdin Hh).
Defined.

(** C6.  The offset does not stay in range on a terminal that reports
    no rows.  [termHeight] is then -1: nothing checks the [h-1] of
    line 324.  On the one line ["a"] page down moves the offset to -1
    and, pressed again, to -2; the commands that clamp at 0 (page up
    here) bring it back, and line down then takes it to 2.  None of
    the negative offsets is in the range [0, max(0, n - termHeight)]
    of the design, which is [0, 2] here. *)
Example pager_without_rows :
  let content := [lit "a"] in
  let stdin := [lit " "; lit " "; CharBackward; lit "j"; lit "j"; lit "q"] in
  snd (termSize (Some (80, 0))) = -1 /\
  Z.of_nat (length (Split content)) = 1 /\
  frameOffsets (fst (showPager (Some (80, 0)) content stdin))
  = [0; -1; -2; 0; 1; 2] /\
  ~ Forall (clamped 1 (-1))
      (frameOffsets (fst (showPager (Some (80, 0)) content stdin))).
Proof.
  intros content stdin.
  split; [reflexivity|]. split; [reflexivity|]. split; [reflexivity|].
  intros Hall.
  change (Forall (clamped 1 (-1)) [0; -1; -2; 0; 1; 2]) in Hall.
  inversion Hall as [|? ? _ Hrest]; subst.
  inversion Hrest as [|? ? Hbad _]; subst.
  unfold clamped in Hbad. lia.
Qed.

(** Ctrl+O with two lines of tool output; the pager reads [j] and [q]. *)
Lemma pager_leaves_session_witness :
  let s := Example.state (Line.typed Example.foo) false false
                         [CharCtrlO; lit "j"; lit "q"; lit "x"] nothing
                         [lit "o"; 10; lit "k"] in
  keysOK = true /\
  exists s' k, iteration s = Continue s' /\ session s' = session s /\
               pending s' = skipn k [lit "j"; lit "q"; lit "x"].
Proof.
  intros s. split; [reflexivity|].
  assert (Hout : ToolOutput (inst s) <> []) by discriminate.
  exact (@pager_leaves_session ansi _ Example.lineOps _ HistoryLog.ops unit
           Example.handleCharCtrlZ Example.GetSize s
           [lit "j"; lit "q"; lit "x"] eq_refl eq_refl eq_refl eq_refl Hout).
Defined.

(** [ESC [ 3 ~ x] with the cursor after the [a] of ["abc"]: the [b] is
    deleted, the [~] is swallowed, the [x] is inserted. *)
Lemma delete_key_suppresses_plain_key_witness :
  let s := Example.state (Line.mk [lit "a"; lit "b"; lit "c"] 1) false true
                         [KeyDel; lit "~"; lit "x"] nothing [] in
  keysOK = true /\ plain (lit "~") /\
  exists s1 s2 s3,
    iteration s = Continue s1 /\
    buf s1 = Line.mk [lit "a"; lit "c"] 1 /\ metaDel s1 = true /\
    iteration s1 = Continue s2 /\
    buf s2 = Line.mk [lit "a"; lit "c"] 1 /\ metaDel s2 = false /\
    iteration s2 = Continue s3 /\
    buf s3 = Line.mk [lit "a"; lit "x"; lit "c"] 2.
Proof.
  intros s. split; [reflexivity|]. split; [reflexivity|].
  destruct (@delete_key_suppresses_plain_key ansi _ HistoryLog.ops unit
              unicodeWidth Example.handleCharCtrlZ Example.GetSize
              s (lit "~") [lit "x"] eq_refl eq_refl eq_refl eq_refl eq_refl)
    as [(s1 & s2 & H1 & Hb1 & _ & Hm1 & H2 & Hb2 & _ & _ & _ & _ & _ & Hm2
         & _ & Hnext) _].
  destruct (Hnext (lit "x") [] eq_refl eq_refl) as (s3 & H3 & Hb3 & _).
  { vm_compute. discriminate. }
  exists s1, s2, s3.
  split; [exact H1|]. split; [exact Hb1|]. split; [exact Hm1|].
  split; [exact H2|]. split; [rewrite Hb2; exact Hb1|]. split; [exact Hm2|].
  split; [exact H3|]. rewrite Hb3, Hb2, Hb1. reflexivity.
Defined.

(** Counterexample to C8 as it is stated: after [ESC [ 3] on ["abc"]
    with the cursor after the [a], Ctrl+E is not swallowed (the cursor
    goes to the end) and leaves the flag set; it is the second key after
    the delete, the [x], that is swallowed. *)
Lemma delete_then_command_key :
  let s := Example.state (Line.mk [lit "a"; lit "b"; lit "c"] 1) false true
                         [KeyDel; CharLineEnd; lit "x"] nothing [] in
  exists s2 s3,
    iterations 2 s = Continue s2 /\
    buf s2 = Line.mk [lit "a"; lit "c"] 2 /\ metaDel s2 = true /\
    iterations 3 s = Continue s3 /\
    buf s3 = Line.mk [lit "a"; lit "c"] 2 /\ metaDel s3 = false.
Proof.
  intros s. eexists. eexists.
  split; [reflexivity|]. split; [reflexivity|]. split; [reflexivity|].
  split; [reflexivity|]. split; reflexivity.
Qed.

End Examples.

(** * Further properties of [readline.go] *)

(** ** The pager: screen, frames and keys *)

Section PagerMore.
Context {K : Keys}.
Variable GetSize : option (Z * Z).

Lemma pagerLoop_only_frames fuel n h :
  forall o stdin out rest,
    pagerLoop fuel n h o stdin = Some (out, rest) ->
    out <> [] /\ forallb isFrame out = true.
Proof.
  induction fuel as [|fuel IH]; intros o stdin out rest; simpl; [discriminate|].
  destruct stdin as [|r stdin].
  - intros E. inversion E; subst. split; [discriminate|reflexivity].
  - destruct (pagerKey n h o r stdin) as [[o' rest']|].
    + destruct (pagerLoop fuel n h o' rest') as [[out' rest'']|] eqn:El;
        [|discriminate].
      intros E. inversion E; subst. split; [discriminate|].
      simpl. eapply IH; eauto.
    + intros E. inversion E; subst. split; [discriminate|reflexivity].
Qed.

(** X1.  The pager switches to the alternate screen first and back last, on
    every input, also when it returns because a read fails; in between
    it writes frames only, and at least one. *)
Theorem pager_restores_screen (content : text) (stdin : list rune) :
  exists frames,
    fst (showPager GetSize content stdin)
    = OutEnterAltScreen :: frames ++ [OutExitAltScreen] /\
    frames <> [] /\ forallb isFrame frames = true.
Proof.
  destruct (showPager_loop GetSize content stdin) as (out & rest & E & ->).
  exists out. split; [reflexivity|]. eapply pagerLoop_only_frames; eauto.
Qed.

Lemma frame_in_range n h o :
  (0 <= h -> clamped n h o) ->
  frameInRange (OutFrame o (if n <? o + h then n else o + h) n).
Proof.
  unfold frameInRange, clamped. intros Ho i Hi.
  destruct (Z.ltb_spec n (o + h)); lia.
Qed.

Lemma pagerLoop_in_range fuel n h :
  forall o stdin out rest,
    (0 <= h -> clamped n h o) ->
    pagerLoop fuel n h o stdin = Some (out, rest) ->
    Forall frameInRange out.
Proof.
  induction fuel as [|fuel IH]; intros o stdin out rest Ho; simpl;
    [discriminate|].
  pose proof (frame_in_range Ho) as Hf.
  destruct stdin as [|r stdin].
  - intros E. inversion E; subst. auto.
  - destruct (pagerKey n h o r stdin) as [[o' rest']|] eqn:Ek.
    + destruct (pagerLoop fuel n h o' rest') as [[out' rest'']|] eqn:El;
        [|discriminate].
      intros E. inversion E; subst. constructor; [exact Hf|].
      eapply IH; [|exact El].
      intros Hh. eapply pagerKey_clamped; eauto.
    + intros E. inversion E; subst. auto.
Qed.

(** X2.  The display loop of the pager never indexes [lines] outside
    [0, len(lines)), whatever the content, the keys and the terminal
    size are (also for a terminal that reports no rows). *)
Theorem pager_displays_existing_lines (content : text) (stdin : list rune) :
  Forall frameInRange (fst (showPager GetSize content stdin)).
Proof.
  destruct (showPager_loop GetSize content stdin) as (out & rest & E & ->).
  simpl. constructor; [exact I|].
  apply Forall_app. split; [|repeat constructor].
  eapply pagerLoop_in_range; [|exact E]. intros _. apply top_clamped.
Qed.

Lemma pagerLoop_fits fuel n h :
  0 <= n <= h ->
  forall stdin out rest,
    pagerLoop fuel n h 0 stdin = Some (out, rest) ->
    Forall (eq (OutFrame 0 n n)) out.
Proof.
  intros Hn.
  assert (Hf : OutFrame 0 (if n <? h then n else h) n = OutFrame 0 n n).
  { destruct (Z.ltb_spec n h); f_equal; lia. }
  induction fuel as [|fuel IH]; intros stdin out rest; simpl; [discriminate|].
  rewrite Hf.
  destruct stdin as [|r stdin].
  - intros E. inversion E; subst. auto.
  - destruct (pagerKey n h 0 r stdin) as [[o' rest']|] eqn:Ek.
    + assert (Ho : o' = 0).
      { apply pagerKey_clamped in Ek; [|lia|apply top_clamped].
        unfold clamped in Ek. lia. }
      subst o'.
      destruct (pagerLoop fuel n h 0 rest') as [[out' rest'']|] eqn:El;
        [|discriminate].
      intros E. inversion E; subst. constructor; [reflexivity|].
      eapply IH; eauto.
    + intros E. inversion E; subst. auto.
Qed.

(** X3.  Content that has no more lines than the viewport has rows is never
    scrolled: whatever keys are read, every frame shows all the lines,
    from the first. *)
Theorem short_content_never_scrolls (content : text) (stdin : list rune) :
  Z.of_nat (length (Split content)) <= snd (termSize GetSize) ->
  exists frames,
    fst (showPager GetSize content stdin)
    = OutEnterAltScreen :: frames ++ [OutExitAltScreen] /\
    Forall (eq (OutFrame 0 (Z.of_nat (length (Split content)))
                         (Z.of_nat (length (Split content))))) frames.
Proof.
  intros Hn.
  destruct (showPager_loop GetSize content stdin) as (out & rest & E & ->).
  exists out. split; [reflexivity|].
  eapply pagerLoop_fits; [|exact E]. lia.
Qed.

(** X4.  The arrow and page keys of a terminal do in the pager what the
    letter and control keys do: [ESC [ A] is [k], [ESC [ B] is [j],
    [ESC [ 5] and [ESC [ 6] are Ctrl+B and the space bar, and take one
    more code point with them, whatever it is; Ctrl+J and Enter are
    [j], and Ctrl+F is the space bar.  [ESC] followed by anything but
    [[], and [ESC []] followed by anything but [A], [B], [5] and [6],
    change nothing.  When the input ends after [ESC] or after [ESC []]
    nothing changes either; when it ends after [ESC [ 5] or [ESC [ 6]
    the page is turned all the same: the read of the code point that
    should follow is not checked. *)
Theorem pager_arrow_keys (n h o : Z) (x : rune) (rest : list rune) :
  distinct pagerCases = true ->
  pagerKey n h o CharEsc (lit "[" :: lit "A" :: rest)
  = pagerKey n h o (lit "k") rest /\
  pagerKey n h o CharEsc (lit "[" :: lit "B" :: rest)
  = pagerKey n h o (lit "j") rest /\
  pagerKey n h o CharEsc (lit "[" :: lit "5" :: x :: rest)
  = pagerKey n h o CharBackward rest /\
  pagerKey n h o CharEsc (lit "[" :: lit "6" :: x :: rest)
  = pagerKey n h o (lit " ") rest /\
  pagerKey n h o CharCtrlJ rest = pagerKey n h o (lit "j") rest /\
  pagerKey n h o CharEnter rest = pagerKey n h o (lit "j") rest /\
  pagerKey n h o CharForward rest = pagerKey n h o (lit " ") rest /\
  (x <> lit "[" -> pagerKey n h o CharEsc (x :: rest) = Some (o, rest)) /\
  (isCase x [lit "A"; lit "B"; lit "5"; lit "6"] = false ->
   pagerKey n h o CharEsc (lit "[" :: x :: rest) = Some (o, rest)) /\
  pagerKey n h o CharEsc [] = Some (o, []) /\
  pagerKey n h o CharEsc [lit "["] = Some (o, []) /\
  pagerKey n h o CharEsc [lit "["; lit "5"] = Some (pageUp h o, []) /\
  pagerKey n h o CharEsc [lit "["; lit "6"] = Some (pageDown n h o, []) /\
  pagerKey n h o CharBackward [] = Some (pageUp h o, []) /\
  pagerKey n h o (lit " ") [] = Some (pageDown n h o, []).
Proof.
  intros Hd. unfold pagerCases in Hd. split_cases Hd.
  unfold pagerKey, ReadRune. use_facts. rewrite !Z.eqb_refl. simpl.
  repeat split.
  - intros Hx. apply Z.eqb_neq in Hx. rewrite Hx. reflexivity.
  - intros Hx. rewrite !orb_false_iff in Hx.
    destruct Hx as (HA & HB & H5 & H6 & _).
    rewrite HA, HB, H5, H6. reflexivity.
Qed.

(** X5.  The scrolling commands of the pager, for [n] lines in a viewport of
    [h] rows and an offset in range.  [g] and [G] go to the two ends of
    the range, 0 and [max(0, n - h)].  Line down and page down never
    move up, line up and page up never move down, and the line
    commands move by one line at most.  At the top, line up and page
    up change nothing; at the bottom, line down and page down change
    nothing.  Away from the ends, line down and line up undo each
    other.  Page up reaches the top exactly when the offset is no more
    than a page, page down the bottom exactly when no more than a page
    is left. *)
Theorem pager_scrolling_commands (n h o : Z) :
  0 <= h -> clamped n h o ->
  goBottom n h = Z.max 0 (n - h) /\
  (o <= lineDown n h o <= o + 1 /\ o - 1 <= lineUp o <= o /\
   o <= pageDown n h o /\ pageUp h o <= o) /\
  (lineUp 0 = 0 /\ pageUp h 0 = 0 /\
   lineDown n h (Z.max 0 (n - h)) = Z.max 0 (n - h) /\
   pageDown n h (Z.max 0 (n - h)) = Z.max 0 (n - h)) /\
  (o < Z.max 0 (n - h) -> lineUp (lineDown n h o) = o) /\
  (0 < o -> lineDown n h (lineUp o) = o) /\
  (pageUp h o = 0 <-> o <= h) /\
  (pageDown n h o = Z.max 0 (n - h) <-> Z.max 0 (n - h) <= o + h).
Proof.
  unfold clamped, goBottom, lineUp, lineDown, pageUp, pageDown.
  intros Hh Ho.
  repeat match goal with
         | |- _ /\ _ => split
         | |- _ <-> _ => split
         | |- _ -> _ => intro
         end;
    repeat match goal with
           | |- context [?a <? ?b] => destruct (Z.ltb_spec a b)
           | H : context [?a <? ?b] |- _ => destruct (Z.ltb_spec a b)
           end; lia.
Qed.

Lemma showPager_exit (content : text) (r : rune) (rest : list rune) :
  In r pagerExit ->
  showPager GetSize content (r :: rest)
  = ([OutEnterAltScreen;
      OutFrame 0 (Z.min (Z.of_nat (length (Split content)))
                        (snd (termSize GetSize)))
               (Z.of_nat (length (Split content)));
      OutExitAltScreen], rest).
Proof.
  intros Hr.
  assert (Hk : forall n h o, pagerKey n h o r rest = None).
  { intros n h o. unfold pagerKey. unfold pagerExit in Hr. simpl in Hr.
    destruct Hr as [<- | [<- | [<- | [<- | []]]]];
      rewrite Z.eqb_refl, ?orb_true_r; reflexivity. }
  unfold showPager. cbn [pagerLoop length]. rewrite Hk. simpl.
  repeat f_equal.
  destruct (Z.ltb_spec (Z.of_nat (length (Split content)))
              (snd (termSize GetSize))); lia.
Qed.

Lemma showPager_end_of_input (content : text) :
  showPager GetSize content []
  = ([OutEnterAltScreen;
      OutFrame 0 (Z.min (Z.of_nat (length (Split content)))
                        (snd (termSize GetSize)))
               (Z.of_nat (length (Split content)));
      OutExitAltScreen], []).
Proof.
  unfold showPager. simpl. repeat f_equal.
  destruct (Z.ltb_spec (Z.of_nat (length (Split content)))
              (snd (termSize GetSize))); lia.
Qed.

Lemma pagerKey_returns (n h o : Z) (r : rune) (stdin : list rune) :
  pagerKey n h o r stdin = None <-> In r pagerExit.
Proof.
  unfold pagerKey, pagerExit. simpl. split.
  - destruct (Z.eqb_spec r (lit "q")); [auto|].
    destruct (Z.eqb_spec r (lit "Q")); [auto|].
    destruct (Z.eqb_spec r CharCtrlO); [auto|].
    destruct (Z.eqb_spec r CharInterrupt); [auto 6|]. simpl.
    repeat match goal with
           | |- context [ReadRune ?l] => destruct (ReadRune l)
           | |- (if ?c then _ else _) = None -> _ => destruct c
           end; discriminate.
  - intros [<- | [<- | [<- | [<- | []]]]];
      rewrite Z.eqb_refl, ?orb_true_r; reflexivity.
Qed.

(** X15.  What closes the pager.  Of the code points its reader
    delivers, [q], [Q], Ctrl+O and Ctrl+C make the switch return, and no
    other does.  When the first one delivered is one of these four, the
    pager has shown a single frame, from the first line, between the
    two switches of screen, and has taken that code point and no more
    from its reader; when its reader has nothing to deliver, the pager
    closes in the same way. *)
Theorem pager_exit_keys (content : text) (r : rune) (rest : list rune) :
  let n := Z.of_nat (length (Split content)) in
  let shown := [OutEnterAltScreen;
                OutFrame 0 (Z.min n (snd (termSize GetSize))) n;
                OutExitAltScreen] in
  (forall n h o r stdin, pagerKey n h o r stdin = None <-> In r pagerExit) /\
  (In r pagerExit -> showPager GetSize content (r :: rest) = (shown, rest)) /\
  showPager GetSize content [] = (shown, []).
Proof.
  intros n shown. split; [|split].
  - intros n0 h o r0 stdin. apply pagerKey_returns.
  - apply showPager_exit.
  - apply showPager_end_of_input.
Qed.

End PagerMore.

(** ** What a pass of the loop leaves alone *)

Section PassFacts.
Context {K : Keys}.
Context (B : Type) {BufferOps : Buffer.Ops B}.
Context (H : Type) {HistoryOps : History.Ops H}.
Variable Termios : Type.
Variable SetRawMode : Termios + error.
Variable handleCharCtrlZ : option Termios -> text * option error.
Variable GetSize : option (Z * Z).

Local Abbreviation Loop := (Loop B H Termios).
Local Abbreviation Instance := (Instance H Termios).
Local Abbreviation iteration := (iteration handleCharCtrlZ GetSize).
Local Abbreviation dispatch := (dispatch handleCharCtrlZ GetSize).
Local Abbreviation loop := (loop handleCharCtrlZ GetSize).
Local Abbreviation reaches := (reaches handleCharCtrlZ GetSize).
Local Abbreviation Readline := (Readline SetRawMode handleCharCtrlZ GetSize).

Implicit Types (s : Loop) (i : Instance) (r : rune) (rest : list rune).

Lemma readCode_terminal n :
  forall code (t : Terminal Termios) res t',
    readCode n code t = (res, t') ->
    rawmode t' = rawmode t /\ termios t' = termios t.
Proof.
  induction n as [|n IH]; intros code t res t'; simpl.
  - intros E. inversion E; subst. split; reflexivity.
  - unfold Read. destruct (reader t) as [|r rest] eqn:Er.
    + intros E. inversion E; subst. split; reflexivity.
    + intros E. apply IH in E. exact E.
Qed.

#[local] Arguments readCode : simpl never.

Lemma showPager_no_placeholder (content : text) (stdin : list rune) :
  existsb isPlaceholder (fst (showPager GetSize content stdin)) = false.
Proof.
  destruct (showPager_loop GetSize content stdin) as (o & rest & E & ->).
  apply pagerLoop_only_frames in E. destruct E as [_ E].
  simpl. rewrite existsb_app. simpl. rewrite orb_false_r.
  clear -E. induction o as [|e o IH]; [reflexivity|].
  simpl in *. apply andb_true_iff in E. destruct E as [E1 E2].
  rewrite (IH E2). destruct e; try discriminate. reflexivity.
Qed.

Ltac effect_leaf :=
  simpl;
  repeat split;
  try reflexivity; try assumption;
  try (exists O; reflexivity);
  try (exists []; rewrite app_nil_r; split; reflexivity);
  try (eexists; split; [reflexivity|]; first [reflexivity|assumption]).

(** What the decoder does with a code point: the prompt record, the
    tool output, the raw-mode flag and the saved settings stay, the
    input left is a suffix, and what is written is added at the end,
    no placeholder among it. *)
Lemma dispatch_effect r s :
  let s' := stateOf (dispatch r s) in
  iPrompt (inst s') = iPrompt (inst s) /\
  ToolOutput (inst s') = ToolOutput (inst s) /\
  rawmode (iTerminal (inst s')) = rawmode (iTerminal (inst s)) /\
  termios (iTerminal (inst s')) = termios (iTerminal (inst s)) /\
  (exists k, pending s' = skipn k (pending s)) /\
  (exists d, out s' = out s ++ d /\ existsb isPlaceholder d = false).
Proof.
  destruct s as [[p t h pa to] b e x m c o].
  unfold dispatch, extended, escape, normal, onBuf, onInst, onHistory,
    historyPrev, historyNext, setEsc, setEscex, setMetaDel, emit,
    setHistory, setTerminal, setPasting, pending. simpl.
  repeat match goal with
         | |- context [History.Prev ?h] => destruct (History.Prev h)
         | |- context [History.Next ?h] => destruct (History.Next h)
         | |- context [showPager ?g ?c ?l] =>
             let Hk := fresh "Hk" in
             let Hq := fresh "Hq" in
             pose proof (showPager_rest g c l) as Hk;
             pose proof (showPager_no_placeholder c l) as Hq;
             destruct (showPager g c l); simpl in Hk, Hq
         | |- context [handleCharCtrlZ ?t] => destruct (handleCharCtrlZ t)
         | |- context [readCode ?n ?c ?t] =>
             let Hk := fresh "Hk" in
             let Ht := fresh "Ht" in
             let Ec := fresh "Ec" in
             destruct (readCode n c t) as [[?|] ?] eqn:Ec;
             pose proof (readCode_rest _ _ _ Ec) as Hk;
             pose proof (readCode_terminal _ _ _ Ec) as Ht;
             destruct Ht; clear Ec
         | |- context [if ?c then _ else _] => destruct c
         end; effect_leaf.
Qed.

Lemma no_placeholder_in (d : list Output) (ph : text) :
  existsb isPlaceholder d = false -> ~ In (OutPlaceholder ph) d.
Proof.
  intros Hq Hin.
  assert (Ht : existsb isPlaceholder d = true).
  { apply existsb_exists. exists (OutPlaceholder ph). split; [exact Hin|reflexivity]. }
  congruence.
Qed.

(** One pass: what it leaves alone, and what it writes.  The
    placeholder is written first, and only on an empty line out of
    paste mode (or with the alternative prompt in use); on an empty
    line the rest of the terminal line is cleared once the read is
    over, also when the read failed. *)
Lemma iteration_effect s :
  let s' := stateOf (iteration s) in
  extends s s' /\
  exists d, out s' = out s ++ d /\
    (forall ph, In (OutPlaceholder ph) d ->
       Buffer.IsEmpty (buf s) = true /\
       (Pasting (inst s) = false \/ UseAlt (iPrompt (inst s)) = true) /\
       ph = placeholder (iPrompt (inst s))) /\
    (Buffer.IsEmpty (buf s) = true ->
     Pasting (inst s) = false \/ UseAlt (iPrompt (inst s)) = true ->
     exists d', d = OutPlaceholder (placeholder (iPrompt (inst s)))
                      :: OutClearToEOL :: d') /\
    (Buffer.IsEmpty (buf s) = false -> existsb isPlaceholder d = false).
Proof.
  destruct s as [[p [rd rm tio] h pa to] b e x m c o].
  unfold iteration, Read, extends, pending. simpl.
  destruct rd as [|r rest];
    destruct (Buffer.IsEmpty b) eqn:Hie, pa, (UseAlt p) eqn:Hua; simpl;
    rewrite ?Hie; simpl.
  all: try match goal with
       | |- context [dispatch ?r ?st] =>
           let Hd := fresh "Hd" in
           pose proof (dispatch_effect r st) as Hd;
           destruct (dispatch r st); simpl in Hd |- *;
           unfold pending in Hd; simpl in Hd;
           destruct Hd as (Hd1 & Hd2 & Hd3 & Hd4 & [k Hk] & (d & Hd & Hq))
       end.
  all: rewrite <- ?app_assoc in *; simpl in *.
  all: split;
    [repeat split; auto;
     first [exists (S k); exact Hk | exists O; reflexivity
           | exists []; rewrite app_nil_r; reflexivity
           | eexists; first [exact Hd | reflexivity]]|].
  all: first [exists []; split; [rewrite app_nil_r; reflexivity|]
             | eexists; split; [first [exact Hd | reflexivity]|]].
  all: split; [|split].
  all: try (intros ph Hin; simpl in Hin;
            repeat (destruct Hin as [Hin|Hin]; try discriminate);
            try contradiction;
            try (inversion Hin; subst; auto; fail);
            exfalso; eapply no_placeholder_in; eauto; fail).
  all: try (intros Hf; try discriminate; first [exact Hq | reflexivity]; fail).
  all: intros _ Hor; try discriminate;
    destruct Hor; try discriminate; eexists; reflexivity.
Qed.

Lemma extends_refl s : extends s s.
Proof.
  unfold extends. repeat split; try reflexivity.
  - exists O. reflexivity.
  - exists []. rewrite app_nil_r. reflexivity.
Qed.

Lemma extends_trans s1 s2 s3 : extends s1 s2 -> extends s2 s3 -> extends s1 s3.
Proof.
  unfold extends.
  intros (Hp1 & Ht1 & Hr1 & Hm1 & [k1 Hk1] & [d1 Hd1])
         (Hp2 & Ht2 & Hr2 & Hm2 & [k2 Hk2] & [d2 Hd2]).
  repeat split; try congruence.
  - exists (k2 + k1)%nat. rewrite Hk2, Hk1, skipn_skipn. reflexivity.
  - exists (d1 ++ d2). rewrite Hd2, Hd1, app_assoc. reflexivity.
Qed.

Lemma reaches_extends s s' : reaches s s' -> extends s s'.
Proof.
  induction 1 as [s|s s1 s' E Hr IH]; [apply extends_refl|].
  eapply extends_trans; [|exact IH].
  pose proof (iteration_effect s) as [He _]. rewrite E in He. exact He.
Qed.

Lemma loop_extends fuel s output err s' :
  loop fuel s = Some (output, err, s') -> extends s s'.
Proof.
  intros El. apply loop_reaches in El. destruct El as (s1 & Hr & Hi).
  simpl in Hi. eapply extends_trans; [apply reaches_extends; exact Hr|].
  pose proof (iteration_effect s1) as [He _]. rewrite Hi in He. exact He.
Qed.

(** X6.  [Readline] returns, and the instance it leaves has the prompt
    record and the tool output it was given; the saved terminal
    settings are those found, or those [SetRawMode] gave on entry.  When
    there is no tool output, so that the pager is not opened, the
    input left is a suffix of the input found: [Readline] reads its
    input once, in order, and puts nothing back. *)
Theorem Readline_leaves_instance i :
  exists output err i' o,
    Readline i = Some (output, err, i', o) /\
    iPrompt i' = iPrompt i /\ ToolOutput i' = ToolOutput i /\
    (ToolOutput i = [] ->
     exists k, reader (iTerminal i') = skipn k (reader (iTerminal i))) /\
    (termios (iTerminal i') = termios (iTerminal i) \/
     exists tio, SetRawMode = inl tio /\ rawmode (iTerminal i) = false /\
                 termios (iTerminal i') = Some tio).
Proof.
  unfold Readline, enterRawMode.
  destruct (rawmode (iTerminal i)) eqn:Er; [|destruct SetRawMode as [tio|e]].
  - destruct (@loop_returns K B _ H _ Termios handleCharCtrlZ GetSize
                (S (length (reader (iTerminal i)))) (entry i))
      as [[[o e] s'] El]; [unfold pending; simpl; lia|].
    rewrite El. apply loop_extends in El.
    destruct El as (Hp & Ht & _ & Hm & Hk & _).
    exists o, e, (deferred (inst s')), (out s').
    split; [reflexivity|]. simpl. repeat split; auto.
  - match goal with
    | |- context [loop ?f (entry ?j)] =>
        destruct (@loop_returns K B _ H _ Termios handleCharCtrlZ GetSize
                    f (entry j)) as [[[o e] s'] El];
          [unfold pending; simpl; lia|]
    end.
    rewrite El. apply loop_extends in El.
    destruct El as (Hp & Ht & _ & Hm & Hk & _).
    exists o, e, (deferred (inst s')), (out s').
    split; [reflexivity|]. simpl. repeat split; auto.
    right. exists tio. repeat split; auto.
  - exists [], (Some e), i, []. split; [reflexivity|]. repeat split.
    + intros _. exists O. reflexivity.
    + left. reflexivity.
Qed.

(** X7.  When raw mode cannot be entered, [Readline] returns the error of
    [SetRawMode] with the empty line: nothing is read, nothing is
    written, not even the prompt, and the instance is as it was. *)
Theorem raw_mode_failure i (e : error) :
  rawmode (iTerminal i) = false ->
  SetRawMode = inr e ->
  Readline i = Some ([], Some e, i, []).
Proof.
  intros Hr He. unfold Readline, enterRawMode. rewrite Hr, He. reflexivity.
Qed.

(** X8.  When raw mode is on or can be entered, the first thing [Readline]
    writes is the prompt, on every input: the alternative prompt in
    paste mode or when the prompt record asks for it, the prompt
    otherwise. *)
Theorem Readline_writes_prompt_first i :
  (rawmode (iTerminal i) = false -> exists tio, SetRawMode = inl tio) ->
  exists output err i' d,
    Readline i
    = Some (output, err, i',
            OutPrompt (if Pasting i || UseAlt (iPrompt i)
                       then AltPrompt (iPrompt i)
                       else PromptStr (iPrompt i)) :: d).
Proof.
  intros Hraw.
  assert (Hp : (if Pasting i || UseAlt (iPrompt i)
                then AltPrompt (iPrompt i) else PromptStr (iPrompt i))
               = (if Pasting i then AltPrompt (iPrompt i)
                  else prompt (iPrompt i))).
  { unfold prompt. destruct (Pasting i), (UseAlt (iPrompt i)); reflexivity. }
  rewrite Hp. clear Hp.
  assert (Hin : exists i0, enterRawMode SetRawMode i = inl i0 /\
                           Pasting i0 = Pasting i /\ iPrompt i0 = iPrompt i).
  { unfold enterRawMode. destruct (rawmode (iTerminal i)); [eauto|].
    destruct (Hraw eq_refl) as [tio ->]. eauto. }
  destruct Hin as (i0 & Hi0 & Hpa & Hpr).
  unfold Readline. rewrite Hi0.
  destruct (@loop_returns K B _ H _ Termios handleCharCtrlZ GetSize
              (S (length (reader (iTerminal i0)))) (entry i0))
    as [[[o e] s'] El]; [unfold pending; simpl; lia|].
  rewrite El. apply loop_extends in El.
  destruct El as (_ & _ & _ & _ & _ & [d Hd]).
  simpl in Hd. rewrite Hd, Hpa, Hpr. eauto.
Qed.

(** X9.  What one pass of the loop writes is added to what was written
    before.  A placeholder is written only on an empty line, out of
    paste mode or with the alternative prompt in use, and then it is
    the placeholder the prompt record selects, written first and
    followed by the clearing of the rest of the line; a pass on a line
    that is not empty writes no placeholder. *)
Theorem placeholder_only_on_empty_line s :
  exists d,
    out (stateOf (iteration s)) = out s ++ d /\
    (forall ph, In (OutPlaceholder ph) d ->
       Buffer.IsEmpty (buf s) = true /\
       (Pasting (inst s) = false \/ UseAlt (iPrompt (inst s)) = true) /\
       ph = placeholder (iPrompt (inst s))) /\
    (Buffer.IsEmpty (buf s) = true ->
     Pasting (inst s) = false \/ UseAlt (iPrompt (inst s)) = true ->
     exists d', d = OutPlaceholder (placeholder (iPrompt (inst s)))
                      :: OutClearToEOL :: d') /\
    (Buffer.IsEmpty (buf s) = false -> existsb isPlaceholder d = false).
Proof. exact (proj2 (iteration_effect s)). Qed.

Lemma readCode_some (t : Terminal Termios) code t' :
  readCode 3 [] t = (Some code, t') ->
  exists x y z, reader t = x :: y :: z :: reader t' /\ code = [x; y; z].
Proof.
  unfold readCode, Read.
  destruct t as [[|x [|y [|z rest]]] rm tio]; simpl; try discriminate.
  intros E. inversion E; subst. simpl. eauto.
Qed.

Ltac pasting_cases :=
  repeat match goal with
         | |- context [History.Prev ?h] => destruct (History.Prev h)
         | |- context [History.Next ?h] => destruct (History.Next h)
         | |- context [showPager ?g ?c ?l] => destruct (showPager g c l)
         | |- context [handleCharCtrlZ ?t] => destruct (handleCharCtrlZ t)
         | |- context [stateOf (if ?c then _ else _)] => destruct c; simpl
         end;
  repeat match goal with
         | |- context [if ?c then _ else _] => destruct c; simpl
         end.

Lemma normal_pasting r s :
  Pasting (inst (stateOf (normal handleCharCtrlZ GetSize r s)))
  = Pasting (inst s).
Proof.
  destruct s as [[p t h pa to] b e x m c o].
  unfold normal, onBuf, onInst, onHistory, historyPrev, historyNext, setEsc,
    setMetaDel, emit, setHistory, setTerminal. simpl.
  pasting_cases; reflexivity.
Qed.

Lemma escape_pasting r s :
  Pasting (inst (stateOf (escape r s))) = Pasting (inst s).
Proof.
  destruct s as [[p t h pa to] b e x m c o].
  unfold escape, onBuf, setEscex. simpl.
  pasting_cases; reflexivity.
Qed.

Lemma extended_pasting r s :
  let s' := stateOf (extended r s) in
  Pasting (inst s') = Pasting (inst s) \/
  (r = CharBracketedPaste /\
   exists x y z,
     pending s = x :: y :: z :: pending s' /\
     (([x; y; z] = CharBracketedPasteStart /\ Pasting (inst s') = true) \/
      ([x; y; z] = CharBracketedPasteEnd /\ Pasting (inst s') = false))).
Proof.
  destruct s as [[p t h pa to] b e x m c o].
  unfold extended.
  destruct (r =? KeyUp);
    [left; unfold onHistory, historyPrev, setHistory; simpl;
     pasting_cases; reflexivity|].
  destruct (r =? KeyDown);
    [left; unfold onHistory, historyNext, setHistory; simpl;
     pasting_cases; reflexivity|].
  destruct (r =? KeyLeft); [left; reflexivity|].
  destruct (r =? KeyRight); [left; reflexivity|].
  destruct (Z.eqb_spec r CharBracketedPaste) as [Hr|_].
  - unfold pending. simpl.
    destruct (readCode 3 [] t) as [[code|] t'] eqn:Ec; [|left; reflexivity].
    apply readCode_some in Ec. destruct Ec as (x0 & y0 & z0 & Er & ->).
    destruct (text_eq_dec [x0; y0; z0] CharBracketedPasteStart) as [Hs|Hs];
      [|destruct (text_eq_dec [x0; y0; z0] CharBracketedPasteEnd) as [He|He]];
      simpl.
    + right. split; [exact Hr|]. exists x0, y0, z0. split; [exact Er|].
      left. split; [exact Hs|reflexivity].
    + right. split; [exact Hr|]. exists x0, y0, z0. split; [exact Er|].
      right. split; [exact He|reflexivity].
    + left. reflexivity.
  - left. simpl. pasting_cases; reflexivity.
Qed.

Lemma dispatch_pasting r s :
  let s' := stateOf (dispatch r s) in
  Pasting (inst s') = Pasting (inst s) \/
  (escex s = true /\ r = CharBracketedPaste /\
   exists x y z,
     pending s = x :: y :: z :: pending s' /\
     (([x; y; z] = CharBracketedPasteStart /\ Pasting (inst s') = true) \/
      ([x; y; z] = CharBracketedPasteEnd /\ Pasting (inst s') = false))).
Proof.
  unfold dispatch.
  destruct (escex s) eqn:Hx; [|destruct (esc s) eqn:He].
  - destruct (extended_pasting r (setEscex false s)) as [Hp | (Hr & Hm)].
    + left. exact Hp.
    + right. split; [reflexivity|]. split; [exact Hr|]. exact Hm.
  - left. apply (escape_pasting r (setEsc false s)).
  - left. apply normal_pasting.
Qed.

(** X10.  Paste mode is changed by nothing but the two markers: a pass of
    the loop leaves [Pasting] as it was, unless it is in the
    extended-escape state and reads the paste introducer and then the
    three code points of the start marker (paste mode is on afterwards)
    or of the end marker (paste mode is off afterwards). *)
Theorem paste_mode_changes_only_at_markers s :
  let s' := stateOf (iteration s) in
  Pasting (inst s') = Pasting (inst s) \/
  (escex s = true /\
   exists x y z,
     pending s = CharBracketedPaste :: x :: y :: z :: pending s' /\
     (([x; y; z] = CharBracketedPasteStart /\ Pasting (inst s') = true) \/
      ([x; y; z] = CharBracketedPasteEnd /\ Pasting (inst s') = false))).
Proof.
  destruct (pending s) as [|r rest] eqn:Hp.
  - left. revert Hp. unfold pending, iteration, Read. intros E.
    destruct (Buffer.IsEmpty (buf s) && _); simpl; rewrite E; simpl;
      destruct (Buffer.IsEmpty (buf s)); reflexivity.
  - cbv zeta. rewrite (iteration_read handleCharCtrlZ GetSize s Hp).
    pose proof (dispatch_pasting r (fetched rest s)) as Hd. cbv zeta in Hd.
    rewrite fetched_escex, fetched_pending, fetched_inst in Hd.
    destruct Hd as [Hd | (Hx & -> & x & y & z & Hr & Hm)].
    + left. exact Hd.
    + right. split; [exact Hx|]. exists x, y, z.
      split; [f_equal; exact Hr|exact Hm].
Qed.

End PassFacts.

(** ** Typing, Enter, interrupt and the keys of the loop *)

Section KeyFacts2.
Context {K : Keys}.
Context (B : Type) {BufferOps : Buffer.Ops B}.
Context (H : Type) {HistoryOps : History.Ops H}.
Variable Termios : Type.
Variable SetRawMode : Termios + error.
Variable handleCharCtrlZ : option Termios -> text * option error.
Variable GetSize : option (Z * Z).

Local Abbreviation Loop := (Loop B H Termios).
Local Abbreviation Instance := (Instance H Termios).
Local Abbreviation iteration := (iteration handleCharCtrlZ GetSize).
Local Abbreviation iterations := (iterations handleCharCtrlZ GetSize).
Local Abbreviation normal := (normal handleCharCtrlZ GetSize).
Local Abbreviation loop := (loop handleCharCtrlZ GetSize).
Local Abbreviation reaches := (reaches handleCharCtrlZ GetSize).
Local Abbreviation Readline := (Readline SetRawMode handleCharCtrlZ GetSize).

Implicit Types (s : Loop) (i : Instance) (r : rune) (rest w : list rune).

Lemma printable_cons r w :
  printable (r :: w) = if CharSpace <=? r then r :: printable w else printable w.
Proof. reflexivity. Qed.

(** A run of plain code points read in the normal state with [metaDel]
    clear: those from [CharSpace] on are added to the line in order,
    the others are dropped; nothing else changes. *)
Lemma typed_run w :
  forall s rest,
    esc s = false -> escex s = false -> metaDel s = false ->
    Forall plain w ->
    pending s = w ++ rest ->
    exists s', reaches s s' /\ pending s' = rest /\
      buf s' = addAll (printable w) (buf s) /\
      iHistory (inst s') = iHistory (inst s) /\
      currentLineBuf s' = currentLineBuf s /\
      Pasting (inst s') = Pasting (inst s) /\
      esc s' = false /\ escex s' = false /\ metaDel s' = false.
Proof.
  induction w as [|r w IH]; intros s rest He Hx Hm Hpl Hp.
  - exists s. repeat split; auto. constructor.
  - inversion Hpl as [|? ? Hr Hpl']; subst.
    pose proof (iteration_normal handleCharCtrlZ GetSize _ He Hx Hp) as Hi.
    rewrite normal_default in Hi by exact Hr.
    rewrite fetched_metaDel, Hm in Hi.
    rewrite printable_cons.
    destruct (CharSpace <=? r).
    + match type of Hi with _ = Continue ?s1 =>
        destruct (IH s1 rest) as (s' & Hr' & Hp' & Hb' & Hh' & Hc' & Hpa' & Hf);
          [fields; auto..|]
      end.
      exists s'. split; [eapply reaches_next; eauto|].
      split; [exact Hp'|].
      split; [rewrite Hb'; unfold addAll; fields; reflexivity|].
      split; [rewrite Hh'; fields; reflexivity|].
      split; [rewrite Hc'; fields; reflexivity|].
      split; [rewrite Hpa'; fields; reflexivity|exact Hf].
    + match type of Hi with _ = Continue ?s1 =>
        destruct (IH s1 rest) as (s' & Hr' & Hp' & Hb' & Hh' & Hc' & Hpa' & Hf);
          [fields; auto..|]
      end.
      exists s'. split; [eapply reaches_next; eauto|].
      split; [exact Hp'|].
      split; [rewrite Hb'; unfold addAll; fields; reflexivity|].
      split; [rewrite Hh'; fields; reflexivity|].
      split; [rewrite Hc'; fields; reflexivity|].
      split; [rewrite Hpa'; fields; reflexivity|exact Hf].
Qed.

(** X11.  Typing.  A run [w] of code points that have no case of their own in
    the main switch, read in the normal state, is consumed, one pass
    each.  When [metaDel] is set the first of them is swallowed and
    clears it.  Of the others, those from [CharSpace] on are added to
    the line in the order read, and the control codes below it are
    dropped.  History, draft and paste mode stay as they are. *)
Theorem typing_adds_printable_code_points s w rest :
  esc s = false -> escex s = false ->
  Forall plain w ->
  pending s = w ++ rest ->
  exists s',
    reaches s s' /\ pending s' = rest /\
    buf s' = addAll (printable (if metaDel s then tl w else w)) (buf s) /\
    iHistory (inst s') = iHistory (inst s) /\
    currentLineBuf s' = currentLineBuf s /\
    Pasting (inst s') = Pasting (inst s) /\
    esc s' = false /\ escex s' = false /\
    metaDel s' = metaDel s && isEmptyText w.
Proof.
  intros He Hx Hpl Hp.
  destruct (metaDel s) eqn:Hm.
  - destruct w as [|r w].
    + exists s. repeat split; auto. constructor.
    + inversion Hpl as [|? ? Hr Hpl']; subst.
      pose proof (iteration_normal handleCharCtrlZ GetSize _ He Hx Hp) as Hi.
      rewrite normal_default in Hi by exact Hr.
      rewrite fetched_metaDel, Hm in Hi.
      match type of Hi with _ = Continue ?s1 =>
        destruct (@typed_run w s1 rest)
          as (s' & Hr' & Hp' & Hb' & Hh' & Hc' & Hpa' & Hf);
          [fields; auto..|]
      end.
      exists s'. split; [eapply reaches_next; eauto|].
      split; [exact Hp'|].
      split; [rewrite Hb'; unfold addAll; fields; reflexivity|].
      split; [rewrite Hh'; fields; reflexivity|].
      split; [rewrite Hc'; fields; reflexivity|].
      split; [rewrite Hpa'; fields; reflexivity|exact Hf].
  - destruct (@typed_run w s rest He Hx Hm Hpl Hp)
      as (s' & Hr' & Hp' & Hb' & Hh' & Hc' & Hpa' & He' & Hx' & Hm').
    exists s'. repeat split; auto.
Qed.

Lemma enterRawMode_enters i :
  (rawmode (iTerminal i) = false -> exists tio, SetRawMode = inl tio) ->
  exists i0,
    enterRawMode SetRawMode i = inl i0 /\
    reader (iTerminal i0) = reader (iTerminal i) /\
    iPrompt i0 = iPrompt i /\ iHistory i0 = iHistory i /\
    Pasting i0 = Pasting i /\ ToolOutput i0 = ToolOutput i.
Proof.
  intros Hraw. unfold enterRawMode.
  destruct (rawmode (iTerminal i)).
  - exists i. repeat split; reflexivity.
  - destruct (Hraw eq_refl) as [tio ->]. eexists. split; [reflexivity|].
    repeat split; reflexivity.
Qed.

Hypothesis HK : keysOK = true.

(** X12.  [Readline] from the call to the return, on a line that is typed and
    ended by Enter: the line returned is the text of a new buffer to
    which the printable code points typed were added in order; it is
    recorded in the history unless it is empty; what follows the Enter
    is left unread; the last thing written is the newline. *)
Theorem Readline_returns_typed_line i w r rest :
  (rawmode (iTerminal i) = false -> exists tio, SetRawMode = inl tio) ->
  Forall plain w ->
  r = CharEnter \/ r = CharCtrlJ ->
  reader (iTerminal i) = w ++ r :: rest ->
  let line :=
    Buffer.String (addAll (printable w) (Buffer.NewBuffer (iPrompt i))) in
  exists i' o,
    Readline i = Some (line, None, i', o ++ [OutNewline]) /\
    reader (iTerminal i') = rest /\
    iHistory i' = (if isEmptyText line then iHistory i
                   else History.Add line (iHistory i)) /\
    Pasting i' = Pasting i.
Proof.
  intros Hraw Hpl Hr Hin line.
  destruct (enterRawMode_enters i Hraw) as (i0 & Hi0 & Hrd & Hpr & Hh & Hpa & _).
  unfold Readline. rewrite Hi0.
  destruct (@typed_run w (entry i0) (r :: rest))
    as (s1 & Hr1 & Hp1 & Hb1 & Hh1 & _ & Hpa1 & He1 & Hx1 & _);
    [reflexivity| reflexivity | reflexivity | exact Hpl
    | unfold pending; simpl; congruence |].
  pose proof (iteration_normal handleCharCtrlZ GetSize _ He1 Hx1 Hp1) as Hi.
  rewrite normal_Enter in Hi by assumption.
  cbv zeta in Hi. rewrite fetched_buf in Hi.
  assert (Hline : Buffer.String (buf s1) = line).
  { rewrite Hb1. simpl. rewrite Hpr. reflexivity. }
  rewrite Hline in Hi.
  erewrite reaches_loop; [|exact Hr1|exact Hi|unfold pending; simpl; lia].
  simpl in Hh1, Hpa1.
  destruct (isEmptyText line); fields;
    eexists; eexists; (split; [reflexivity|]); repeat split;
    unfold deferred, setTerminal, setHistory; simpl; congruence.
Qed.

(** X13.  [Readline] from the call to the return, on a line that is typed and
    then interrupted: the empty line and [ErrInterrupt] are returned,
    what was typed is neither returned nor recorded in the history, and
    what follows the interrupt code is left unread. *)
Theorem interrupt_discards_line i w rest :
  (rawmode (iTerminal i) = false -> exists tio, SetRawMode = inl tio) ->
  Forall plain w ->
  reader (iTerminal i) = w ++ CharInterrupt :: rest ->
  exists i' o,
    Readline i = Some ([], Some ErrInterrupt, i', o) /\
    reader (iTerminal i') = rest /\
    iHistory i' = iHistory i /\
    Pasting i' = Pasting i.
Proof.
  intros Hraw Hpl Hin.
  destruct (enterRawMode_enters i Hraw) as (i0 & Hi0 & Hrd & Hpr & Hh & Hpa & _).
  unfold Readline. rewrite Hi0.
  destruct (@typed_run w (entry i0) (CharInterrupt :: rest))
    as (s1 & Hr1 & Hp1 & Hb1 & Hh1 & _ & Hpa1 & He1 & Hx1 & _);
    [reflexivity| reflexivity | reflexivity | exact Hpl
    | unfold pending; simpl; congruence |].
  pose proof (iteration_normal handleCharCtrlZ GetSize _ He1 Hx1 Hp1) as Hi.
  rewrite normal_CharInterrupt in Hi by assumption.
  erewrite reaches_loop; [|exact Hr1|exact Hi|unfold pending; simpl; lia].
  simpl in Hh1, Hpa1. fields.
  eexists; eexists; (split; [reflexivity|]); repeat split;
    unfold deferred, setTerminal; simpl; congruence.
Qed.

(** X14.  Ctrl+O with no tool output to show: the bell is rung, and that is
    all; the pass reads nothing further and leaves the editing session
    as it was. *)
Theorem ctrl_o_without_tool_output s rest :
  esc s = false -> escex s = false ->
  pending s = CharCtrlO :: rest ->
  ToolOutput (inst s) = [] ->
  exists s',
    iteration s = Continue s' /\
    session s' = session s /\
    pending s' = rest /\
    out s' = out (fetched rest s) ++ [OutBell].
Proof.
  intros He Hx Hp Ho.
  rewrite (iteration_normal _ _ _ He Hx Hp), normal_CharCtrlO by exact HK.
  fields. rewrite Ho. simpl.
  eexists. split; [reflexivity|].
  rewrite session_fields. fields. repeat split; reflexivity.
Qed.

End KeyFacts2.

(** ** Escape sequences and the control codes they stand for *)

Section ArrowFacts.
Context {K : Keys}.
Context (B : Type) {BufferOps : Buffer.Ops B}.
Context (H : Type) {HistoryOps : History.Ops H}.
Variable Termios : Type.
Variable SetRawMode : Termios + error.
Variable handleCharCtrlZ : option Termios -> text * option error.
Variable GetSize : option (Z * Z).

Local Abbreviation Loop := (Loop B H Termios).
Local Abbreviation Instance := (Instance H Termios).
Local Abbreviation iteration := (iteration handleCharCtrlZ GetSize).
Local Abbreviation iterations := (iterations handleCharCtrlZ GetSize).
Local Abbreviation normal := (normal handleCharCtrlZ GetSize).
Local Abbreviation loop := (loop handleCharCtrlZ GetSize).
Local Abbreviation reaches := (reaches handleCharCtrlZ GetSize).
Local Abbreviation Readline := (Readline SetRawMode handleCharCtrlZ GetSize).

Implicit Types (s : Loop) (i : Instance) (r : rune) (rest w : list rune).

Hypothesis HK : keysOK = true.

(** The three passes that read [ESC [ e]. *)
Lemma escape_sequence s (e : rune) rest :
  esc s = false -> escex s = false ->
  pending s = CharEsc :: CharEscapeEx :: e :: rest ->
  exists s2,
    iterations 2 s = Continue s2 /\
    session s2 = (buf s, iHistory (inst s), currentLineBuf s,
                  Pasting (inst s), (false, true, metaDel s)) /\
    pending s2 = e :: rest.
Proof.
  intros He Hx Hp. simpl.
  rewrite (iteration_normal _ _ _ He Hx Hp), normal_CharEsc by exact HK.
  rewrite iteration_escape with (r := CharEscapeEx) (rest := e :: rest);
    fields; auto.
  rewrite escape_CharEscapeEx by exact HK.
  eexists. split; [reflexivity|]. unfold session. fields.
  split; reflexivity.
Qed.

Lemma session_onBuf (f : B -> B) s :
  session (onBuf f s)
  = (f (buf s), iHistory (inst s), currentLineBuf s, Pasting (inst s),
     (esc s, escex s, metaDel s)).
Proof. reflexivity. Qed.

Lemma session_unfold s :
  session s
  = (buf s, iHistory (inst s), currentLineBuf s, Pasting (inst s),
     (esc s, escex s, metaDel s)).
Proof. reflexivity. Qed.

(** History recall sees of a state only the line, the history and the
    draft. *)
Lemma session_onHistory_prev s1 s2 :
  session s1 = session s2 ->
  session (onHistory (@historyPrev _ _ _ _ _) s1)
  = session (onHistory (@historyPrev _ _ _ _ _) s2).
Proof.
  destruct s1 as [[p1 t1 h1 pa1 to1] b1 e1 x1 m1 c1 o1].
  destruct s2 as [[p2 t2 h2 pa2 to2] b2 e2 x2 m2 c2 o2].
  unfold session. simpl. intros E. inversion E; subst.
  unfold onHistory, historyPrev. simpl.
  destruct (0 <? History.Pos h2); [|reflexivity].
  destruct (History.Prev h2). reflexivity.
Qed.

Lemma session_onHistory_next s1 s2 :
  session s1 = session s2 ->
  session (onHistory (@historyNext _ _ _ _ _) s1)
  = session (onHistory (@historyNext _ _ _ _ _) s2).
Proof.
  destruct s1 as [[p1 t1 h1 pa1 to1] b1 e1 x1 m1 c1 o1].
  destruct s2 as [[p2 t2 h2 pa2 to2] b2 e2 x2 m2 c2 o2].
  unfold session. simpl. intros E. inversion E; subst.
  unfold onHistory, historyNext. simpl.
  destruct (History.Pos h2 <? History.Size h2); [|reflexivity].
  destruct (History.Next h2). reflexivity.
Qed.

Lemma session_onBuf_eq (f : B -> B) s1 s2 :
  session s1 = session s2 -> session (onBuf f s1) = session (onBuf f s2).
Proof.
  rewrite !session_onBuf, !session_unfold. intros E. inversion E.
  congruence.
Qed.

(** What the key after [ESC []] does, and what its control code does. *)
Lemma arrow_key_action (e c : rune) :
  In (e, c) arrowKeys ->
  exists act : Loop -> Loop,
    (forall s, extended e s = Continue (act s)) /\
    (forall s, normal c s = Continue (act s)) /\
    (forall s, pending (act s) = pending s) /\
    (forall s1 s2, session s1 = session s2 ->
                   session (act s1) = session (act s2)).
Proof.
  pose proof HK as HK'. key_facts HK'.
  unfold arrowKeys. simpl.
  intros [E | [E | [E | [E | [E | [E | []]]]]]]; inversion E; subst e c.
  - exists (onHistory (@historyPrev _ _ _ _ _)). repeat split.
    + intros s. unfold extended. rewrite Z.eqb_refl. reflexivity.
    + intros s. unfold normal. use_facts. rewrite Z.eqb_refl. reflexivity.
    + apply pending_onHistory_prev.
    + apply session_onHistory_prev.
  - exists (onHistory (@historyNext _ _ _ _ _)). repeat split.
    + intros s. unfold extended. use_facts. rewrite Z.eqb_refl. reflexivity.
    + intros s. unfold normal. use_facts. rewrite Z.eqb_refl. reflexivity.
    + apply pending_onHistory_next.
    + apply session_onHistory_next.
  - exists (onBuf Buffer.MoveLeft). repeat split.
    + intros s. unfold extended. use_facts. rewrite Z.eqb_refl. reflexivity.
    + intros s. unfold normal. use_facts. rewrite Z.eqb_refl. reflexivity.
    + apply session_onBuf_eq.
  - exists (onBuf Buffer.MoveRight). repeat split.
    + intros s. unfold extended. use_facts. rewrite Z.eqb_refl. reflexivity.
    + intros s. unfold normal. use_facts. rewrite Z.eqb_refl. reflexivity.
    + apply session_onBuf_eq.
  - exists (onBuf Buffer.MoveToStart). repeat split.
    + intros s. unfold extended. use_facts. rewrite Z.eqb_refl. reflexivity.
    + intros s. unfold normal. use_facts. rewrite Z.eqb_refl. reflexivity.
    + apply session_onBuf_eq.
  - exists (onBuf Buffer.MoveToEnd). repeat split.
    + intros s. unfold extended. use_facts. rewrite Z.eqb_refl. reflexivity.
    + intros s. unfold normal. use_facts. rewrite Z.eqb_refl. reflexivity.
    + apply session_onBuf_eq.
Qed.

Lemma session_fetched rest s : session (fetched rest s) = session s.
Proof. unfold session. fields. reflexivity. Qed.

(** X16.  The arrow keys, Home and End do what the control codes do: read in
    the normal state, [ESC [] followed by the code of arrow up, arrow
    down, arrow left, arrow right, Home or End leaves, after its three
    passes, the editing session that Ctrl+P, Ctrl+N, Ctrl+B, Ctrl+F,
    Ctrl+A or Ctrl+E leaves after its one pass, and the same input to
    come. *)
Theorem arrow_keys_as_control_keys s (e c : rune) rest :
  esc s = false -> escex s = false ->
  In (e, c) arrowKeys ->
  pending s = CharEsc :: CharEscapeEx :: e :: rest ->
  exists s3 s1,
    iterations 3 s = Continue s3 /\
    iteration (withInput (c :: rest) s) = Continue s1 /\
    session s3 = session s1 /\ pending s3 = rest /\ pending s1 = rest.
Proof.
  intros He Hx Hin Hp.
  destruct (arrow_key_action Hin) as (act & Hext & Hnorm & Hpend & Hsess).
  destruct (escape_sequence s He Hx Hp) as (s2 & H2 & Hs2 & Hp2).
  assert (Hx2 : escex s2 = true).
  { rewrite session_unfold in Hs2. injection Hs2. intros. assumption. }
  assert (H3 : iterations 3 s = iteration s2).
  { change (iterations 3 s)
      with (match iteration s with
            | Continue s1 =>
                match iteration s1 with
                | Continue s2 =>
                    match iteration s2 with
                    | Continue s3 => Continue s3
                    | Return o e0 s3 => Return o e0 s3
                    end
                | Return o e0 s2 => Return o e0 s2
                end
            | Return o e0 s1 => Return o e0 s1
            end).
    revert H2. simpl. destruct (iteration s) as [s1|]; [|discriminate].
    destruct (iteration s1) as [s2'|]; [|discriminate].
    intros E. inversion E; subst.
    destruct (iteration s2); reflexivity. }
  rewrite H3, (iteration_extended _ _ _ Hx2 Hp2), Hext.
  rewrite iteration_normal with (r := c) (rest := rest);
    [|unfold withInput; simpl; auto..].
  rewrite Hnorm.
  eexists. eexists. split; [reflexivity|]. split; [reflexivity|].
  rewrite !Hpend. fields. split; [|split; reflexivity].
  apply Hsess.
  rewrite session_unfold in Hs2. injection Hs2. intros.
  rewrite !session_unfold. fields. congruence.
Qed.

(** X17.  Ctrl+P, with no earlier line in the history to go to, and Ctrl+N,
    when the history is not being browsed, do nothing: the pass reads
    the key and leaves the line, the draft, the history and the decoder
    as they were. *)
Theorem history_keys_at_the_ends s r rest :
  esc s = false -> escex s = false ->
  pending s = r :: rest ->
  (r = CharPrev /\ History.Pos (iHistory (inst s)) <= 0) \/
  (r = CharNext /\
   History.Size (iHistory (inst s)) <= History.Pos (iHistory (inst s))) ->
  exists s',
    iteration s = Continue s' /\ session s' = session s /\
    pending s' = rest.
Proof.
  intros He Hx Hp Hr.
  rewrite (iteration_normal _ _ _ He Hx Hp).
  assert (Hh : iHistory (inst (fetched rest s)) = iHistory (inst s))
    by (fields; reflexivity).
  destruct Hr as [[-> Hpos] | [-> Hpos]].
  - apply Z.ltb_ge in Hpos.
    pose proof HK as HK'. key_facts HK'.
    unfold normal. use_facts. rewrite Z.eqb_refl.
    eexists. split; [reflexivity|].
    rewrite pending_onHistory_prev. split; [|fields; reflexivity].
    rewrite <- (session_fetched rest s).
    revert Hh. generalize (fetched rest s). intros s0 Hh.
    unfold onHistory, historyPrev. rewrite Hh, Hpos.
    destruct s0. reflexivity.
  - apply Z.ltb_ge in Hpos.
    pose proof HK as HK'. key_facts HK'.
    unfold normal. use_facts. rewrite Z.eqb_refl.
    eexists. split; [reflexivity|].
    rewrite pending_onHistory_next. split; [|fields; reflexivity].
    rewrite <- (session_fetched rest s).
    revert Hh. generalize (fetched rest s). intros s0 Hh.
    unfold onHistory, historyNext. rewrite Hh, Hpos.
    destruct s0. reflexivity.
Qed.

Lemma iteration_eof_state s :
  pending s = [] ->
  exists s', iteration s = Return [] (Some EOF) s' /\
             iHistory (inst s') = iHistory (inst s) /\
             Pasting (inst s') = Pasting (inst s) /\
             pending s' = [].
Proof.
  destruct s as [[p [rd rm tio] h pa to] b e x m c o].
  unfold pending, iteration, Read. simpl. intros ->.
  destruct (Buffer.IsEmpty b) eqn:Hie, pa, (UseAlt p); simpl; rewrite ?Hie;
    eexists; (split; [reflexivity|]); simpl; repeat split.
Qed.

(** X18.  [Readline] on an input that ends before the line is ended: the
    empty line and [io.EOF] are returned; what was typed is neither
    returned nor recorded in the history. *)
Theorem end_of_input_discards_line i w :
  (rawmode (iTerminal i) = false -> exists tio, SetRawMode = inl tio) ->
  Forall plain w ->
  reader (iTerminal i) = w ->
  exists i' o,
    Readline i = Some ([], Some EOF, i', o) /\
    reader (iTerminal i') = [] /\
    iHistory i' = iHistory i /\
    Pasting i' = Pasting i.
Proof.
  intros Hraw Hpl Hin.
  destruct (enterRawMode_enters i Hraw)
    as (i0 & Hi0 & Hrd & Hpr & Hh & Hpa & _).
  unfold Readline. rewrite Hi0.
  destruct (@typed_run K B _ H _ Termios handleCharCtrlZ GetSize w
              (entry i0) [])
    as (s1 & Hr1 & Hp1 & Hb1 & Hh1 & _ & Hpa1 & He1 & Hx1 & _);
    [reflexivity| reflexivity | reflexivity | exact Hpl
    | unfold pending; simpl; rewrite app_nil_r; congruence |].
  destruct (iteration_eof_state s1 Hp1) as (s' & Hi & Hh' & Hpa' & Hp').
  erewrite reaches_loop; [|exact Hr1|exact Hi|unfold pending; simpl; lia].
  simpl in Hh1, Hpa1.
  eexists; eexists; (split; [reflexivity|]); repeat split;
    unfold deferred, setTerminal; simpl; try congruence.
  exact Hp'.
Qed.

End ArrowFacts.

(** ** The method [SetRawMode] *)

Section RawModeFacts.
Variable H : Type.
Variable Termios : Type.

Local Abbreviation Instance := (Instance H Termios).

(** X19.  The method [SetRawMode(on)] changes nothing of the instance
    but the raw-mode flag and the saved settings.  Asked for the mode
    the terminal is in, it calls nothing and changes nothing.  Asked to
    switch raw mode off, it calls [UnsetRawMode] once, with the saved
    settings, clears the flag and keeps the settings.  Asked to switch
    it on, it calls [SetRawMode(fd)] once: on success the flag is set
    and the settings returned are saved; on failure the error is
    dropped and the instance is as it was, so that the next call tries
    again.  After a call that has left the terminal in the mode asked
    for, the same request calls nothing and changes nothing, whatever
    [SetRawMode(fd)] would answer.  The settings that a later
    [SetRawMode(false)] restores are those the successful
    [SetRawMode(true)] saved.  [Readline] enters raw mode as
    [SetRawMode(true)] does, given the same answer, when that succeeds,
    and its deferred function leaves the instance as [SetRawMode(false)]
    does. *)
Theorem SetRawMode_switches_raw_mode
        (answer answer' : Termios + error) (on : bool) (i : Instance) :
  let i' := fst (InstanceSetRawMode answer on i) in
  let calls := snd (InstanceSetRawMode answer on i) in
  (iPrompt i' = iPrompt i /\ iHistory i' = iHistory i /\
   Pasting i' = Pasting i /\ ToolOutput i' = ToolOutput i /\
   reader (iTerminal i') = reader (iTerminal i)) /\
  (rawmode (iTerminal i) = on -> i' = i /\ calls = []) /\
  (on = false -> rawmode (iTerminal i) = true ->
   rawmode (iTerminal i') = false /\
   termios (iTerminal i') = termios (iTerminal i) /\
   calls = [CallUnsetRawMode (termios (iTerminal i))]) /\
  (on = true -> rawmode (iTerminal i) = false ->
   calls = [CallSetRawMode] /\
   (forall tio, answer = inl tio ->
                rawmode (iTerminal i') = true /\
                termios (iTerminal i') = Some tio) /\
   (forall e, answer = inr e -> i' = i)) /\
  (rawmode (iTerminal i') = on ->
   InstanceSetRawMode answer' on i' = (i', [])) /\
  (forall tio,
      rawmode (iTerminal i) = false ->
      snd (InstanceSetRawMode answer' false
             (fst (InstanceSetRawMode (inl tio) true i)))
      = [CallUnsetRawMode (Some tio)]) /\
  fst (InstanceSetRawMode answer false i) = deferred i /\
  (forall i0, enterRawMode answer i = inl i0 ->
              i0 = fst (InstanceSetRawMode answer true i)).
Proof.
  destruct i as [p [rd rm tio] h pa to].
  unfold InstanceSetRawMode, enterRawMode, deferred, setTerminal. simpl.
  destruct on, rm; simpl; destruct answer as [tio'|e]; simpl;
    repeat match goal with
           | |- _ /\ _ => split
           | |- _ -> _ => intro
           | |- forall _, _ => intro
           end;
    try reflexivity; try discriminate; try congruence.
Qed.

End RawModeFacts.

(** ** The decoder's flags, and the pager's count of lines *)

Section DecoderFacts.
Context {K : Keys}.
Context (B : Type) {BufferOps : Buffer.Ops B}.
Context (H : Type) {HistoryOps : History.Ops H}.
Variable Termios : Type.
Variable handleCharCtrlZ : option Termios -> text * option error.
Variable GetSize : option (Z * Z).

Local Abbreviation Loop := (Loop B H Termios).
Local Abbreviation Instance := (Instance H Termios).
Local Abbreviation iteration := (iteration handleCharCtrlZ GetSize).
Local Abbreviation dispatch := (dispatch handleCharCtrlZ GetSize).
Local Abbreviation reaches := (reaches handleCharCtrlZ GetSize).

Implicit Types (s : Loop) (i : Instance) (r : rune) (rest : list rune).

#[local] Arguments readCode : simpl never.

Lemma dispatch_flags r s s' :
  dispatch r s = Continue s' -> esc s' && escex s' = false.
Proof.
  destruct s as [[p t h pa to] b e x m c o].
  unfold dispatch, extended, escape, normal, onBuf, onInst, onHistory,
    setEsc, setEscex, setMetaDel, emit. simpl.
  destruct x; [|destruct e].
  - repeat match goal with
           | |- context [historyPrev ?a ?b ?c] =>
               destruct (historyPrev a b c) as [[? ?] ?]
           | |- context [historyNext ?a ?b ?c] =>
               destruct (historyNext a b c) as [[? ?] ?]
           | |- context [readCode ?n ?c ?t] =>
               destruct (readCode n c t) as [[?|] ?]
           | |- (if ?c then _ else _) = _ -> _ => destruct c
           | |- context [if ?c then _ else _] => destruct c
           end;
      intros E; inversion E; subst; simpl; apply andb_false_r.
  - repeat match goal with
           | |- (if ?c then _ else _) = _ -> _ => destruct c
           | |- context [if ?c then _ else _] => destruct c
           end;
      intros E; inversion E; subst; reflexivity.
  - repeat match goal with
           | |- context [historyPrev ?a ?b ?c] =>
               destruct (historyPrev a b c) as [[? ?] ?]
           | |- context [historyNext ?a ?b ?c] =>
               destruct (historyNext a b c) as [[? ?] ?]
           | |- context [showPager ?g ?c ?l] => destruct (showPager g c l)
           | |- context [handleCharCtrlZ ?t] => destruct (handleCharCtrlZ t)
           | |- (if ?c then _ else _) = _ -> _ => destruct c
           | |- context [if ?c then _ else _] => destruct c
           end;
      intros E; inversion E; subst; reflexivity.
Qed.

Lemma iteration_flags s s' :
  iteration s = Continue s' -> esc s' && escex s' = false.
Proof.
  destruct (pending s) as [|r rest] eqn:Hp.
  - destruct (iteration_eof handleCharCtrlZ GetSize s Hp) as [s0 ->].
    discriminate.
  - rewrite (iteration_read handleCharCtrlZ GetSize s Hp).
    apply dispatch_flags.
Qed.

(** X20.  The two flags [esc] and [escex] are never both set when the loop
    of [Readline] comes to the top of its body: the decoder is in one
    of three states, the normal one, the one after [ESC] and the one
    after [ESC []. *)
Theorem decoder_flags_exclusive i s :
  reaches (entry i) s -> esc s && escex s = false.
Proof.
  assert (Hgen : forall s0 s1,
             reaches s0 s1 -> esc s0 && escex s0 = false ->
             esc s1 && escex s1 = false).
  { induction 1 as [s0|s0 s1 s2 E Hr IH]; intros H0; [exact H0|].
    apply IH. eapply iteration_flags; eauto. }
  intros Hr. eapply Hgen; [exact Hr|reflexivity].
Qed.

End DecoderFacts.

Section PagerLines.
Context {K : Keys}.
Variable GetSize : option (Z * Z).

Lemma Split_length (content : text) :
  length (Split content) = S (count_occ Z.eq_dec content 10).
Proof.
  induction content as [|c content IH]; [reflexivity|].
  simpl. destruct (Z.eqb_spec c 10) as [->|Hc].
  - destruct (Z.eq_dec 10 10) as [_|Hn]; [|contradiction].
    simpl. rewrite IH. reflexivity.
  - destruct (Z.eq_dec c 10) as [Hc'|_]; [contradiction|].
    destruct (Split content) as [|l ls]; [discriminate|].
    simpl in *. exact IH.
Qed.

Lemma pagerLoop_total fuel n h :
  forall o stdin out rest,
    pagerLoop fuel n h o stdin = Some (out, rest) ->
    Forall (fun f => match f with
                     | OutFrame _ _ total => total = n
                     | _ => True
                     end) out.
Proof.
  induction fuel as [|fuel IH]; intros o stdin out rest; simpl; [discriminate|].
  destruct stdin as [|r stdin].
  - intros E. inversion E; subst. auto.
  - destruct (pagerKey n h o r stdin) as [[o' rest']|].
    + destruct (pagerLoop fuel n h o' rest') as [[out' rest'']|] eqn:El;
        [|discriminate].
      intros E. inversion E; subst. constructor; [reflexivity|].
      eapply IH; eauto.
    + intros E. inversion E; subst. auto.
Qed.

(** X21.  The number of lines the pager shows in its status line, and scrolls
    over, is one more than the number of newlines in the content: a
    content that ends in a newline has an empty last line, and the
    empty content has one line. *)
Theorem pager_counts_lines (content : text) (stdin : list rune) :
  Forall (fun f => match f with
                   | OutFrame _ _ total =>
                       total = 1 + Z.of_nat (count_occ Z.eq_dec content 10)
                   | _ => True
                   end)
         (fst (showPager GetSize content stdin)).
Proof.
  destruct (showPager_loop GetSize content stdin) as (out & rest & E & ->).
  cbn [fst]. constructor; [exact I|].
  apply Forall_app. split; [|repeat constructor].
  apply pagerLoop_total in E. rewrite Split_length, Nat2Z.inj_succ in E.
  eapply Forall_impl; [|exact E].
  intros [] Hf; auto. rewrite Hf. lia.
Qed.

End PagerLines.

(** ** Suspend, and the delete key's flag *)

Section SuspendFacts.
Context {K : Keys}.
Context (B : Type) {BufferOps : Buffer.Ops B}.
Context (H : Type) {HistoryOps : History.Ops H}.
Variable Termios : Type.
Variable SetRawMode : Termios + error.
Variable handleCharCtrlZ : option Termios -> text * option error.
Variable GetSize : option (Z * Z).

Local Abbreviation Loop := (Loop B H Termios).
Local Abbreviation Instance := (Instance H Termios).
Local Abbreviation iteration := (iteration handleCharCtrlZ GetSize).
Local Abbreviation dispatch := (dispatch handleCharCtrlZ GetSize).
Local Abbreviation normal := (normal handleCharCtrlZ GetSize).
Local Abbreviation reaches := (reaches handleCharCtrlZ GetSize).
Local Abbreviation Readline := (Readline SetRawMode handleCharCtrlZ GetSize).

Implicit Types (s : Loop) (i : Instance) (r : rune) (rest w : list rune).

#[local] Arguments readCode : simpl never.

Lemma enterRawMode_inl i i0 :
  enterRawMode SetRawMode i = inl i0 ->
  reader (iTerminal i0) = reader (iTerminal i) /\
  iPrompt i0 = iPrompt i /\ iHistory i0 = iHistory i /\
  Pasting i0 = Pasting i /\ ToolOutput i0 = ToolOutput i /\
  (rawmode (iTerminal i) = true -> i0 = i) /\
  (rawmode (iTerminal i) = false ->
   exists tio, SetRawMode = inl tio /\ termios (iTerminal i0) = Some tio).
Proof.
  unfold enterRawMode. destruct (rawmode (iTerminal i)).
  - intros E. inversion E; subst. repeat split; auto. discriminate.
  - destruct SetRawMode as [tio|e]; [|discriminate].
    intros E. inversion E; subst. simpl. repeat split; eauto. discriminate.
Qed.

Lemma extended_metaDel r s :
  metaDel (stateOf (extended r s)) = metaDel s \/ r = KeyDel.
Proof.
  destruct s as [[p t h pa to] b e x m c o].
  unfold extended, onBuf, onInst, onHistory, setMetaDel. simpl.
  repeat match goal with
         | |- context [historyPrev ?a ?b ?c] =>
             destruct (historyPrev a b c) as [[? ?] ?]
         | |- context [historyNext ?a ?b ?c] =>
             destruct (historyNext a b c) as [[? ?] ?]
         | |- context [readCode ?n ?c ?t] =>
             destruct (readCode n c t) as [[?|] ?]
         | |- context [stateOf (if ?a =? ?b then _ else _)] =>
             destruct (Z.eqb_spec a b); simpl
         | |- context [stateOf (if ?c then _ else _)] => destruct c; simpl
         end; auto.
Qed.

Lemma escape_metaDel r s : metaDel (stateOf (escape r s)) = metaDel s.
Proof.
  destruct s as [[p t h pa to] b e x m c o].
  unfold escape, onBuf, setEscex. simpl.
  repeat match goal with
         | |- context [stateOf (if ?c then _ else _)] => destruct c; simpl
         end; reflexivity.
Qed.

Lemma normal_metaDel r s :
  metaDel (stateOf (normal r s)) = metaDel s \/
  metaDel (stateOf (normal r s)) = false.
Proof.
  destruct s as [[p t h pa to] b e x m c o].
  unfold normal, onBuf, onInst, onHistory, setEsc, setMetaDel, emit. simpl.
  repeat match goal with
         | |- context [historyPrev ?a ?b ?c] =>
             destruct (historyPrev a b c) as [[? ?] ?]
         | |- context [historyNext ?a ?b ?c] =>
             destruct (historyNext a b c) as [[? ?] ?]
         | |- context [showPager ?g ?c ?l] => destruct (showPager g c l)
         | |- context [handleCharCtrlZ ?t] => destruct (handleCharCtrlZ t)
         | |- context [stateOf (if ?c then _ else _)] => destruct c; simpl
         end;
    repeat match goal with
           | |- context [if ?c then _ else _] => destruct c; simpl
           end; auto.
Qed.

(** X22.  The flag [metaDel] is set by nothing but the delete key: when
    it is set after a pass of the loop, it was set before, or the pass
    has read [KeyDel] in the extended-escape state. *)
Theorem metaDel_set_only_by_delete_key s :
  let s' := stateOf (iteration s) in
  metaDel s' = false \/ metaDel s = true \/
  (escex s = true /\ exists rest, pending s = KeyDel :: rest).
Proof.
  cbv zeta. destruct (pending s) as [|r rest] eqn:Hp.
  - destruct (metaDel s) eqn:Hm; [right; left; reflexivity|left].
    revert Hp. destruct s as [[p [rd rm tio] h pa to] b e x m c o].
    unfold pending, iteration, Read. simpl. intros ->.
    simpl in Hm. subst m.
    destruct (Buffer.IsEmpty b) eqn:Hie, pa, (UseAlt p); simpl; rewrite ?Hie;
      reflexivity.
  - rewrite (iteration_read handleCharCtrlZ GetSize s Hp). unfold dispatch.
    rewrite fetched_escex, fetched_esc.
    destruct (escex s) eqn:Hx; [|destruct (esc s) eqn:He].
    + destruct (extended_metaDel r (setEscex false (fetched rest s)))
        as [Hm | ->].
      * rewrite Hm. simpl. rewrite fetched_metaDel.
        destruct (metaDel s); auto.
      * right; right. split; [reflexivity|]. exists rest. reflexivity.
    + rewrite (escape_metaDel r (setEsc false (fetched rest s))).
      simpl. rewrite fetched_metaDel. destruct (metaDel s); auto.
    + destruct (normal_metaDel r (fetched rest s)) as [Hm | Hm];
        rewrite Hm; [|left; reflexivity].
      rewrite fetched_metaDel. destruct (metaDel s); auto.
Qed.

Hypothesis HK : keysOK = true.

Lemma normal_CharCtrlZ s :
  normal CharCtrlZ s
  = let (output, err) := handleCharCtrlZ (termios (iTerminal (inst s))) in
    Return output err s.
Proof.
  pose proof HK as HK'. key_facts HK'. unfold normal. use_facts.
  rewrite Z.eqb_refl. reflexivity.
Qed.

(** X23.  Suspend.  When Ctrl+Z is read after typed text, [Readline]
    returns what [handleCharCtrlZ] returns, line and error, and the
    handler is given the terminal settings that were saved when raw mode
    was entered: those [SetRawMode] gave at the start of this call, or
    those the instance held if it was in raw mode already.  The history
    is as it was, the input after the key is unread, and [rawmode] is
    false on return. *)
Theorem suspend_returns_handler_result i i0 w rest :
  enterRawMode SetRawMode i = inl i0 ->
  Forall plain w ->
  reader (iTerminal i) = w ++ CharCtrlZ :: rest ->
  (exists i' o,
      Readline i
      = Some (fst (handleCharCtrlZ (termios (iTerminal i0))),
              snd (handleCharCtrlZ (termios (iTerminal i0))), i', o) /\
      reader (iTerminal i') = rest /\ iHistory i' = iHistory i /\
      rawmode (iTerminal i') = false) /\
  (rawmode (iTerminal i) = true ->
   termios (iTerminal i0) = termios (iTerminal i)) /\
  (rawmode (iTerminal i) = false ->
   exists tio, SetRawMode = inl tio /\ termios (iTerminal i0) = Some tio).
Proof.
  intros Hi0 Hpl Hin.
  destruct (enterRawMode_inl i Hi0) as (Hrd & Hpr & Hh & Hpa & _ & Hon & Hoff).
  split; [|split; [intros Hr; rewrite (Hon Hr); reflexivity|exact Hoff]].
  unfold Readline. rewrite Hi0.
  destruct (@typed_run K B _ H _ Termios handleCharCtrlZ GetSize w
              (entry i0) (CharCtrlZ :: rest))
    as (s1 & Hr1 & Hp1 & Hb1 & Hh1 & _ & Hpa1 & He1 & Hx1 & _);
    [reflexivity| reflexivity | reflexivity | exact Hpl
    | unfold pending; simpl; congruence |].
  pose proof (reaches_extends Hr1) as (_ & _ & _ & Hm & _).
  simpl in Hm.
  pose proof (iteration_normal handleCharCtrlZ GetSize _ He1 Hx1 Hp1) as Hi.
  rewrite normal_CharCtrlZ in Hi.
  rewrite fetched_inst in Hi. simpl in Hi. rewrite Hm in Hi.
  destruct (handleCharCtrlZ (termios (iTerminal i0))) as [output err].
  erewrite reaches_loop; [|exact Hr1|exact Hi|unfold pending; simpl; lia].
  simpl in Hh1. fields.
  eexists; eexists; (split; [reflexivity|]); repeat split;
    unfold deferred, setTerminal; simpl; congruence.
Qed.

End SuspendFacts.

(** ** The interrupt code, in paste mode and out of it *)

Section InterruptClaims.
Context {K : Keys}.
Context (B : Type) {BufferOps : Buffer.Ops B}.
Context (H : Type) {HistoryOps : History.Ops H}.
Variable Termios : Type.
Variable handleCharCtrlZ : option Termios -> text * option error.
Variable GetSize : option (Z * Z).

Local Abbreviation Loop := (Loop B H Termios).
Local Abbreviation iteration := (iteration handleCharCtrlZ GetSize).
Local Abbreviation dispatch := (dispatch handleCharCtrlZ GetSize).
Local Abbreviation normal := (normal handleCharCtrlZ GetSize).
Local Abbreviation loop := (loop handleCharCtrlZ GetSize).
Local Abbreviation reaches := (reaches handleCharCtrlZ GetSize).

Implicit Types (s : Loop) (r : rune) (rest : list rune).

#[local] Arguments readCode : simpl never.





End InterruptClaims.

(** * Further examples *)

Section MoreExamples.
#[local] Existing Instance ansi.
#[local] Existing Instance Example.lineOps.
#[local] Existing Instance HistoryLog.ops.

Local Abbreviation Loop := (Loop Line.t HistoryLog.t unit).
Local Abbreviation iteration :=
  (iteration Example.handleCharCtrlZ Example.GetSize).
Local Abbreviation iterations :=
  (iterations Example.handleCharCtrlZ Example.GetSize).
Local Abbreviation reaches :=
  (reaches Example.handleCharCtrlZ Example.GetSize).
Local Abbreviation ReadlineWith raw :=
  (Readline raw Example.handleCharCtrlZ Example.GetSize).
Local Abbreviation nothing := (HistoryLog.recorded []).
Local Abbreviation hi := [lit "h"; lit "i"].

(** Two lines of content in a viewport of 24 rows: [j], page down and
    [G] leave the frame as it is. *)
Lemma short_content_never_scrolls_witness :
  let content := [lit "a"; 10; lit "b"] in
  let stdin := [lit "j"; lit " "; lit "G"; lit "q"] in
  Z.of_nat (length (Split content)) <= snd (termSize (Some (80, 25))) /\
  exists frames,
    fst (showPager (Some (80, 25)) content stdin)
    = OutEnterAltScreen :: frames ++ [OutExitAltScreen] /\
    Forall (eq (OutFrame 0 2 2)) frames.
Proof.
  intros content stdin.
  assert (Hn : Z.of_nat (length (Split content))
               <= snd (termSize (Some (80, 25))))
    by (vm_compute; discriminate).
  split; [exact Hn|].
  exact (@short_content_never_scrolls ansi (Some (80, 25)) content stdin Hn).
Defined.

(** With the conventional key table: arrow up is [k], page down is the
    space bar. *)
Lemma pager_arrow_keys_witness :
  distinct pagerCases = true /\
  pagerKey 5 2 1 CharEsc [lit "["; lit "A"; lit "q"]
  = pagerKey 5 2 1 (lit "k") [lit "q"] /\
  pagerKey 5 2 1 CharEsc [lit "["; lit "6"; lit "~"; lit "q"]
  = pagerKey 5 2 1 (lit " ") [lit "q"].
Proof.
  split; [reflexivity|].
  destruct (@pager_arrow_keys ansi 5 2 1 (lit "~") [lit "q"] eq_refl)
    as (HA & _ & _ & H6 & _).
  split; [exact HA|exact H6].
Defined.

(** Five lines in two rows, from offset 1. *)
Lemma pager_scrolling_commands_witness :
  0 <= 2 /\ clamped 5 2 1 /\
  goBottom 5 2 = 3 /\ lineUp (lineDown 5 2 1) = 1 /\
  lineDown 5 2 3 = 3.
Proof.
  assert (Hh : 0 <= 2) by lia.
  assert (Hc : clamped 5 2 1) by (unfold clamped; lia).
  destruct (@pager_scrolling_commands 5 2 1 Hh Hc)
    as (Hg & _ & (_ & _ & Hd & _) & Hud & _).
  split; [exact Hh|]. split; [exact Hc|]. split; [exact Hg|].
  split; [apply Hud; lia|exact Hd].
Defined.

(** A terminal that cannot be put into raw mode. *)
Lemma raw_mode_failure_witness :
  let i : Instance HistoryLog.t unit :=
    {| iPrompt := Example.thePrompt;
       iTerminal := {| reader := [lit "x"; CharEnter];
                       rawmode := false; termios := None |};
       iHistory := nothing; Pasting := false; ToolOutput := [] |} in
  let failing : unit + error := inr (ErrOther 25) in
  rawmode (iTerminal i) = false /\ failing = inr (ErrOther 25) /\
  ReadlineWith failing i
  = Some ([], Some (ErrOther 25), i, []).
Proof.
  intros i failing. split; [reflexivity|]. split; [reflexivity|].
  exact (@raw_mode_failure ansi _ Example.lineOps _ HistoryLog.ops unit
           failing Example.handleCharCtrlZ Example.GetSize i (ErrOther 25)
           eq_refl eq_refl).
Defined.

(** The prompt [">>> "] comes first. *)
Lemma Readline_writes_prompt_first_witness :
  let i := Example.instance [lit "x"; CharEnter] nothing [] in
  (rawmode (iTerminal i) = false -> exists tio, Example.SetRawMode = inl tio) /\
  exists output err i' d,
    ReadlineWith Example.SetRawMode i = Some (output, err, i', OutPrompt [62; 62; 62; 32] :: d).
Proof.
  intros i.
  assert (Hraw : rawmode (iTerminal i) = false ->
                 exists tio, Example.SetRawMode = inl tio)
    by (intros _; exists tt; reflexivity).
  split; [exact Hraw|].
  exact (@Readline_writes_prompt_first ansi _ Example.lineOps _ HistoryLog.ops
           unit Example.SetRawMode Example.handleCharCtrlZ Example.GetSize
           i Hraw).
Defined.

(** [h], the bell code and [i] typed on a new line: the line is
    ["hi"]. *)
Lemma typing_adds_printable_code_points_witness :
  let s := Example.state (Line.mk [] 0) false false
                         [lit "h"; 7; lit "i"; CharEnter] nothing [] in
  Forall plain [lit "h"; 7; lit "i"] /\
  exists s', reaches s s' /\ pending s' = [CharEnter] /\
             buf s' = Line.mk hi 2.
Proof.
  intros s.
  assert (Hpl : Forall plain [lit "h"; 7; lit "i"]) by (repeat constructor).
  split; [exact Hpl|].
  destruct (@typing_adds_printable_code_points ansi _ Example.lineOps _
              HistoryLog.ops unit Example.handleCharCtrlZ Example.GetSize
              s [lit "h"; 7; lit "i"] [CharEnter] eq_refl eq_refl Hpl eq_refl)
    as (s' & Hr & Hp & Hb & _).
  exists s'. split; [exact Hr|]. split; [exact Hp|]. exact Hb.
Defined.

(** ["hi"] and Enter: the line is returned and recorded, the [x] after
    it is left. *)
Lemma Readline_returns_typed_line_witness :
  let i := Example.instance [lit "h"; lit "i"; CharEnter; lit "x"] nothing [] in
  keysOK = true /\ Forall plain hi /\
  exists i' o,
    ReadlineWith Example.SetRawMode i = Some (hi, None, i', o ++ [OutNewline]) /\
    reader (iTerminal i') = [lit "x"] /\
    iHistory i' = HistoryLog.recorded [hi].
Proof.
  intros i.
  assert (Hpl : Forall plain hi) by (repeat constructor).
  assert (Hraw : rawmode (iTerminal i) = false ->
                 exists tio, Example.SetRawMode = inl tio)
    by (intros _; exists tt; reflexivity).
  split; [reflexivity|]. split; [exact Hpl|].
  destruct (@Readline_returns_typed_line ansi _ Example.lineOps _
              HistoryLog.ops unit Example.SetRawMode Example.handleCharCtrlZ
              Example.GetSize eq_refl i hi CharEnter [lit "x"]
              Hraw Hpl (or_introl eq_refl) eq_refl)
    as (i' & o & E & Hrd & Hh & _).
  exists i', o. split; [exact E|]. split; [exact Hrd|exact Hh].
Defined.

(** ["hi"] and Ctrl+C: nothing is returned or recorded. *)
Lemma interrupt_discards_line_witness :
  let i := Example.instance [lit "h"; lit "i"; CharInterrupt; lit "x"]
                            nothing [] in
  keysOK = true /\ Forall plain hi /\
  exists i' o,
    ReadlineWith Example.SetRawMode i = Some ([], Some ErrInterrupt, i', o) /\
    reader (iTerminal i') = [lit "x"] /\
    iHistory i' = nothing.
Proof.
  intros i.
  assert (Hpl : Forall plain hi) by (repeat constructor).
  assert (Hraw : rawmode (iTerminal i) = false ->
                 exists tio, Example.SetRawMode = inl tio)
    by (intros _; exists tt; reflexivity).
  split; [reflexivity|]. split; [exact Hpl|].
  destruct (@interrupt_discards_line ansi _ Example.lineOps _
              HistoryLog.ops unit Example.SetRawMode Example.handleCharCtrlZ
              Example.GetSize eq_refl i hi [lit "x"] Hraw Hpl eq_refl)
    as (i' & o & E & Hrd & Hh & _).
  exists i', o. split; [exact E|]. split; [exact Hrd|exact Hh].
Defined.

(** ["hi"] and the end of the input. *)
Lemma end_of_input_discards_line_witness :
  let i := Example.instance hi nothing [] in
  Forall plain hi /\
  exists i' o,
    ReadlineWith Example.SetRawMode i = Some ([], Some EOF, i', o) /\
    iHistory i' = nothing.
Proof.
  intros i.
  assert (Hpl : Forall plain hi) by (repeat constructor).
  assert (Hraw : rawmode (iTerminal i) = false ->
                 exists tio, Example.SetRawMode = inl tio)
    by (intros _; exists tt; reflexivity).
  split; [exact Hpl|].
  destruct (@end_of_input_discards_line ansi _ Example.lineOps _
              HistoryLog.ops unit Example.SetRawMode Example.handleCharCtrlZ
              Example.GetSize i hi Hraw Hpl eq_refl)
    as (i' & o & E & _ & Hh & _).
  exists i', o. split; [exact E|exact Hh].
Defined.

(** Ctrl+O on ["foo"] with no tool output. *)
Lemma ctrl_o_without_tool_output_witness :
  let s := Example.state (Line.typed Example.foo) false false
                         [CharCtrlO; lit "x"] nothing [] in
  keysOK = true /\ ToolOutput (inst s) = [] /\
  exists s', iteration s = Continue s' /\ session s' = session s /\
             pending s' = [lit "x"] /\ out s' = [OutBell].
Proof.
  intros s. split; [reflexivity|]. split; [reflexivity|].
  destruct (@ctrl_o_without_tool_output ansi _ Example.lineOps _
              HistoryLog.ops unit Example.handleCharCtrlZ Example.GetSize
              eq_refl s [lit "x"] eq_refl eq_refl eq_refl eq_refl)
    as (s' & E & Hs & Hp & Ho).
  exists s'. split; [exact E|]. split; [exact Hs|]. split; [exact Hp|exact Ho].
Defined.

(** Two lines of content; the pager's reader delivers Ctrl+C and
    [x]. *)
Lemma pager_exit_keys_witness :
  In CharInterrupt pagerExit /\
  showPager Example.GetSize [lit "o"; 10; lit "k"] [CharInterrupt; lit "x"]
  = ([OutEnterAltScreen; OutFrame 0 2 2; OutExitAltScreen], [lit "x"]).
Proof.
  assert (Hr : In CharInterrupt pagerExit)
    by (right; right; right; left; reflexivity).
  split; [exact Hr|].
  destruct (@pager_exit_keys ansi Example.GetSize [lit "o"; 10; lit "k"]
              CharInterrupt [lit "x"]) as (_ & Hexit & _).
  exact (Hexit Hr).
Defined.

(** Arrow up and Ctrl+P on ["hello"] over the history a, b, c. *)
Lemma arrow_keys_as_control_keys_witness :
  let s := Example.state (Line.typed Example.hello) false false
                         [CharEsc; CharEscapeEx; KeyUp; lit "x"]
                         (HistoryLog.recorded Example.abc) [] in
  keysOK = true /\ In (KeyUp, CharPrev) arrowKeys /\
  exists s3 s1,
    iterations 3 s = Continue s3 /\
    iteration (withInput [CharPrev; lit "x"] s) = Continue s1 /\
    session s3 = session s1 /\ buf s3 = Line.mk [lit "c"] 1.
Proof.
  intros s.
  assert (Hin : In (KeyUp, CharPrev) arrowKeys) by (left; reflexivity).
  split; [reflexivity|]. split; [exact Hin|].
  destruct (@arrow_keys_as_control_keys ansi _ Example.lineOps _
              HistoryLog.ops unit Example.handleCharCtrlZ Example.GetSize
              eq_refl s KeyUp CharPrev [lit "x"] eq_refl eq_refl Hin eq_refl)
    as (s3 & s1 & E3 & E1 & Hs & _).
  assert (Hb : buf (stateOf (iterations 3 s)) = Line.mk [lit "c"] 1)
    by reflexivity.
  rewrite E3 in Hb.
  exists s3, s1. split; [exact E3|]. split; [exact E1|]. split; [exact Hs|].
  exact Hb.
Defined.

(** Ctrl+P on ["foo"] with an empty history. *)
Lemma history_keys_at_the_ends_witness :
  let s := Example.state (Line.typed Example.foo) false false
                         [CharPrev; lit "x"] nothing [] in
  keysOK = true /\ History.Pos (iHistory (inst s)) <= 0 /\
  exists s', iteration s = Continue s' /\ session s' = session s /\
             pending s' = [lit "x"].
Proof.
  intros s.
  assert (Hpos : History.Pos (iHistory (inst s)) <= 0)
    by (vm_compute; discriminate).
  split; [reflexivity|]. split; [exact Hpos|].
  exact (@history_keys_at_the_ends ansi _ Example.lineOps _
           HistoryLog.ops unit Example.handleCharCtrlZ Example.GetSize
           eq_refl s CharPrev [lit "x"] eq_refl eq_refl eq_refl
           (or_introl (conj eq_refl Hpos))).
Defined.

(** After [ESC []] the decoder is in its extended-escape state, and
    [esc] is clear. *)
Lemma decoder_flags_exclusive_witness :
  let i := Example.instance [CharEsc; CharEscapeEx; KeyUp] nothing [] in
  exists s, reaches (entry i) s /\ escex s = true /\
            esc s && escex s = false.
Proof.
  intros i.
  assert (Hr : reaches (entry i) (stateOf (iterations 2 (entry i)))).
  { eapply reaches_next; [reflexivity|].
    eapply reaches_next; [reflexivity|]. apply reaches_here. }
  exists (stateOf (iterations 2 (entry i))).
  split; [exact Hr|]. split; [reflexivity|].
  exact (@decoder_flags_exclusive ansi _ Example.lineOps _ HistoryLog.ops unit
           Example.handleCharCtrlZ Example.GetSize i _ Hr).
Defined.

(** ["hi"] and Ctrl+Z, with a suspend handler that returns the empty
    line and no error. *)
Lemma suspend_returns_handler_result_witness :
  let i := Example.instance [lit "h"; lit "i"; CharCtrlZ; lit "x"] nothing [] in
  keysOK = true /\ enterRawMode Example.SetRawMode i = inl i /\
  Forall plain hi /\
  exists i' o,
    ReadlineWith Example.SetRawMode i = Some ([], None, i', o) /\
    reader (iTerminal i') = [lit "x"] /\ iHistory i' = nothing.
Proof.
  intros i.
  assert (Hpl : Forall plain hi) by (repeat constructor).
  split; [reflexivity|]. split; [reflexivity|]. split; [exact Hpl|].
  destruct (@suspend_returns_handler_result ansi _ Example.lineOps _
              HistoryLog.ops unit Example.SetRawMode Example.handleCharCtrlZ
              Example.GetSize eq_refl i i hi [lit "x"] eq_refl Hpl eq_refl)
    as [(i' & o & E & Hrd & Hh & _) _].
  exists i', o. split; [exact E|]. split; [exact Hrd|exact Hh].
Defined.



End MoreExamples.
